(** * Wildlife locator: the search pipeline of [src/App.js]

    [src/App.js] holds three versions of the React Native component [App]:

    - the autofill version (lines 1-227), module [Autofill]: debounced
      species suggestions, project search by keyword, survey markers,
      metadata for the keyword's projects;
    - the species version (lines 228-688), module [Species]: sorted
      suggestions, surveys by species inside a circle, survey counts per
      project, markers grouped by coordinate, annotated metadata;
    - the keyword version (lines 689-927), module [Keyword]: project search
      by keyword, circle filter on projects, metadata sorted by load date.

    The component state ([useState] cells) is a record; an [async] function
    is a computation in a state-and-exception monad over that record, the
    log of outbound requests and the console.  The remote service is an
    arbitrary function from requests to settled promises.

    Typing discipline for the JSON the service returns: a field the source
    reads through [?.], [|| default], [Array.isArray] or a truthiness test
    may be absent; a field the source dereferences unguarded is a record
    field.  Coordinates and the radius are JavaScript numbers: the code only
    copies them and renders them in template literals, so their type [Num]
    and rendering [Num_toString] are parameters.  Project identifiers are
    integers, strings or [undefined]; a string is held as the UTF-8 bytes
    of the JavaScript string. *)

From Stdlib Require Import List String Ascii ZArith NArith Bool Lia.
From Stdlib Require Import Sorted Permutation DecimalString OrderedTypeEx.
Import ListNotations.

Local Open Scope string_scope.
Local Open Scope list_scope.

Set Implicit Arguments.

(** * JavaScript primitives *)

(** A value read from a [ProjectID] or [TaxonID] field. *)
Inductive JsId : Type :=
| IdUndefined
| IdNumber (n : Z)
| IdString (s : string).

(** SameValueZero, the equality of [Array.prototype.includes] and of [Map]
    keys (no coercion between a number and a string). *)
Definition JsId_eqb (a b : JsId) : bool :=
  match a, b with
  | IdUndefined, IdUndefined => true
  | IdNumber n, IdNumber m => Z.eqb n m
  | IdString s, IdString t => String.eqb s t
  | _, _ => false
  end.

(** ToBoolean: what [if (projectID)] tests. *)
Definition truthy (a : JsId) : bool :=
  match a with
  | IdUndefined => false
  | IdNumber n => negb (Z.eqb n 0)
  | IdString s => negb (String.eqb s "")
  end.

(** Number::toString on an integer, in decimal digits.  This is what
    JavaScript prints for the integers below [10^21] in absolute value;
    larger numbers are printed with an exponent, and identifiers are not
    taken that large. *)
Definition Number_toString (n : Z) : string :=
  NilZero.string_of_int (Z.to_int n).

(** ToString, as a template literal applies it. *)
Definition ToString (a : JsId) : string :=
  match a with
  | IdUndefined => "undefined"
  | IdNumber n => Number_toString n
  | IdString s => s
  end.

(** [Array.prototype.join]: [undefined] elements render as the empty
    string. *)
Definition join_element (a : JsId) : string :=
  match a with
  | IdUndefined => ""
  | _ => ToString a
  end.

Definition Array_join (sep : string) (l : list JsId) : string :=
  String.concat sep (map join_element l).

Definition Array_includes (l : list JsId) (x : JsId) : bool :=
  existsb (JsId_eqb x) l.

(** A text field that is only displayed; [None] is [undefined]. *)
Definition JsText : Type := option string.

(** [s.trim() === '']: the text holds nothing but the characters that
    [String.prototype.trim] strips, the WhiteSpace and LineTerminator code
    points of ECMAScript, read off the UTF-8 bytes of the text.

    One byte: U+0009 to U+000D and U+0020.  A byte 160 where a character
    starts is U+00A0 in a one-byte encoding and is read as that. *)
Definition is_whitespace (c : ascii) : bool :=
  let n := nat_of_ascii c in
  (Nat.leb 9 n && Nat.leb n 13) || Nat.eqb n 32 || Nat.eqb n 160.

(** Two bytes: U+00A0 (C2 A0). *)
Definition is_whitespace2 (c1 c2 : ascii) : bool :=
  Nat.eqb (nat_of_ascii c1) 194 && Nat.eqb (nat_of_ascii c2) 160.

(** Three bytes: U+1680 (E1 9A 80), U+2000 to U+200A (E2 80 80 to
    E2 80 8A), U+2028 and U+2029 (E2 80 A8, E2 80 A9), U+202F (E2 80 AF),
    U+205F (E2 81 9F), U+3000 (E3 80 80) and U+FEFF (EF BB BF). *)
Definition is_whitespace3 (c1 c2 c3 : ascii) : bool :=
  let n1 := nat_of_ascii c1 in
  let n2 := nat_of_ascii c2 in
  let n3 := nat_of_ascii c3 in
  (Nat.eqb n1 225 && Nat.eqb n2 154 && Nat.eqb n3 128)
  || (Nat.eqb n1 226 && Nat.eqb n2 128
      && ((Nat.leb 128 n3 && Nat.leb n3 138)
          || Nat.eqb n3 168 || Nat.eqb n3 169 || Nat.eqb n3 175))
  || (Nat.eqb n1 226 && Nat.eqb n2 129 && Nat.eqb n3 159)
  || (Nat.eqb n1 227 && Nat.eqb n2 128 && Nat.eqb n3 128)
  || (Nat.eqb n1 239 && Nat.eqb n2 187 && Nat.eqb n3 191).

Fixpoint trim_is_empty (s : string) : bool :=
  match s with
  | EmptyString => true
  | String c1 r1 =>
      if is_whitespace c1 then trim_is_empty r1
      else
        match r1 with
        | EmptyString => false
        | String c2 r2 =>
            if is_whitespace2 c1 c2 then trim_is_empty r2
            else
              match r2 with
              | EmptyString => false
              | String c3 r3 =>
                  if is_whitespace3 c1 c2 c3 then trim_is_empty r3 else false
              end
        end
  end.

(** ** [Array.prototype.sort]

    The comparator returns a number, [None] standing for NaN, which
    SortCompare reads as [+0].  The sort is stable (ECMAScript 2019), so
    for a consistent comparator its result is the one of any stable sort;
    insertion from the right is the one written here.  For a comparator
    that is not consistent on the elements ECMAScript leaves the order to
    the implementation.  The order is proved for consistent comparators
    only; the one run shown with another comparator is on an array whose
    neighbours all tie, which an insertion sort, a merge sort and a
    run-detecting sort each leave as it is. *)
Section ArraySort.
Context {A : Type}.
Variable comparefn : A -> A -> option Z.

Definition before_or_tie (x y : A) : bool :=
  match comparefn x y with
  | Some v => Z.leb v 0
  | None => true
  end.

Fixpoint sort_insert (x : A) (l : list A) : list A :=
  match l with
  | [] => [x]
  | y :: r => if before_or_tie x y then x :: y :: r else y :: sort_insert x r
  end.

Fixpoint Array_sort (l : list A) : list A :=
  match l with
  | [] => []
  | x :: r => sort_insert x (Array_sort r)
  end.
End ArraySort.

(** ** [Map] with identifier keys: insertion order, SameValueZero keys *)
Module JsMap.
Definition t (V : Type) : Type := list (JsId * V).

Definition empty {V : Type} : t V := [].

Fixpoint get {V : Type} (m : t V) (k : JsId) : option V :=
  match m with
  | [] => None
  | (k', v) :: r => if JsId_eqb k k' then Some v else get r k
  end.

(** An existing key keeps its place; a new key goes last. *)
Fixpoint set {V : Type} (m : t V) (k : JsId) (v : V) : t V :=
  match m with
  | [] => [(k, v)]
  | (k', v') :: r =>
      if JsId_eqb k k' then (k', v) :: r else (k', v') :: set r k v
  end.

Definition keys {V : Type} (m : t V) : list JsId := map fst m.
End JsMap.

(** ** A plain object used as a dictionary ([{}])

    Own properties are kept in creation order.  A read also finds the
    properties inherited from [Object.prototype]; [Object.values] lists
    array-index keys first, in ascending order, then the other keys in
    creation order. *)
Module JsObject.
Definition t (V : Type) : Type := list (string * V).

Definition empty {V : Type} : t V := [].

Definition prototype_names : list string :=
  [ "constructor"; "__proto__"; "hasOwnProperty"; "isPrototypeOf";
    "propertyIsEnumerable"; "toLocaleString"; "toString"; "valueOf";
    "__defineGetter__"; "__defineSetter__"; "__lookupGetter__";
    "__lookupSetter__" ].

Inductive Lookup (V : Type) : Type :=
| OwnProperty (v : V)
| InheritedProperty
| NoProperty.
Arguments InheritedProperty {V}.
Arguments NoProperty {V}.

Fixpoint own {V : Type} (o : t V) (k : string) : option V :=
  match o with
  | [] => None
  | (k', v) :: r => if String.eqb k k' then Some v else own r k
  end.

Definition get {V : Type} (o : t V) (k : string) : Lookup V :=
  match own o k with
  | Some v => OwnProperty v
  | None =>
      if existsb (String.eqb k) prototype_names
      then InheritedProperty else NoProperty
  end.

Fixpoint set {V : Type} (o : t V) (k : string) (v : V) : t V :=
  match o with
  | [] => [(k, v)]
  | (k', v') :: r =>
      if String.eqb k k' then (k', v) :: r else (k', v') :: set r k v
  end.

(** The canonical numeric strings below [2^32 - 1]. *)
Definition array_index (k : string) : option N :=
  match NilEmpty.uint_of_string k with
  | Some u =>
      let n := N.of_uint u in
      if String.eqb (NilZero.string_of_uint (N.to_uint n)) k
         && N.ltb n 4294967295
      then Some n else None
  | None => None
  end.

Fixpoint insert_index {V : Type} (n : N) (v : V) (l : list (N * V))
  : list (N * V) :=
  match l with
  | [] => [(n, v)]
  | (m, w) :: r =>
      if N.leb n m then (n, v) :: (m, w) :: r
      else (m, w) :: insert_index n v r
  end.

Fixpoint index_entries {V : Type} (o : t V) : list (N * V) :=
  match o with
  | [] => []
  | (k, v) :: r =>
      match array_index k with
      | Some n => insert_index n v (index_entries r)
      | None => index_entries r
      end
  end.

Fixpoint named_entries {V : Type} (o : t V) : list V :=
  match o with
  | [] => []
  | (k, v) :: r =>
      match array_index k with
      | Some _ => named_entries r
      | None => v :: named_entries r
      end
  end.

Definition values {V : Type} (o : t V) : list V :=
  map snd (index_entries o) ++ named_entries o.
End JsObject.

(** * Exceptions, promises and the monad of [async] functions *)

Inductive Exn : Type :=
| TransportError (reason : string)   (* a rejected [axios.get] *)
| TypeError (what : string).         (* a property read on [undefined] *)

Inductive Completion (A : Type) : Type :=
| Normal (a : A)
| Throw (e : Exn).
Arguments Throw {A} e.

(** What the code keeps besides its [useState] cells. *)
Record World (UI Req : Type) : Type := mkWorld {
  ui : UI;
  requests : list Req;       (* outbound GETs, oldest first *)
  console : list string;     (* [console.error] labels, oldest first *)
  alerts : list string       (* [alert] texts, oldest first *)
}.

Section Monad.
Context {UI Req : Type}.

Definition M (A : Type) : Type :=
  World UI Req -> Completion A * World UI Req.

Definition ret {A : Type} (a : A) : M A := fun w => (Normal a, w).

Definition throw {A : Type} (e : Exn) : M A := fun w => (Throw e, w).

Definition bind {A B : Type} (c : M A) (k : A -> M B) : M B :=
  fun w =>
    match c w with
    | (Normal a, w') => k a w'
    | (Throw e, w') => (Throw e, w')
    end.

(** [try { body } catch (error) { handler }] *)
Definition try_catch {A : Type} (body : M A) (handler : Exn -> M A) : M A :=
  fun w =>
    match body w with
    | (Normal a, w') => (Normal a, w')
    | (Throw e, w') => handler e w'
    end.

(** [try { body } finally { fin }]: [fin] runs on every exit, and the
    completion of [body] stands unless [fin] throws. *)
Definition try_finally {A : Type} (body : M A) (fin : M unit) : M A :=
  fun w =>
    match body w with
    | (r, w') =>
        match fin w' with
        | (Normal _, w'') => (r, w'')
        | (Throw e, w'') => (Throw e, w'')
        end
    end.

Definition update_ui (f : UI -> UI) : M unit :=
  fun w => (Normal tt, mkWorld (f (ui w)) (requests w) (console w) (alerts w)).

Definition read_ui : M UI := fun w => (Normal (ui w), w).

Definition send (r : Req) : M unit :=
  fun w => (Normal tt, mkWorld (ui w) (requests w ++ [r]) (console w) (alerts w)).

Definition console_error (label : string) : M unit :=
  fun w => (Normal tt, mkWorld (ui w) (requests w) (console w ++ [label]) (alerts w)).

Definition alert (text : string) : M unit :=
  fun w => (Normal tt, mkWorld (ui w) (requests w) (console w) (alerts w ++ [text])).

(** The world an [async] function leaves behind. *)
Definition exec {A : Type} (c : M A) (w : World UI Req) : World UI Req :=
  snd (c w).
End Monad.

Declare Scope js_scope.
Delimit Scope js_scope with js.
Notation "x <- c ;; k" := (bind c (fun x => k))
  (at level 61, c at next level, right associativity) : js_scope.
Notation "c ;; k" := (bind c (fun _ => k))
  (at level 61, right associativity) : js_scope.
Local Open Scope js_scope.

(** * The directory service *)

(** The five operations of [https://apps.des.qld.gov.au/species/]. *)
Inductive Request : Type :=
| SpeciesSearch (species : string)
| ProjectSearch (projtitle : string)
| GetProjects (circle : string)
| GetSurveys (projids : list JsId) (circle : string)
| GetSurveysBySpecies (taxonid : JsId) (circle : string)
| GetProjectsMetadataById (projids : list JsId).

Definition endpoint : string := "https://apps.des.qld.gov.au/species/".

(** The URL handed to [axios.get]; [encode] is [encodeURIComponent]. *)
Definition url (encode : string -> string) (r : Request) : string :=
  match r with
  | SpeciesSearch s =>
      endpoint ++ "?op=speciessearch&kingdom=animals&species=" ++ encode s
  | ProjectSearch k =>
      endpoint ++ "?op=projectsearch&projtitle=" ++ k
  | GetProjects c =>
      endpoint ++ "?op=getprojects&circle=" ++ c
  | GetSurveys ids c =>
      endpoint ++ "?op=getsurveys&projids=" ++ Array_join "," ids
               ++ "&circle=" ++ c
  | GetSurveysBySpecies t c =>
      endpoint ++ "?op=getsurveysbyspecies&taxonid=" ++ ToString t
               ++ "&circle=" ++ c
  | GetProjectsMetadataById ids =>
      endpoint ++ "?op=getprojectsmetadatabyid&projids=" ++ Array_join "," ids
  end.

(** ** Response bodies *)

(** A project object, as an element of a [Project] collection and as the
    [Project] field of a metadata record. *)
Module ProjectInfo.
Record t : Type := make {
  ProjectID : JsId;
  Name : JsText;
  CustodianOrganisation : JsText;
  Source : JsText
}.
End ProjectInfo.

(** A survey feature: [geometry.coordinates] is [[lon, lat]]. *)
Module Survey.
Record Properties : Type := makeProperties {
  ProjectID : JsId;
  ProjectName : JsText;
  LocalityDetails : JsText;
  StartDate : JsText;
  EndDate : JsText;
  SiteCode : JsText;
  LocationPrecision : JsText
}.

Record Feature (Num : Type) : Type := makeFeature {
  id : JsId;
  coordinates : Num * Num;      (* index 0, index 1 *)
  properties : Properties
}.
End Survey.

Module Metadata.
Record t : Type := make {
  Project : ProjectInfo.t;
  Abstract : JsText;
  JurisdictionDescription : JsText;
  GeographicalExtent : JsText;
  BeginDate : JsText;
  ProgressDescription : JsText;
  LastLoadDate : JsText
}.
End Metadata.

Module SpeciesEntry.
Record t : Type := make {
  ScientificName : string;
  AcceptedCommonName : JsText;
  TaxonID : JsId;
  SpeciesID : JsId;
  SpeciesName : string
}.
End SpeciesEntry.

(** The [ProjectMetadata] field: absent, one object, or an array. *)
Inductive OneOrMany (A : Type) : Type :=
| Missing
| One (a : A)
| Many (l : list A).
Arguments Missing {A}.

Module Response.
Record t (Num : Type) : Type := make {
  Project : option (list ProjectInfo.t);
  features : option (list (Survey.Feature Num));
  ProjectMetadata : OneOrMany Metadata.t;
  Species : option (list SpeciesEntry.t)
}.
End Response.

(** A settled [axios.get] promise; [data] may be absent. *)
Inductive Settled (Num : Type) : Type :=
| Fulfilled (data : option (Response.t Num))
| Rejected (reason : string).
Arguments Rejected {Num} reason.

Record Coordinate (Num : Type) : Type := mkCoordinate {
  latitude : Num;
  longitude : Num
}.

Section Service.
Context {UI Num : Type}.
Variable service : Request -> Settled Num.

(** [await axios.get(url)] *)
Definition axios_get (r : Request) : M (UI := UI) (option (Response.t Num)) :=
  send r ;;
  match service r with
  | Fulfilled d => ret d
  | Rejected reason => throw (TransportError reason)
  end.

(** [response.data?.Project] *)
Definition data_Project (d : option (Response.t Num)) : option (list ProjectInfo.t) :=
  match d with
  | Some b => Response.Project b
  | None => None
  end.

(** [response.data?.Project?.map((project) => project.ProjectID) || []] *)
Definition projectIDs_of (d : option (Response.t Num)) : list JsId :=
  match data_Project d with
  | Some l => map ProjectInfo.ProjectID l
  | None => []
  end.

(** [response.data?.Project?.filter((project) =>
       projectIDs.includes(project.ProjectID)) || []] *)
Definition filteredProjects_of (projectIDs : list JsId)
  (d : option (Response.t Num)) : list ProjectInfo.t :=
  match data_Project d with
  | Some l =>
      filter (fun project =>
                Array_includes projectIDs (ProjectInfo.ProjectID project)) l
  | None => []
  end.

(** [response.data?.features || []] *)
Definition data_features (d : option (Response.t Num)) : list (Survey.Feature Num) :=
  match d with
  | Some b => match Response.features b with Some l => l | None => [] end
  | None => []
  end.

(** [response.data?.Species || []] *)
Definition data_Species (d : option (Response.t Num)) : list SpeciesEntry.t :=
  match d with
  | Some b => match Response.Species b with Some l => l | None => [] end
  | None => []
  end.

(** [response.data?.ProjectMetadata] *)
Definition data_ProjectMetadata (d : option (Response.t Num)) : OneOrMany Metadata.t :=
  match d with
  | Some b => Response.ProjectMetadata b
  | None => Missing
  end.
End Service.

(** [${location.latitude},${location.longitude},${radius}] *)
Definition circle_text {Num : Type} (Num_toString : Num -> string)
  (c : Coordinate Num) (radius : string) : string :=
  (Num_toString (latitude c) ++ "," ++ Num_toString (longitude c)
     ++ "," ++ radius)%string.

(** Reading [latitude] of a [null] location throws. *)
Definition circle_of {UI Req Num : Type} (Num_toString : Num -> string)
  (location : option (Coordinate Num)) (radius : string)
  : M (UI := UI) (Req := Req) string :=
  match location with
  | Some c => ret (circle_text Num_toString c radius)
  | None => throw (TypeError "location.latitude")
  end.

(** * The keyword version (lines 689-927) *)
Module Keyword.
Record State (Num : Type) : Type := mkState {
  location : option (Coordinate Num);
  keyword : string;
  radius : Num;
  projectMetadata : list Metadata.t;
  loading : bool;
  errorMsg : option string;
  keywordProjectCount : nat;
  areaProjectCount : nat
}.

Section Pipeline.
Context {Num : Type}.
Variable Num_toString : Num -> string.
Variable Date_parse : string -> option Z.   (* [None]: Invalid Date *)
Variable service : Request -> Settled Num.

Definition Async : Type -> Type := M (UI := State Num) (Req := Request).

Definition setProjectMetadata (v : list Metadata.t) : Async unit :=
  update_ui (fun s => mkState (location s) (keyword s) (radius s) v
    (loading s) (errorMsg s) (keywordProjectCount s) (areaProjectCount s)).

Definition setLoading (v : bool) : Async unit :=
  update_ui (fun s => mkState (location s) (keyword s) (radius s)
    (projectMetadata s) v (errorMsg s) (keywordProjectCount s)
    (areaProjectCount s)).

Definition setErrorMsg (v : option string) : Async unit :=
  update_ui (fun s => mkState (location s) (keyword s) (radius s)
    (projectMetadata s) (loading s) v (keywordProjectCount s)
    (areaProjectCount s)).

Definition setKeywordProjectCount (v : nat) : Async unit :=
  update_ui (fun s => mkState (location s) (keyword s) (radius s)
    (projectMetadata s) (loading s) (errorMsg s) v (areaProjectCount s)).

Definition setAreaProjectCount (v : nat) : Async unit :=
  update_ui (fun s => mkState (location s) (keyword s) (radius s)
    (projectMetadata s) (loading s) (errorMsg s) (keywordProjectCount s) v).

(** [new Date(v)] as a time value; [new Date(undefined)] is invalid. *)
Definition Date_new (v : JsText) : option Z :=
  match v with
  | Some s => Date_parse s
  | None => None
  end.

(** [(a, b) => new Date(b.LastLoadDate) - new Date(a.LastLoadDate)] *)
Definition byLastLoadDate (a b : Metadata.t) : option Z :=
  match Date_new (Metadata.LastLoadDate b), Date_new (Metadata.LastLoadDate a) with
  | Some tb, Some ta => Some (tb - ta)%Z
  | _, _ => None
  end.

Definition no_results_for_keyword (k : string) : string :=
  ("No results found for keyword: " ++ k)%string.

Definition no_results_in_area (k r : string) : string :=
  ("No results found for keyword: " ++ k ++ " within " ++ r
     ++ " meters. Try increasing the radius.")%string.

Definition no_metadata : string := "No metadata found for projects.".

Definition generic_error : string :=
  "An error occurred while fetching data. Please try again.".

(** Lines 722-783.  The component reads [keyword], [location] and
    [radius] from the render that created the handler. *)
Definition fetchProjects : Async unit :=
  st <- read_ui ;;
  setLoading true ;;
  setErrorMsg None ;;
  try_finally
    (try_catch
       ((* Step 1: projects by keyword *)
        api1Response <- axios_get service (ProjectSearch (keyword st)) ;;
        let projectIDs := projectIDs_of api1Response in
        setKeywordProjectCount (List.length projectIDs) ;;
        if Nat.eqb (List.length projectIDs) 0 then
          setErrorMsg (Some (no_results_for_keyword (keyword st))) ;;
          setLoading false
        else
          (* Step 2: projects inside the circle *)
          circle <- circle_of Num_toString (location st)
                              (Num_toString (radius st)) ;;
          api2Response <- axios_get service (GetProjects circle) ;;
          let filteredProjects := filteredProjects_of projectIDs api2Response in
          setAreaProjectCount (List.length filteredProjects) ;;
          if Nat.eqb (List.length filteredProjects) 0 then
            setErrorMsg (Some (no_results_in_area (keyword st)
                                 (Num_toString (radius st)))) ;;
            setLoading false
          else
            let filteredProjectIDs :=
              map ProjectInfo.ProjectID filteredProjects in
            (* Step 3: metadata of the filtered projects *)
            api3Response <-
              axios_get service (GetProjectsMetadataById filteredProjectIDs) ;;
            match data_ProjectMetadata api3Response with
            | Missing =>
                setErrorMsg (Some no_metadata) ;;
                setLoading false
            | One metadata =>
                setProjectMetadata [metadata] ;;
                setLoading false
            | Many metadata =>
                setProjectMetadata (Array_sort byLastLoadDate metadata)
            end)
       (fun error =>
          console_error "Error fetching project data:" ;;
          setErrorMsg (Some generic_error)))
    (setLoading false).
End Pipeline.
End Keyword.

(** * Timers and [debounce] (lines 20-26) *)
Module Timers.
Record Timer (A : Type) : Type := mkTimer {
  timer_id : nat;
  due : Z;
  args : A
}.

(** The timer queue of the event loop and the calls the fired timers made.
    One delay is in use, so creation order is firing order. *)
Record Loop (A : Type) : Type := mkLoop {
  now : Z;
  next_id : nat;
  pending : list (Timer A);
  invoked : list A
}.

(** The closure of one [debounce(func, delay)] call: its [timeoutId]. *)
Record Debounced (A : Type) : Type := mkDebounced {
  timeoutId : option nat;
  loop : Loop A
}.

Section Debounce.
Context {A : Type}.
Variable delay : Z.

Definition clearTimeout (i : option nat) (l : Loop A) : Loop A :=
  match i with
  | Some n =>
      mkLoop (now l) (next_id l)
        (filter (fun t => negb (Nat.eqb (timer_id t) n)) (pending l))
        (invoked l)
  | None => l
  end.

Definition setTimeout (a : A) (l : Loop A) : nat * Loop A :=
  (next_id l,
   mkLoop (now l) (S (next_id l))
     (pending l ++ [mkTimer (next_id l) (now l + delay) a]) (invoked l)).

(** The event loop reaches time [t]: the timers due by then call [func]. *)
Definition advance (t : Z) (l : Loop A) : Loop A :=
  mkLoop (Z.max (now l) t) (next_id l)
    (filter (fun x => negb (Z.leb (due x) t)) (pending l))
    (invoked l ++ map (@args A) (filter (fun x => Z.leb (due x) t) (pending l))).

(** Every pending timer fires. *)
Definition settle (l : Loop A) : Loop A :=
  mkLoop (now l) (next_id l) [] (invoked l ++ map (@args A) (pending l)).

(** The function [debounce] returns, called with [a]:
    [clearTimeout(timeoutId); timeoutId = setTimeout(() => func(a), delay)]. *)
Definition debounced (a : A) (d : Debounced A) : Debounced A :=
  let (i, l) := setTimeout a (clearTimeout (timeoutId d) (loop d)) in
  mkDebounced (Some i) l.

(** Calls arriving at the given times, in order. *)
Definition calls_at (events : list (Z * A)) (d : Debounced A) : Debounced A :=
  fold_left
    (fun d e => debounced (snd e) (mkDebounced (timeoutId d) (advance (fst e) (loop d))))
    events d.

(** [debounce(func, delay)] on a loop with nothing scheduled. *)
Definition debounce (start : Z) : Debounced A :=
  mkDebounced None (mkLoop start 0 [] []).
End Debounce.
End Timers.

(** * The autofill version (lines 1-227) *)
Module Autofill.
Record Marker (Num : Type) : Type := mkMarker {
  id : JsId;
  coordinate : Coordinate Num;
  title : JsText;
  description : JsText
}.

Record State (Num : Type) : Type := mkState {
  location : option (Coordinate Num);
  keyword : string;
  suggestions : list SpeciesEntry.t;
  loadingSuggestions : bool;
  radius : Num;
  projectMetadata : list (option Metadata.t);   (* [None]: [undefined] *)
  loadingProjects : bool;
  errorMsg : option string;
  markers : list (Marker Num)
}.

Section Pipeline.
Context {Num : Type}.
Variable Num_toString : Num -> string.
Variable service : Request -> Settled Num.

Definition Async : Type -> Type := M (UI := State Num) (Req := Request).

Definition setKeyword (v : string) : Async unit :=
  update_ui (fun s => mkState (location s) v (suggestions s)
    (loadingSuggestions s) (radius s) (projectMetadata s) (loadingProjects s)
    (errorMsg s) (markers s)).

Definition setSuggestions (v : list SpeciesEntry.t) : Async unit :=
  update_ui (fun s => mkState (location s) (keyword s) v
    (loadingSuggestions s) (radius s) (projectMetadata s) (loadingProjects s)
    (errorMsg s) (markers s)).

Definition setLoadingSuggestions (v : bool) : Async unit :=
  update_ui (fun s => mkState (location s) (keyword s) (suggestions s) v
    (radius s) (projectMetadata s) (loadingProjects s) (errorMsg s)
    (markers s)).

Definition setProjectMetadata (v : list (option Metadata.t)) : Async unit :=
  update_ui (fun s => mkState (location s) (keyword s) (suggestions s)
    (loadingSuggestions s) (radius s) v (loadingProjects s) (errorMsg s)
    (markers s)).

Definition setLoadingProjects (v : bool) : Async unit :=
  update_ui (fun s => mkState (location s) (keyword s) (suggestions s)
    (loadingSuggestions s) (radius s) (projectMetadata s) v (errorMsg s)
    (markers s)).

Definition setErrorMsg (v : option string) : Async unit :=
  update_ui (fun s => mkState (location s) (keyword s) (suggestions s)
    (loadingSuggestions s) (radius s) (projectMetadata s) (loadingProjects s)
    v (markers s)).

Definition setMarkers (v : list (Marker Num)) : Async unit :=
  update_ui (fun s => mkState (location s) (keyword s) (suggestions s)
    (loadingSuggestions s) (radius s) (projectMetadata s) (loadingProjects s)
    (errorMsg s) v).

(** Line 56: the delay handed to [debounce]. *)
Definition suggestion_delay : Z := 300.

(** [fetchSuggestions = debounce(callback, 300)]: a call schedules
    [fetchSuggestions_callback] on its argument.  This is one function
    value; the component body builds a new one each time it runs. *)
Definition fetchSuggestions (input : string)
  (d : Timers.Debounced string) : Timers.Debounced string :=
  Timers.debounced suggestion_delay input d.

(** The function handed to [debounce] (lines 43-56).  [response.data] is
    read unguarded. *)
Definition fetchSuggestions_callback (input : string) : Async unit :=
  if String.eqb input "" then ret tt
  else
    setLoadingSuggestions true ;;
    try_finally
      (try_catch
         (response <- axios_get service (SpeciesSearch input) ;;
          match response with
          | Some data =>
              setSuggestions
                (match Response.Species data with Some l => l | None => [] end)
          | None => throw (TypeError "response.data.Species")
          end)
         (fun error => console_error "Error fetching suggestions:"))
      (setLoadingSuggestions false).

Definition no_results_for_keyword (k : string) : string :=
  ("No results found for keyword: " ++ k)%string.

Definition generic_error : string :=
  "An error occurred while fetching data. Please try again.".

Definition newMarker (survey : Survey.Feature Num) : Marker Num :=
  mkMarker (Survey.id survey)
    (mkCoordinate (snd (Survey.coordinates survey))
                  (fst (Survey.coordinates survey)))
    (Survey.ProjectName (Survey.properties survey))
    (Survey.LocalityDetails (Survey.properties survey)).

(** [Array.isArray(metadata) ? metadata : [metadata]] *)
Definition as_array (metadata : OneOrMany Metadata.t) : list (option Metadata.t) :=
  match metadata with
  | Many l => map (@Some Metadata.t) l
  | One m => [Some m]
  | Missing => [None]
  end.

(** Lines 58-101. *)
Definition fetchProjects (selectedKeyword : string) : Async unit :=
  st <- read_ui ;;
  setLoadingProjects true ;;
  setErrorMsg None ;;
  setProjectMetadata [] ;;
  setMarkers [] ;;
  try_finally
    (try_catch
       (api1Response <- axios_get service (ProjectSearch selectedKeyword) ;;
        let projectIDs := projectIDs_of api1Response in
        if Nat.eqb (List.length projectIDs) 0 then
          setErrorMsg (Some (no_results_for_keyword selectedKeyword))
        else
          circle <- circle_of Num_toString (location st)
                              (Num_toString (radius st)) ;;
          api2Response <- axios_get service (GetSurveys projectIDs circle) ;;
          let surveys := data_features api2Response in
          setMarkers (map newMarker surveys) ;;
          api3Response <-
            axios_get service (GetProjectsMetadataById projectIDs) ;;
          setProjectMetadata (as_array (data_ProjectMetadata api3Response)))
       (fun error =>
          console_error "Error fetching projects:" ;;
          setErrorMsg (Some generic_error)))
    (setLoadingProjects false).

(** Line 182: the list's [keyExtractor],
    [item.Project.ProjectID.toString()]. *)
Definition keyExtractor (item : option Metadata.t) : Completion string :=
  match item with
  | Some m =>
      match ProjectInfo.ProjectID (Metadata.Project m) with
      | IdUndefined => Throw (TypeError "item.Project.ProjectID.toString")
      | i => Normal (ToString i)
      end
  | None => Throw (TypeError "item.Project")
  end.
End Pipeline.

Section Handlers.
Context {Num : Type}.
Variable Num_toString : Num -> string.
Variable service : Request -> Settled Num.

(** Lines 108-112.  [fetchProjects] is started last, with the name of the
    species as the project title to search. *)
Definition handleSuggestionSelect (suggestion : SpeciesEntry.t)
  : M (UI := State Num) (Req := Request) unit :=
  setKeyword (SpeciesEntry.SpeciesName suggestion) ;;
  setSuggestions [] ;;
  fetchProjects Num_toString service (SpeciesEntry.SpeciesName suggestion).
End Handlers.
End Autofill.

(** * The species version (lines 228-688) *)
Module Species.
(** A survey as the callout shows it (lines 353-360). *)
Record SurveyDetail : Type := mkSurveyDetail {
  projectName : JsText;
  localityDetails : JsText;
  startDate : JsText;
  endDate : JsText;
  siteCode : JsText;
  precision : JsText
}.

(** A value of [markerGroups]: lines 340-346. *)
Record Group (Num : Type) : Type := mkGroup {
  coordinate : Coordinate Num;
  surveys : list Survey.Properties
}.

(** An element of [surveyMarkers]: the group and its [surveyDetails]. *)
Record SurveyMarker (Num : Type) : Type := mkSurveyMarker {
  group : Group Num;
  surveyDetails : list SurveyDetail
}.

(** [{...project, surveyCount}] *)
Record Annotated : Type := mkAnnotated {
  record : Metadata.t;
  surveyCount : nat
}.

(** The cells the pipeline reads or writes; [radius] starts as the empty
    string ([None]) and holds a number once typed. *)
Record State (Num : Type) : Type := mkState {
  location : option (Coordinate Num);
  keyword : string;
  suggestions : list SpeciesEntry.t;
  loadingSuggestions : bool;
  radius : option Num;
  surveyData : list (Survey.Feature Num);
  projectMetadata : list Annotated;
  loadingProjects : bool;
  errorMsg : option string;
  markers : list (SurveyMarker Num);
  selectedSpecies : option SpeciesEntry.t;
  isSearching : bool;
  isTypingKeyword : bool
}.

Section Pipeline.
Context {Num : Type}.
Variable Num_toString : Num -> string.
Variable localeCompare : string -> string -> Z.
Variable service : Request -> Settled Num.

Definition Async : Type -> Type := M (UI := State Num) (Req := Request).

Definition setKeyword (v : string) : Async unit :=
  update_ui (fun s => mkState (location s) v (suggestions s)
    (loadingSuggestions s) (radius s) (surveyData s) (projectMetadata s) (loadingProjects s)
    (errorMsg s) (markers s) (selectedSpecies s) (isSearching s)
    (isTypingKeyword s)).

Definition setSuggestions (v : list SpeciesEntry.t) : Async unit :=
  update_ui (fun s => mkState (location s) (keyword s) v
    (loadingSuggestions s) (radius s) (surveyData s) (projectMetadata s) (loadingProjects s)
    (errorMsg s) (markers s) (selectedSpecies s) (isSearching s)
    (isTypingKeyword s)).

Definition setLoadingSuggestions (v : bool) : Async unit :=
  update_ui (fun s => mkState (location s) (keyword s) (suggestions s) v
    (radius s) (surveyData s) (projectMetadata s) (loadingProjects s) (errorMsg s)
    (markers s) (selectedSpecies s) (isSearching s) (isTypingKeyword s)).

Definition setSurveyData (v : list (Survey.Feature Num)) : Async unit :=
  update_ui (fun s => mkState (location s) (keyword s) (suggestions s)
    (loadingSuggestions s) (radius s) v (projectMetadata s) (loadingProjects s)
    (errorMsg s) (markers s) (selectedSpecies s) (isSearching s)
    (isTypingKeyword s)).

Definition setProjectMetadata (v : list Annotated) : Async unit :=
  update_ui (fun s => mkState (location s) (keyword s) (suggestions s)
    (loadingSuggestions s) (radius s) (surveyData s) v (loadingProjects s) (errorMsg s)
    (markers s) (selectedSpecies s) (isSearching s) (isTypingKeyword s)).

Definition setLoadingProjects (v : bool) : Async unit :=
  update_ui (fun s => mkState (location s) (keyword s) (suggestions s)
    (loadingSuggestions s) (radius s) (surveyData s) (projectMetadata s) v (errorMsg s)
    (markers s) (selectedSpecies s) (isSearching s) (isTypingKeyword s)).

Definition setErrorMsg (v : option string) : Async unit :=
  update_ui (fun s => mkState (location s) (keyword s) (suggestions s)
    (loadingSuggestions s) (radius s) (surveyData s) (projectMetadata s) (loadingProjects s)
    v (markers s) (selectedSpecies s) (isSearching s) (isTypingKeyword s)).

Definition setMarkers (v : list (SurveyMarker Num)) : Async unit :=
  update_ui (fun s => mkState (location s) (keyword s) (suggestions s)
    (loadingSuggestions s) (radius s) (surveyData s) (projectMetadata s) (loadingProjects s)
    (errorMsg s) v (selectedSpecies s) (isSearching s) (isTypingKeyword s)).

Definition setSelectedSpecies (v : option SpeciesEntry.t) : Async unit :=
  update_ui (fun s => mkState (location s) (keyword s) (suggestions s)
    (loadingSuggestions s) (radius s) (surveyData s) (projectMetadata s) (loadingProjects s)
    (errorMsg s) (markers s) v (isSearching s) (isTypingKeyword s)).

Definition setIsSearching (v : bool) : Async unit :=
  update_ui (fun s => mkState (location s) (keyword s) (suggestions s)
    (loadingSuggestions s) (radius s) (surveyData s) (projectMetadata s) (loadingProjects s)
    (errorMsg s) (markers s) (selectedSpecies s) v (isTypingKeyword s)).

Definition setIsTypingKeyword (v : bool) : Async unit :=
  update_ui (fun s => mkState (location s) (keyword s) (suggestions s)
    (loadingSuggestions s) (radius s) (surveyData s) (projectMetadata s) (loadingProjects s)
    (errorMsg s) (markers s) (selectedSpecies s) (isSearching s) v).

(** ** Suggestions (lines 285-300)

    An [async] function called without [await] runs up to its first
    [await] inside the caller; the rest runs when the promise settles.
    [fetchSuggestions_request] is the first part, [fetchSuggestions_settled]
    the second. *)

(** [(a, b) => a.ScientificName.localeCompare(b.ScientificName)] *)
Definition byScientificName (a b : SpeciesEntry.t) : option Z :=
  Some (localeCompare (SpeciesEntry.ScientificName a) (SpeciesEntry.ScientificName b)).

Definition fetchSuggestions_request (input : string) : Async bool :=
  if String.eqb input "" then ret false
  else
    setLoadingSuggestions true ;;
    send (SpeciesSearch input) ;;
    ret true.

Definition fetchSuggestions_settled (settled : Settled Num) : Async unit :=
  try_finally
    (try_catch
       (response <-
          match settled with
          | Fulfilled d => ret d
          | Rejected reason => throw (TransportError reason)
          end ;;
        let species := data_Species response in
        setSuggestions (Array_sort byScientificName species))
       (fun error => console_error "Error fetching suggestions:"))
    (setLoadingSuggestions false).

(** The whole function, run to completion. *)
Definition fetchSuggestions (input : string) : Async unit :=
  sent <- fetchSuggestions_request input ;;
  if sent then fetchSuggestions_settled (service (SpeciesSearch input))
  else ret tt.

(** Lines 397-408. *)
Definition handleInputChange (text : string) : Async unit :=
  setKeyword text ;;
  if trim_is_empty text then
    setSuggestions [] ;;
    setIsTypingKeyword false
  else
    setIsTypingKeyword true ;;
    _ <- fetchSuggestions_request text ;;
    ret tt.

(** What the input box sees: a keystroke, or the answer to the request
    made for [input]. *)
Inductive Event : Type :=
| Typed (text : string)
| Answered (input : string) (settled : Settled Num).

Definition handle (e : Event) : Async unit :=
  match e with
  | Typed text => handleInputChange text
  | Answered _ settled => fetchSuggestions_settled settled
  end.

Fixpoint handle_all (es : list Event) : Async unit :=
  match es with
  | [] => ret tt
  | e :: r => handle e ;; handle_all r
  end.

(** ** Surveys (lines 302-371) *)

Definition coordKey (survey : Survey.Feature Num) : string :=
  (Num_toString (snd (Survey.coordinates survey)) ++ ","
     ++ Num_toString (fst (Survey.coordinates survey)))%string.

(** [x || 0] on the result of [Map.get]. *)
Definition or_zero (x : option nat) : nat :=
  match x with
  | Some n => n
  | None => 0
  end.

(** The body of [surveys.forEach] (lines 329-349) on the two
    accumulators. *)
Definition forEach_body
  (acc : JsMap.t nat * JsObject.t (Group Num)) (survey : Survey.Feature Num)
  : Completion (JsMap.t nat * JsObject.t (Group Num)) :=
  let (projectIDs, markerGroups) := acc in
  let projectID := Survey.ProjectID (Survey.properties survey) in
  let key := coordKey survey in
  let projectIDs :=
    if truthy projectID
    then JsMap.set projectIDs projectID (or_zero (JsMap.get projectIDs projectID) + 1)
    else projectIDs in
  let markerGroups :=
    match JsObject.get markerGroups key with
    | JsObject.NoProperty =>
        JsObject.set markerGroups key
          (mkGroup (mkCoordinate (snd (Survey.coordinates survey))
                                 (fst (Survey.coordinates survey))) [])
    | _ => markerGroups
    end in
  match JsObject.get markerGroups key with
  | JsObject.OwnProperty g =>
      Normal (projectIDs,
              JsObject.set markerGroups key
                (mkGroup (coordinate g) (surveys g ++ [Survey.properties survey])))
  | _ => Throw (TypeError "markerGroups[coordKey].surveys.push")
  end.

Fixpoint forEach
  (l : list (Survey.Feature Num)) (acc : JsMap.t nat * JsObject.t (Group Num))
  : Completion (JsMap.t nat * JsObject.t (Group Num)) :=
  match l with
  | [] => Normal acc
  | survey :: r =>
      match forEach_body acc survey with
      | Normal acc' => forEach r acc'
      | Throw e => Throw e
      end
  end.

Definition surveyDetail (survey : Survey.Properties) : SurveyDetail :=
  mkSurveyDetail (Survey.ProjectName survey) (Survey.LocalityDetails survey)
    (Survey.StartDate survey) (Survey.EndDate survey) (Survey.SiteCode survey)
    (Survey.LocationPrecision survey).

Definition surveyMarker (g : Group Num) : SurveyMarker Num :=
  mkSurveyMarker g (map surveyDetail (surveys g)).

Definition no_surveys : string :=
  "No surveys found for the selected radius. Try increasing the radius.".

Definition survey_error : string :=
  "An error occurred while fetching survey data. Please try again.".

(** ** Metadata (lines 373-395) *)

Definition annotate (surveyCounts : JsMap.t nat) (project : Metadata.t) : Annotated :=
  mkAnnotated project
    (or_zero (JsMap.get surveyCounts
                (ProjectInfo.ProjectID (Metadata.Project project)))).

(** Lines 379-389; [metadata.Project] on [undefined] throws. *)
Definition combinedMetadata
  (surveyCounts : JsMap.t nat) (metadata : OneOrMany Metadata.t)
  : Completion (list Annotated) :=
  match metadata with
  | Many l => Normal (map (annotate surveyCounts) l)
  | One m => Normal [annotate surveyCounts m]
  | Missing => Throw (TypeError "metadata.Project")
  end.

Definition fetchProjectsMetadata_request (projectIDs : list JsId) : Async Request :=
  send (GetProjectsMetadataById projectIDs) ;;
  ret (GetProjectsMetadataById projectIDs).

Definition fetchProjectsMetadata_settled
  (surveyCounts : JsMap.t nat) (settled : Settled Num) : Async unit :=
  try_catch
    (response <-
       match settled with
       | Fulfilled d => ret d
       | Rejected reason => throw (TransportError reason)
       end ;;
     match combinedMetadata surveyCounts (data_ProjectMetadata response) with
     | Normal combined => setProjectMetadata combined
     | Throw e => throw e
     end)
    (fun error => console_error "Error fetching project metadata:").

(** The whole function, run to completion. *)
Definition fetchProjectsMetadata
  (projectIDs : list JsId) (surveyCounts : JsMap.t nat) : Async unit :=
  request <- fetchProjectsMetadata_request projectIDs ;;
  fetchProjectsMetadata_settled surveyCounts (service request).

Definition radius_text (r : option Num) : string :=
  match r with
  | Some n => Num_toString n
  | None => ""
  end.

(** Lines 302-371.  The metadata lookup is started and not awaited: the
    result is the request left in flight with the counts its continuation
    holds. *)
Definition fetchSurveys (taxonId : JsId)
  : Async (option (Request * JsMap.t nat)) :=
  st <- read_ui ;;
  if negb (truthy taxonId) then
    alert "No species selected." ;;
    ret None
  else
    setLoadingProjects true ;;
    setErrorMsg None ;;
    setSurveyData [] ;;
    setMarkers [] ;;
    try_finally
      (try_catch
         (circle <- circle_of Num_toString (location st)
                              (radius_text (radius st)) ;;
          response <- axios_get service (GetSurveysBySpecies taxonId circle) ;;
          let surveys := data_features response in
          if Nat.eqb (List.length surveys) 0 then
            setErrorMsg (Some no_surveys) ;;
            setProjectMetadata [] ;;
            setMarkers [] ;;
            ret None
          else
            match forEach surveys (JsMap.empty, JsObject.empty) with
            | Throw e => throw e
            | Normal (projectIDs, markerGroups) =>
                setMarkers (map surveyMarker (JsObject.values markerGroups)) ;;
                request <- fetchProjectsMetadata_request (JsMap.keys projectIDs) ;;
                ret (Some (request, projectIDs))
            end)
         (fun error =>
            console_error "Error fetching survey data:" ;;
            setErrorMsg (Some survey_error) ;;
            ret None))
      (setLoadingProjects false).

(** Lines 410-419, followed to the end of the metadata lookup. *)
Definition handleSearch : Async unit :=
  st <- read_ui ;;
  match selectedSpecies st with
  | Some species =>
      setSuggestions [] ;;
      setIsTypingKeyword false ;;
      setIsSearching true ;;
      inflight <-
        try_finally (fetchSurveys (SpeciesEntry.TaxonID species))
                    (setIsSearching false) ;;
      match inflight with
      | Some (request, surveyCounts) =>
          fetchProjectsMetadata_settled surveyCounts (service request)
      | None => ret tt
      end
  | None => alert "Please select a species before searching."
  end.
End Pipeline.

Section Handlers.
Context {Num : Type}.

(** Lines 421-425. *)
Definition handleSuggestionSelect (suggestion : SpeciesEntry.t)
  : M (UI := State Num) (Req := Request) unit :=
  setKeyword (SpeciesEntry.ScientificName suggestion) ;;
  setSuggestions [] ;;
  setSelectedSpecies (Some suggestion).

(** Line 550: the condition under which the suggestion list is rendered,
    [!isSearching && isTypingKeyword && suggestions.length > 0]. *)
Definition suggestions_shown (s : State Num) : bool :=
  negb (isSearching s) && isTypingKeyword s
  && Nat.ltb 0 (List.length (suggestions s)).

(** Line 576: the Search button is disabled,
    [loadingProjects || !selectedSpecies]. *)
Definition search_disabled (s : State Num) : bool :=
  loadingProjects s
  || match selectedSpecies s with Some _ => false | None => true end.
End Handlers.
End Species.

(** * Vocabulary of the statements *)

(** The records of a [ProjectMetadata] field. *)
Definition entries {A : Type} (m : OneOrMany A) : list A :=
  match m with
  | Missing => []
  | One a => [a]
  | Many l => l
  end.

(** The identifier of a metadata record. *)
Definition project_id (m : Metadata.t) : JsId :=
  ProjectInfo.ProjectID (Metadata.Project m).

(** The number of survey points whose [ProjectID] is [i]. *)
Definition occurrences {Num : Type} (i : JsId) (surveys : list (Survey.Feature Num)) : nat :=
  List.length
    (filter (fun s => JsId_eqb (Survey.ProjectID (Survey.properties s)) i) surveys).

(** The distinct elements of a list, each at its first occurrence. *)
Fixpoint first_seen (l : list string) : list string :=
  match l with
  | [] => []
  | k :: r => k :: filter (fun k' => negb (String.eqb k' k)) (first_seen r)
  end.

(** The string holds a comma, as every coordinate key does. *)
Fixpoint has_comma (s : string) : bool :=
  match s with
  | EmptyString => false
  | String c r => Ascii.eqb c "," || has_comma r
  end.

(** The survey points with coordinate key [k], in input order. *)
Definition at_key {Num : Type} (Num_toString : Num -> string) (k : string)
  (surveys : list (Survey.Feature Num)) : list (Survey.Feature Num) :=
  filter (fun s => String.eqb (Species.coordKey Num_toString s) k) surveys.

(** The coordinate key of a marker, from the coordinate it is drawn at. *)
Definition marker_key {Num : Type} (Num_toString : Num -> string)
  (m : Species.SurveyMarker Num) : string :=
  (Num_toString (latitude (Species.coordinate (Species.group m))) ++ ","
     ++ Num_toString (longitude (Species.coordinate (Species.group m))))%string.

(** The loop body of [fetchSurveys] on each accumulator alone. *)
Definition count_step {Num : Type} (projectIDs : JsMap.t nat)
  (survey : Survey.Feature Num) : JsMap.t nat :=
  let projectID := Survey.ProjectID (Survey.properties survey) in
  if truthy projectID
  then JsMap.set projectIDs projectID (Species.or_zero (JsMap.get projectIDs projectID) + 1)
  else projectIDs.

Definition group_step {Num : Type} (Num_toString : Num -> string)
  (markerGroups : JsObject.t (Species.Group Num))
  (survey : Survey.Feature Num) : JsObject.t (Species.Group Num) :=
  let key := Species.coordKey Num_toString survey in
  match JsObject.own markerGroups key with
  | Some g =>
      JsObject.set markerGroups key
        (Species.mkGroup (Species.coordinate g)
           (Species.surveys g ++ [Survey.properties survey]))
  | None =>
      JsObject.set
        (JsObject.set markerGroups key
           (Species.mkGroup (mkCoordinate (snd (Survey.coordinates survey))
                                          (fst (Survey.coordinates survey))) []))
        key
        (Species.mkGroup (mkCoordinate (snd (Survey.coordinates survey))
                                       (fst (Survey.coordinates survey)))
           [Survey.properties survey])
  end.

(** The group the loop holds for key [k] after the survey points [l]. *)
Definition group_for {Num : Type} (Num_toString : Num -> string) (k : string)
  (l : list (Survey.Feature Num)) : option (Species.Group Num) :=
  match find (fun s => String.eqb (Species.coordKey Num_toString s) k) l with
  | Some s0 =>
      Some (Species.mkGroup
              (mkCoordinate (snd (Survey.coordinates s0)) (fst (Survey.coordinates s0)))
              (map (@Survey.properties Num) (at_key Num_toString k l)))
  | None => None
  end.

(** Every identifier in a metadata request of the log is among the
    survivors. *)
Definition only_surviving_ids_requested (survivors : list JsId)
  (log : list Request) : Prop :=
  forall ids, In (GetProjectsMetadataById ids) log ->
  forall i, In i ids -> In i survivors.

(** The service answers a metadata request with records of the projects
    asked for. *)
Definition answers_requested_ids {Num : Type} (service : Request -> Settled Num) : Prop :=
  forall ids d m,
    service (GetProjectsMetadataById ids) = Fulfilled d ->
    In m (entries (data_ProjectMetadata d)) -> In (project_id m) ids.

(** The count map gives every identifier its number of survey points. *)
Definition counts_every_id {Num : Type} (surveys : list (Survey.Feature Num))
  (projectIDs : JsMap.t nat) : Prop :=
  forall i, Species.or_zero (JsMap.get projectIDs i) = occurrences i surveys.

(** Calls that start at [prev] or later, each less than [delay] after the
    one before. *)
Fixpoint within_window {A : Type} (delay prev : Z) (events : list (Z * A)) : Prop :=
  match events with
  | [] => True
  | e :: r =>
      (prev <= fst e < prev + delay)%Z /\ within_window delay (fst e) r
  end.

(** A debounced function with one call pending: the one made at time [t]
    with argument [a]. *)
Definition one_pending {A : Type} (delay : Z) (n : nat) (t : Z) (a : A)
  : Timers.Debounced A :=
  Timers.mkDebounced (Some n)
    (Timers.mkLoop t (S n) [Timers.mkTimer n (t + delay) a] []).

(** The time value of a record's [LastLoadDate]. *)
Definition load_time (Date_parse : string -> option Z) (m : Metadata.t) : option Z :=
  Keyword.Date_new Date_parse (Metadata.LastLoadDate m).

(** The record's [LastLoadDate] is a valid date. *)
Definition dated (Date_parse : string -> option Z) (m : Metadata.t) : Prop :=
  load_time Date_parse m <> None.

(** [a] was loaded at the same time as [b] or later. *)
Definition loaded_not_before (Date_parse : string -> option Z) (a b : Metadata.t) : Prop :=
  exists ta tb,
    load_time Date_parse a = Some ta /\ load_time Date_parse b = Some tb /\ (tb <= ta)%Z.

Definition loaded_at (Date_parse : string -> option Z) (t : Z) (m : Metadata.t) : bool :=
  match load_time Date_parse m with
  | Some t' => Z.eqb t' t
  | None => false
  end.

(** The order of two strings by their bytes as a comparator result: a
    consistent comparator to run the sort of the suggestions on. *)
Definition code_unit_compare (a b : string) : Z :=
  match String.compare a b with
  | Lt => (-1)%Z
  | Eq => 0%Z
  | Gt => 1%Z
  end.

(** The suggestion carries the scientific name [s]. *)
Definition named (s : string) (e : SpeciesEntry.t) : bool :=
  String.eqb (SpeciesEntry.ScientificName e) s.

(** The comparator does not tell the scientific name of the suggestion
    from [s]: neither comes after the other. *)
Definition collates_with (localeCompare : string -> string -> Z) (s : string)
  (e : SpeciesEntry.t) : bool :=
  Z.leb (localeCompare (SpeciesEntry.ScientificName e) s) 0
  && Z.leb (localeCompare s (SpeciesEntry.ScientificName e)) 0.

(** * Vocabulary of the further statements *)

(** The distinct identifiers of a list, each at its first occurrence. *)
Fixpoint first_ids (l : list JsId) : list JsId :=
  match l with
  | [] => []
  | i :: r => i :: filter (fun j => negb (JsId_eqb j i)) (first_ids r)
  end.

(** The [ProjectID] of each survey point, in input order. *)
Definition survey_ids {Num : Type} (surveys : list (Survey.Feature Num)) : list JsId :=
  map (fun s => Survey.ProjectID (Survey.properties s)) surveys.

(** The survey details all markers carry, counted. *)
Definition details_total {Num : Type} (markers : list (Species.SurveyMarker Num)) : nat :=
  list_sum (map (fun m => List.length (Species.surveyDetails m)) markers).

(** The survey points all groups hold, counted. *)
Definition group_total {Num : Type} (markerGroups : JsObject.t (Species.Group Num)) : nat :=
  list_sum (map (fun e => List.length (Species.surveys (snd e))) markerGroups).

(** The counts of a count map, added up. *)
Definition counts_total (projectIDs : JsMap.t nat) : nat :=
  list_sum (map snd projectIDs).

(** Calls at times that never go back, the first at [prev] or later. *)
Fixpoint nondecreasing {A : Type} (prev : Z) (events : list (Z * A)) : Prop :=
  match events with
  | [] => True
  | e :: r => (prev <= fst e)%Z /\ nondecreasing (fst e) r
  end.

(** What a debounced function lets through: the argument of a call is
    kept when the next call comes once its delay is over, and the argument
    of the last call is kept. *)
Fixpoint debounce_result {A : Type} (delay : Z) (events : list (Z * A)) : list A :=
  match events with
  | [] => []
  | e :: r =>
      match r with
      | [] => [snd e]
      | e' :: _ =>
          if Z.leb (fst e + delay) (fst e')
          then snd e :: debounce_result delay r
          else debounce_result delay r
      end
  end.

(** A debounced function with one call pending, made at time [t] with
    argument [a], the wrapped function having run on [done] so far. *)
Definition pending_with {A : Type} (delay : Z) (n : nat) (t : Z) (a : A)
  (done : list A) : Timers.Debounced A :=
  Timers.mkDebounced (Some n)
    (Timers.mkLoop t (S n) [Timers.mkTimer n (t + delay) a] done).

(** Calls made each through a debounced function of its own, newly
    returned by [debounce] (its [timeoutId] still undefined), all on one
    event loop: what a component body that calls [debounce] each time it
    runs hands to its input box (line 43). *)
Definition calls_through_new {A : Type} (delay : Z) (events : list (Z * A))
  (l : Timers.Loop A) : Timers.Loop A :=
  fold_left
    (fun l e =>
       Timers.loop
         (Timers.debounced delay (snd e)
            (Timers.mkDebounced None (Timers.advance (fst e) l))))
    events l.

(** The timers of a queue fall due in the order of the queue. *)
Definition due_in_order {A : Type} (timers : list (Timers.Timer A)) : Prop :=
  StronglySorted (fun x y => (Timers.due x <= Timers.due y)%Z) timers.

(** * Sample data *)
Module Demo.
Definition project (n : Z) : ProjectInfo.t :=
  ProjectInfo.make (IdNumber n) None None None.

Definition metadata (n : Z) (loaded : JsText) : Metadata.t :=
  Metadata.make (project n) None None None None None loaded.

Definition feature (lon lat : Z) (i : JsId) : Survey.Feature Z :=
  Survey.makeFeature IdUndefined (lon, lat)
    (Survey.makeProperties i None None None None None None).

Definition species (name : string) : SpeciesEntry.t :=
  SpeciesEntry.make name None (IdNumber 860) (IdNumber 860) name.

(** A suggestion told from its namesakes by its common name. *)
Definition species_called (name common : string) : SpeciesEntry.t :=
  SpeciesEntry.make name (Some common) (IdNumber 860) (IdNumber 860) name.

Definition with_projects (l : list ProjectInfo.t) : Settled Z :=
  Fulfilled (Some (Response.make (Some l) None Missing None)).

Definition with_features (l : list (Survey.Feature Z)) : Settled Z :=
  Fulfilled (Some (Response.make None (Some l) Missing None)).

Definition with_metadata (m : OneOrMany Metadata.t) : Settled Z :=
  Fulfilled (Some (Response.make None None m None)).

Definition with_species (l : list SpeciesEntry.t) : Settled Z :=
  Fulfilled (Some (Response.make None None Missing (Some l))).

(** Time values written in decimal. *)
Definition Date_parse (s : string) : option Z :=
  option_map Z.of_int (NilZero.int_of_string s).

Definition catalogue : list Metadata.t :=
  [ metadata 101 (Some "1000"); metadata 102 (Some "3000");
    metadata 55 (Some "2000"); metadata 0 (Some "2000") ].

(** One object for one record, an array otherwise. *)
Definition one_or_many (l : list Metadata.t) : OneOrMany Metadata.t :=
  match l with
  | [m] => One m
  | _ => Many l
  end.

Definition lookup (ids : list JsId) : list Metadata.t :=
  filter (fun m => Array_includes ids (project_id m)) catalogue.

Definition three_surveys : list (Survey.Feature Z) :=
  [ feature 145 (-16) (IdNumber 55); feature 145 (-16) (IdNumber 55);
    feature 146 (-17) (IdNumber 55) ].

Definition service (r : Request) : Settled Z :=
  match r with
  | SpeciesSearch _ => with_species [species "Zebra"; species "Ant"]
  | ProjectSearch k =>
      if String.eqb k "Koala" then with_projects [project 101; project 102]
      else with_projects []
  | GetProjects _ => with_projects [project 7; project 101]
  | GetSurveys _ _ => with_features [feature 145 (-16) (IdNumber 101)]
  | GetSurveysBySpecies _ _ => with_features three_surveys
  | GetProjectsMetadataById ids => with_metadata (one_or_many (lookup ids))
  end.

(** The same service with no matching project inside the circle. *)
Definition nothing_near (r : Request) : Settled Z :=
  match r with
  | GetProjects _ => with_projects [project 7]
  | _ => service r
  end.

(** The same service with both keyword projects inside the circle. *)
Definition both_near (r : Request) : Settled Z :=
  match r with
  | GetProjects _ => with_projects [project 101; project 102]
  | _ => service r
  end.

(** The same service with the metadata operation unreachable. *)
Definition metadata_down (r : Request) : Settled Z :=
  match r with
  | GetProjectsMetadataById _ => Rejected "Network Error"
  | _ => service r
  end.

(** The same service answering the metadata operation with an object
    that has no [ProjectMetadata] field. *)
Definition metadata_missing (r : Request) : Settled Z :=
  match r with
  | GetProjectsMetadataById _ => with_metadata Missing
  | _ => service r
  end.

Definition here : Coordinate Z := mkCoordinate (-16)%Z 145%Z.

Definition keyword_world (k : string) : World (Keyword.State Z) Request :=
  mkWorld (Keyword.mkState (Some here) k 6000%Z [] false None 0 0) [] [] [].

Definition autofill_world : World (Autofill.State Z) Request :=
  mkWorld (Autofill.mkState (Some here) "" [] false 60000%Z [] false None [])
    [] [] [].

Definition species_world : World (Species.State Z) Request :=
  mkWorld
    (Species.mkState (Some here) "" [] false (Some 60000%Z) [] [] false None []
       (Some (species "Phascolarctos cinereus")) false false)
    [] [] [].

(** The same service suggesting two species of one scientific name. *)
Definition namesakes (r : Request) : Settled Z :=
  match r with
  | SpeciesSearch _ =>
      with_species [species_called "Zebra" "plains"; species "Ant";
                    species_called "Zebra" "mountain"]
  | _ => service r
  end.

(** A service with four projects for every keyword and circle, two of
    them without [LastLoadDate]. *)
Definition undated_records : list Metadata.t :=
  [ metadata 101 None; metadata 102 (Some "1000");
    metadata 103 None; metadata 104 (Some "2000") ].

Definition undated (r : Request) : Settled Z :=
  match r with
  | ProjectSearch _ | GetProjects _ =>
      with_projects [project 101; project 102; project 103; project 104]
  | GetProjectsMetadataById _ => with_metadata (Many undated_records)
  | _ => service r
  end.

(** Texts of white space outside ASCII, in UTF-8: U+00A0, U+3000 and
    U+FEFF. *)
Definition no_break_space : string :=
  String (ascii_of_nat 194) (String (ascii_of_nat 160) EmptyString).

Definition ideographic_space : string :=
  String (ascii_of_nat 227) (String (ascii_of_nat 128)
    (String (ascii_of_nat 128) EmptyString)).

Definition byte_order_mark : string :=
  String (ascii_of_nat 239) (String (ascii_of_nat 187)
    (String (ascii_of_nat 191) EmptyString)).

(** No operation reachable. *)
Definition offline (r : Request) : Settled Z := Rejected "Network Error".

(** The same service with the lookups inside the circle unreachable. *)
Definition circle_down (r : Request) : Settled Z :=
  match r with
  | GetProjects _ | GetSurveys _ _ | GetSurveysBySpecies _ _ =>
      Rejected "Network Error"
  | _ => service r
  end.

(** The same service with no survey of the species inside the circle. *)
Definition no_surveys_near (r : Request) : Settled Z :=
  match r with
  | GetSurveysBySpecies _ _ => with_features []
  | _ => service r
  end.

(** The same service with the circle response listing a project twice. *)
Definition listed_twice (r : Request) : Settled Z :=
  match r with
  | GetProjects _ => with_projects [project 101; project 101; project 101]
  | _ => service r
  end.

(** The worlds before the location is known. *)
Definition keyword_world_nowhere (k : string) : World (Keyword.State Z) Request :=
  mkWorld (Keyword.mkState None k 6000%Z [] false None 0 0) [] [] [].

Definition autofill_world_nowhere : World (Autofill.State Z) Request :=
  mkWorld (Autofill.mkState None "" [] false 60000%Z [] false None [])
    [] [] [].

Definition species_world_nowhere : World (Species.State Z) Request :=
  mkWorld
    (Species.mkState None "" [] false (Some 60000%Z) [] [] false None []
       (Some (species "Phascolarctos cinereus")) false false)
    [] [] [].

(** A keyword world showing the results of an earlier search. *)
Definition keyword_world_after (k : string) : World (Keyword.State Z) Request :=
  mkWorld
    (Keyword.mkState (Some here) k 6000%Z [metadata 7 (Some "500")] false None 4 1)
    [] [] [].

(** A species world with the suggestion list open. *)
Definition species_world_typing : World (Species.State Z) Request :=
  mkWorld
    (Species.mkState (Some here) "ko" [species "Koala"] false (Some 60000%Z) [] []
       false None [] None false true)
    [] [] [].
End Demo.

(** * Proofs *)

Unset Implicit Arguments.

Local Arguments String.append : simpl never.
Local Arguments circle_text : simpl never.
Local Arguments Keyword.no_results_in_area : simpl never.
Local Arguments Keyword.no_results_for_keyword : simpl never.
Local Arguments Autofill.no_results_for_keyword : simpl never.

(** Running a pipeline symbolically: unfold the monad, then compute. *)
Ltac run_keyword :=
  unfold exec, Keyword.fetchProjects, Keyword.setLoading, Keyword.setErrorMsg,
    Keyword.setKeywordProjectCount, Keyword.setAreaProjectCount,
    Keyword.setProjectMetadata, axios_get, circle_of, bind, try_finally,
    try_catch, update_ui, read_ui, send, ret, throw, console_error;
  cbn.

Ltac run_autofill :=
  unfold exec, Autofill.fetchProjects, Autofill.fetchSuggestions_callback,
    Autofill.setLoadingProjects, Autofill.setErrorMsg, Autofill.setMarkers,
    Autofill.setProjectMetadata, Autofill.setSuggestions,
    Autofill.setLoadingSuggestions, axios_get, circle_of, bind, try_finally,
    try_catch, update_ui, read_ui, send, ret, throw, console_error;
  cbn.

Ltac run_species :=
  unfold exec, Species.handleSearch, Species.fetchSurveys,
    Species.fetchProjectsMetadata_request, Species.fetchProjectsMetadata_settled,
    Species.fetchSuggestions_settled, Species.fetchSuggestions_request,
    Species.handleInputChange,
    Species.setKeyword, Species.setSuggestions, Species.setLoadingSuggestions,
    Species.setProjectMetadata, Species.setSurveyData, Species.setLoadingProjects,
    Species.setErrorMsg,
    Species.setMarkers, Species.setSelectedSpecies, Species.setIsSearching,
    Species.setIsTypingKeyword, axios_get, circle_of, bind, try_finally,
    try_catch, update_ui, read_ui, send, ret, throw, console_error, alert;
  cbn -[Species.forEach fold_left JsObject.values data_features].

Ltac run_suggest :=
  unfold exec, Species.handleInputChange, Species.fetchSuggestions,
    Species.fetchSuggestions_settled, Species.fetchSuggestions_request,
    Species.setKeyword, Species.setSuggestions, Species.setLoadingSuggestions,
    Species.setIsTypingKeyword, bind, try_finally,
    try_catch, update_ui, read_ui, send, ret, throw, console_error, alert;
  cbn -[Array_sort data_Species].

Ltac pick_request H :=
  apply app_inv_head in H; subst; cbn [app] in *;
  repeat match goal with
         | K : In _ (_ :: _) |- _ => destruct K as [K|K]; [subst|]
         | K : In _ [] |- _ => destruct K
         end;
  try congruence.

(** * Facts on the primitives *)

Lemma JsId_eqb_eq (a b : JsId) : JsId_eqb a b = true <-> a = b.
Proof.
  destruct a, b; simpl; split; intro H; try discriminate; try reflexivity.
  - apply Z.eqb_eq in H. now subst.
  - injection H as ->. apply Z.eqb_refl.
  - apply String.eqb_eq in H. now subst.
  - injection H as ->. apply String.eqb_refl.
Qed.

Lemma JsId_eqb_refl (a : JsId) : JsId_eqb a a = true.
Proof. now apply JsId_eqb_eq. Qed.

Lemma JsId_eqb_neq (a b : JsId) : JsId_eqb a b = false <-> a <> b.
Proof.
  split.
  - intros H E. apply JsId_eqb_eq in E. congruence.
  - intro H. destruct (JsId_eqb a b) eqn:E; [|reflexivity].
    apply JsId_eqb_eq in E. contradiction.
Qed.

Lemma Array_includes_In (l : list JsId) (x : JsId) :
  Array_includes l x = true <-> In x l.
Proof.
  unfold Array_includes. rewrite existsb_exists. split.
  - intros [y [Hy E]]. apply JsId_eqb_eq in E. now subst.
  - intro H. exists x. split; [assumption | apply JsId_eqb_refl].
Qed.

(** ** The sort *)
Section SortFacts.
Context {A : Type}.
Variable comparefn : A -> A -> option Z.
Variable valid : A -> Prop.

Hypothesis le_total :
  forall x y, valid x -> valid y ->
    before_or_tie comparefn x y = false -> before_or_tie comparefn y x = true.
Hypothesis le_trans :
  forall x y z, valid x -> valid y -> valid z ->
    before_or_tie comparefn x y = true -> before_or_tie comparefn y z = true ->
    before_or_tie comparefn x z = true.

Lemma sort_insert_perm (x : A) (l : list A) :
  Permutation (x :: l) (sort_insert comparefn x l).
Proof.
  induction l as [|y r IH]; simpl.
  - apply Permutation_refl.
  - destruct (before_or_tie comparefn x y).
    + apply Permutation_refl.
    + eapply perm_trans; [apply perm_swap|]. now apply perm_skip.
Qed.

Lemma Array_sort_perm (l : list A) : Permutation l (Array_sort comparefn l).
Proof.
  induction l as [|x r IH]; simpl.
  - apply perm_nil.
  - eapply perm_trans; [apply perm_skip, IH | apply sort_insert_perm].
Qed.

Lemma sort_insert_sorted (x : A) (l : list A) :
  valid x -> Forall valid l ->
  StronglySorted (fun a b => before_or_tie comparefn a b = true) l ->
  StronglySorted (fun a b => before_or_tie comparefn a b = true)
    (sort_insert comparefn x l).
Proof.
  intros Hx Hl Hs. induction Hs as [|y r Hr IH Hy]; simpl.
  - constructor; constructor.
  - inversion Hl as [|? ? Vy Vr]; subst.
    destruct (before_or_tie comparefn x y) eqn:E.
    + constructor.
      * now constructor.
      * constructor; [exact E|].
        rewrite Forall_forall in *. intros z Hz.
        apply le_trans with y; auto.
    + constructor.
      * now apply IH.
      * apply (Permutation_Forall (sort_insert_perm x r)).
        constructor; [|assumption]. now apply le_total.
Qed.

Lemma Array_sort_sorted (l : list A) :
  Forall valid l ->
  StronglySorted (fun a b => before_or_tie comparefn a b = true)
    (Array_sort comparefn l).
Proof.
  induction l as [|x r IH]; simpl; intro H.
  - constructor.
  - inversion H; subst. apply sort_insert_sorted; auto.
    apply (Permutation_Forall (Array_sort_perm r)). assumption.
Qed.

(** Elements that tie with one another keep their input order. *)
Variable tie : A -> bool.
Hypothesis tie_le :
  forall x y, tie x = true -> tie y = true -> before_or_tie comparefn x y = true.

Lemma sort_insert_stable (x : A) (l : list A) :
  filter tie (sort_insert comparefn x l) = filter tie (x :: l).
Proof.
  induction l as [|y r IH]; simpl; [reflexivity|].
  destruct (before_or_tie comparefn x y) eqn:E; [reflexivity|].
  simpl. rewrite IH. simpl.
  destruct (tie x) eqn:Tx, (tie y) eqn:Ty; try reflexivity.
  pose proof (tie_le _ _ Tx Ty) as H. congruence.
Qed.

Lemma Array_sort_stable (l : list A) :
  filter tie (Array_sort comparefn l) = filter tie l.
Proof.
  induction l as [|x r IH]; simpl; [reflexivity|].
  rewrite sort_insert_stable. simpl. now rewrite IH.
Qed.
End SortFacts.

Lemma StronglySorted_weaken {A : Type} (R R' : A -> A -> Prop) (P : A -> Prop) (l : list A) :
  (forall x y, P x -> P y -> R x y -> R' x y) ->
  Forall P l -> StronglySorted R l -> StronglySorted R' l.
Proof.
  intros HR HP HS. induction HS as [|x r Hr IH Hx]; constructor.
  - apply IH. now inversion HP.
  - inversion HP as [|? ? Px Pr]; subst. rewrite Forall_forall in *.
    intros y Hy. apply HR; auto.
Qed.

Lemma filteredProjects_of_nil {Num : Type} (ids : list JsId) (d : option (Response.t Num)) :
  filteredProjects_of ids d = [] <->
  (forall i, In i ids -> ~ In i (projectIDs_of d)).
Proof.
  unfold filteredProjects_of, projectIDs_of.
  destruct (data_Project d) as [l|]; [|split; [intros _ i _ []|reflexivity]].
  split.
  - intros H i Hi Hin. apply in_map_iff in Hin as [p [<- Hp]].
    assert (In p (filter (fun project => Array_includes ids (ProjectInfo.ProjectID project)) l)) as K.
    { apply filter_In. split; [assumption|]. now apply Array_includes_In. }
    rewrite H in K. destruct K.
  - intro H. destruct (filter _ l) as [|p q] eqn:F; [reflexivity|]. exfalso.
    assert (In p (filter (fun project => Array_includes ids (ProjectInfo.ProjectID project)) l)) as K.
    { rewrite F. now left. }
    apply filter_In in K as [K1 K2]. apply Array_includes_In in K2.
    apply (H _ K2). now apply in_map.
Qed.

Lemma filteredProjects_of_ids {Num : Type} (ids : list JsId) (d : option (Response.t Num)) (i : JsId) :
  In i (map ProjectInfo.ProjectID (filteredProjects_of ids d)) ->
  In i ids /\ In i (projectIDs_of d).
Proof.
  unfold filteredProjects_of, projectIDs_of.
  destruct (data_Project d) as [l|]; [|intros []].
  intro H. apply in_map_iff in H as [p [<- Hp]].
  apply filter_In in Hp as [H1 H2]. apply Array_includes_In in H2.
  split; [assumption | now apply in_map].
Qed.

Section KeywordFacts.
Context {Num : Type}.
Variable toS : Num -> string.
Variable Date_parse : string -> option Z.
Variable service : Request -> Settled Num.

(** The three ways a run can end, by the requests it made. *)
Lemma keyword_outcome (w : World (Keyword.State Num) Request) :
  let k := Keyword.keyword (ui w) in
  (requests (exec (Keyword.fetchProjects toS Date_parse service) w) = requests w ++ [ProjectSearch k] /\
   Keyword.projectMetadata (ui (exec (Keyword.fetchProjects toS Date_parse service) w)) = Keyword.projectMetadata (ui w))
  \/
  (exists c,
     Keyword.location (ui w) = Some c /\
     requests (exec (Keyword.fetchProjects toS Date_parse service) w) =
       requests w ++ [ProjectSearch k;
                      GetProjects (circle_text toS c (toS (Keyword.radius (ui w))))] /\
     Keyword.projectMetadata (ui (exec (Keyword.fetchProjects toS Date_parse service) w)) = Keyword.projectMetadata (ui w))
  \/
  (exists c d1 d2,
     Keyword.location (ui w) = Some c /\
     service (ProjectSearch k) = Fulfilled d1 /\
     service (GetProjects (circle_text toS c (toS (Keyword.radius (ui w))))) = Fulfilled d2 /\
     let ids := map ProjectInfo.ProjectID (filteredProjects_of (projectIDs_of d1) d2) in
     requests (exec (Keyword.fetchProjects toS Date_parse service) w) =
       requests w ++ [ProjectSearch k;
                      GetProjects (circle_text toS c (toS (Keyword.radius (ui w))));
                      GetProjectsMetadataById ids] /\
     (Keyword.projectMetadata (ui (exec (Keyword.fetchProjects toS Date_parse service) w)) = Keyword.projectMetadata (ui w) \/
      exists d3, service (GetProjectsMetadataById ids) = Fulfilled d3 /\
        Permutation (entries (data_ProjectMetadata d3))
                    (Keyword.projectMetadata (ui (exec (Keyword.fetchProjects toS Date_parse service) w))))).
Proof.
  run_keyword.
  destruct (service (ProjectSearch (Keyword.keyword (ui w)))) as [d1|e1] eqn:E1; cbn.
  2:{ left. now split. }
  destruct (projectIDs_of d1) as [|i1 r1] eqn:I1; cbn.
  { left. now split. }
  destruct (Keyword.location (ui w)) as [c|] eqn:L; cbn.
  2:{ left. now split. }
  set (circle := circle_text toS c (toS (Keyword.radius (ui w)))).
  destruct (service (GetProjects circle)) as [d2|e2] eqn:E2; cbn.
  2:{ right. left. exists c. rewrite <- app_assoc. now repeat split. }
  destruct (filteredProjects_of (i1 :: r1) d2) as [|p1 q1] eqn:F; cbn.
  { right. left. exists c. rewrite <- app_assoc. now repeat split. }
  right. right. exists c, d1, d2. rewrite I1, F. cbn.
  set (fids := ProjectInfo.ProjectID p1 :: map ProjectInfo.ProjectID q1).
  repeat (split; [first [reflexivity | assumption]|]).
  destruct (service (GetProjectsMetadataById fids)) as [d3|e3] eqn:E3; cbn.
  2:{ rewrite <- !app_assoc. split; [reflexivity|now left]. }
  destruct (data_ProjectMetadata d3) as [|m|l] eqn:D3; cbn;
    rewrite <- !app_assoc; (split; [reflexivity|]).
  - now left.
  - right. exists d3. split; [reflexivity|]. rewrite D3. apply Permutation_refl.
  - right. exists d3. split; [reflexivity|]. rewrite D3. apply Array_sort_perm.
Qed.

(** What a run stores once the three calls are answered. *)
Lemma keyword_answered (w : World (Keyword.State Num) Request) c d1 d2 d3 :
  let k := Keyword.keyword (ui w) in
  let circle := circle_text toS c (toS (Keyword.radius (ui w))) in
  let ids := map ProjectInfo.ProjectID (filteredProjects_of (projectIDs_of d1) d2) in
  Keyword.location (ui w) = Some c ->
  service (ProjectSearch k) = Fulfilled d1 ->
  service (GetProjects circle) = Fulfilled d2 ->
  ids <> [] ->
  service (GetProjectsMetadataById ids) = Fulfilled d3 ->
  requests (exec (Keyword.fetchProjects toS Date_parse service) w) =
    requests w ++ [ProjectSearch k; GetProjects circle; GetProjectsMetadataById ids] /\
  Keyword.loading (ui (exec (Keyword.fetchProjects toS Date_parse service) w)) = false /\
  Keyword.projectMetadata (ui (exec (Keyword.fetchProjects toS Date_parse service) w)) =
    match data_ProjectMetadata d3 with
    | Missing => Keyword.projectMetadata (ui w)
    | One m => [m]
    | Many l => Array_sort (Keyword.byLastLoadDate Date_parse) l
    end /\
  Keyword.errorMsg (ui (exec (Keyword.fetchProjects toS Date_parse service) w)) =
    match data_ProjectMetadata d3 with
    | Missing => Some Keyword.no_metadata
    | _ => None
    end.
Proof.
  intros k circle ids L E1 E2 N E3. subst k circle ids. run_keyword.
  rewrite E1. cbn.
  destruct (projectIDs_of d1) as [|i1 r1] eqn:I1.
  { exfalso. apply N. unfold filteredProjects_of.
    destruct (data_Project d2) as [l|]; [|reflexivity].
    induction l; [reflexivity|]. cbn. assumption. }
  cbn. rewrite L. cbn. rewrite E2. cbn.
  destruct (filteredProjects_of (i1 :: r1) d2) as [|p1 q1] eqn:F; [now elim N|].
  cbn. cbn in E3. rewrite E3. cbn.
  destruct (data_ProjectMetadata d3) as [|m|l]; cbn; rewrite <- !app_assoc;
    repeat split; reflexivity.
Qed.
End KeywordFacts.



Section AutofillFacts.
Context {Num : Type}.
Variable toS : Num -> string.
Variable service : Request -> Settled Num.

Lemma autofill_answered (w : World (Autofill.State Num) Request) k c d1 d2 d3 :
  let circle := circle_text toS c (toS (Autofill.radius (ui w))) in
  let ids := projectIDs_of d1 in
  let w' := exec (Autofill.fetchProjects toS service k) w in
  Autofill.location (ui w) = Some c ->
  service (ProjectSearch k) = Fulfilled d1 ->
  ids <> [] ->
  service (GetSurveys ids circle) = Fulfilled d2 ->
  service (GetProjectsMetadataById ids) = Fulfilled d3 ->
  requests w' =
    requests w ++ [ProjectSearch k; GetSurveys ids circle; GetProjectsMetadataById ids] /\
  Autofill.projectMetadata (ui w') = Autofill.as_array (data_ProjectMetadata d3) /\
  Autofill.markers (ui w') = map (@Autofill.newMarker Num) (data_features d2) /\
  Autofill.errorMsg (ui w') = None /\
  Autofill.loadingProjects (ui w') = false.
Proof.
  intros circle ids w' L E1 N E2 E3. subst w' circle ids. run_autofill.
  rewrite E1. cbn.
  destruct (projectIDs_of d1) as [|i1 r1] eqn:I1; [now elim N|].
  cbn. rewrite L. cbn. rewrite E2. cbn. rewrite E3. cbn.
  rewrite <- !app_assoc. repeat split; reflexivity.
Qed.

Lemma autofill_empty (w : World (Autofill.State Num) Request) k d :
  let w' := exec (Autofill.fetchProjects toS service k) w in
  service (ProjectSearch k) = Fulfilled d ->
  projectIDs_of d = [] ->
  requests w' = requests w ++ [ProjectSearch k] /\
  Autofill.errorMsg (ui w') = Some (Autofill.no_results_for_keyword k) /\
  Autofill.loadingProjects (ui w') = false.
Proof.
  intros w' E1 I1. subst w'. run_autofill. rewrite E1. cbn. rewrite I1. cbn.
  repeat split; reflexivity.
Qed.
(** The metadata request of a run, when it makes one, carries the
    identifiers of the keyword search, and the list stored comes from its
    answer. *)
Lemma autofill_outcome (w : World (Autofill.State Num) Request) (k : string) :
  let w' := exec (Autofill.fetchProjects toS service k) w in
  exists new,
    requests w' = requests w ++ new /\
    forall ids, In (GetProjectsMetadataById ids) new ->
    exists d1,
      service (ProjectSearch k) = Fulfilled d1 /\
      ids = projectIDs_of d1 /\
      (Autofill.projectMetadata (ui w') = [] \/
       exists d3, service (GetProjectsMetadataById ids) = Fulfilled d3 /\
         Autofill.projectMetadata (ui w') = Autofill.as_array (data_ProjectMetadata d3)).
Proof.
  intro w'. subst w'. run_autofill.
  destruct (service (ProjectSearch k)) as [d1|e1] eqn:E1; cbn.
  2:{ exists [ProjectSearch k]. split; [reflexivity|]. intros ids [H|[]]; discriminate. }
  destruct (projectIDs_of d1) as [|i1 r1] eqn:I1; cbn.
  { exists [ProjectSearch k]. split; [reflexivity|]. intros ids [H|[]]; discriminate. }
  destruct (Autofill.location (ui w)) as [c|] eqn:L; cbn.
  2:{ exists [ProjectSearch k]. split; [reflexivity|]. intros ids [H|[]]; discriminate. }
  set (circle := circle_text toS c (toS (Autofill.radius (ui w)))).
  destruct (service (GetSurveys (i1 :: r1) circle)) as [d2|e2] eqn:E2; cbn.
  2:{ exists [ProjectSearch k; GetSurveys (i1 :: r1) circle].
      split; [now rewrite <- app_assoc|]. intros ids [H|[H|[]]]; discriminate. }
  exists [ProjectSearch k; GetSurveys (i1 :: r1) circle; GetProjectsMetadataById (i1 :: r1)].
  destruct (service (GetProjectsMetadataById (i1 :: r1))) as [d3|e3] eqn:E3; cbn;
    (split; [now rewrite <- !app_assoc|]);
    intros ids [H|[H|[H|[]]]]; try discriminate; injection H as <-;
    exists d1; (split; [reflexivity|]); (split; [now rewrite I1|]).
  - right. exists d3. now split.
  - now left.
Qed.
End AutofillFacts.

Section PipelineTheorems.
Context {Num : Type}.
Variable toS : Num -> string.
Variable Date_parse : string -> option Z.
Variable service : Request -> Settled Num.

(** C5.  When the project search of a keyword yields no identifier, the
    run ends with the message naming the keyword and has made that one
    request only: no survey, circle or metadata call follows.  Keyword
    version and autofill version. *)
Theorem empty_search_result_stops
  (wk : World (Keyword.State Num) Request)
  (wa : World (Autofill.State Num) Request) (k : string) :
  (forall dk,
     service (ProjectSearch (Keyword.keyword (ui wk))) = Fulfilled dk ->
     projectIDs_of dk = [] ->
     let w' := exec (Keyword.fetchProjects toS Date_parse service) wk in
     requests w' = requests wk ++ [ProjectSearch (Keyword.keyword (ui wk))] /\
     Keyword.errorMsg (ui w') =
       Some (Keyword.no_results_for_keyword (Keyword.keyword (ui wk))) /\
     Keyword.loading (ui w') = false)
  /\
  (forall da,
     service (ProjectSearch k) = Fulfilled da ->
     projectIDs_of da = [] ->
     let w' := exec (Autofill.fetchProjects toS service k) wa in
     requests w' = requests wa ++ [ProjectSearch k] /\
     Autofill.errorMsg (ui w') = Some (Autofill.no_results_for_keyword k) /\
     Autofill.loadingProjects (ui w') = false).
Proof.
  split.
  - intros dk Ek Ik. run_keyword. rewrite Ek. cbn. rewrite Ik. cbn.
    repeat split; reflexivity.
  - intros da Ea Ia. now apply autofill_empty with da.
Qed.

(** C6.  Keyword version: when no candidate identifier is among the
    projects of the circle response, the run ends with the message that
    suggests a larger radius, after the keyword search and the circle call;
    the metadata call is never made and the stored list is unchanged. *)
Theorem empty_intersection_stops
  (w : World (Keyword.State Num) Request) (c : Coordinate Num)
  (d1 d2 : option (Response.t Num)) :
  let k := Keyword.keyword (ui w) in
  let r := toS (Keyword.radius (ui w)) in
  let w' := exec (Keyword.fetchProjects toS Date_parse service) w in
  Keyword.location (ui w) = Some c ->
  service (ProjectSearch k) = Fulfilled d1 ->
  projectIDs_of d1 <> [] ->
  service (GetProjects (circle_text toS c r)) = Fulfilled d2 ->
  (forall i, In i (projectIDs_of d1) -> ~ In i (projectIDs_of d2)) ->
  requests w' = requests w ++ [ProjectSearch k; GetProjects (circle_text toS c r)] /\
  Keyword.errorMsg (ui w') = Some (Keyword.no_results_in_area k r) /\
  Keyword.loading (ui w') = false /\
  Keyword.projectMetadata (ui w') = Keyword.projectMetadata (ui w).
Proof.
  intros k r w' L E1 N E2 H. apply filteredProjects_of_nil in H.
  subst k r w'. run_keyword. rewrite E1. cbn.
  destruct (projectIDs_of d1) as [|i1 r1] eqn:I1; [now elim N|].
  cbn. rewrite L. cbn. rewrite E2. cbn. rewrite H. cbn.
  rewrite <- app_assoc. repeat split; reflexivity.
Qed.

(** C1, as amended.  Keyword version: every identifier of the metadata
    request belongs to a project that is both in the keyword search result
    and in the circle response.  Autofill version, which has no circle
    filter on projects: the metadata request carries the identifiers of the
    keyword search, all of them.  In both, provided the service answers a
    metadata request with records of the projects asked for only, every
    record the run stores has an identifier of the keyword search (and, in
    the keyword version, of the circle response). *)
Theorem metadata_request_only_for_projects_in_area
  (wk : World (Keyword.State Num) Request)
  (wa : World (Autofill.State Num) Request) (k : string) :
  let wk' := exec (Keyword.fetchProjects toS Date_parse service) wk in
  let wa' := exec (Autofill.fetchProjects toS service k) wa in
  (exists new,
     requests wk' = requests wk ++ new /\
     forall ids, In (GetProjectsMetadataById ids) new ->
     exists c d1 d2,
       Keyword.location (ui wk) = Some c /\
       service (ProjectSearch (Keyword.keyword (ui wk))) = Fulfilled d1 /\
       service (GetProjects (circle_text toS c (toS (Keyword.radius (ui wk)))))
         = Fulfilled d2 /\
       only_surviving_ids_requested
         (filter (Array_includes (projectIDs_of d2)) (projectIDs_of d1)) new /\
       (answers_requested_ids service ->
        Keyword.projectMetadata (ui wk') = Keyword.projectMetadata (ui wk) \/
        forall m, In m (Keyword.projectMetadata (ui wk')) ->
                  In (project_id m) (projectIDs_of d1) /\
                  In (project_id m) (projectIDs_of d2)))
  /\
  (exists new,
     requests wa' = requests wa ++ new /\
     forall ids, In (GetProjectsMetadataById ids) new ->
     exists d1,
       service (ProjectSearch k) = Fulfilled d1 /\
       ids = projectIDs_of d1 /\
       (answers_requested_ids service ->
        forall m, In (Some m) (Autofill.projectMetadata (ui wa')) ->
                  In (project_id m) (projectIDs_of d1))).
Proof.
  intros wk' wa'. subst wk' wa'. split.
  - destruct (keyword_outcome toS Date_parse service wk) as [[R P]|[[c [L [R P]]]|H]].
    + eexists. split; [exact R|]. intros ids [H|[]]; discriminate.
    + eexists. split; [exact R|]. intros ids [H|[H|[]]]; discriminate.
    + destruct H as [c [d1 [d2 [L [E1 [E2 [R P]]]]]]].
      eexists. split; [exact R|].
      intros ids Hin. exists c, d1, d2. repeat (split; [assumption|]).
      assert (Hsub : forall i,
        In i (map ProjectInfo.ProjectID (filteredProjects_of (projectIDs_of d1) d2)) ->
        In i (projectIDs_of d1) /\ In i (projectIDs_of d2)).
      { intros i. apply filteredProjects_of_ids. }
      split.
      * intros ids' [H|[H|[H|[]]]] i Hi; try discriminate.
        injection H as <-. apply Hsub in Hi as [H1 H2].
        apply filter_In. split; [assumption|]. now apply Array_includes_In.
      * intro Hs. destruct P as [P|[d3 [E3 P]]]; [now left|right].
        intros m Hm. apply Hsub. apply (Hs _ _ _ E3).
        apply Permutation_sym in P. apply (Permutation_in _ P Hm).
  - destruct (autofill_outcome toS service wa k) as [new [R H]].
    exists new. split; [exact R|]. intros ids Hin.
    destruct (H ids Hin) as [d1 [E1 [I [P|[d3 [E3 P]]]]]]; exists d1;
      (split; [assumption|]); (split; [assumption|]); intros Hs m Hm; rewrite P in Hm.
    + destruct Hm.
    + rewrite <- I. apply (Hs _ _ _ E3).
      destruct (data_ProjectMetadata d3) as [|m0|l]; simpl in Hm |- *.
      * destruct Hm as [Hm|[]]. discriminate.
      * destruct Hm as [Hm|[]]. injection Hm as ->. now left.
      * apply in_map_iff in Hm as [m' [Hm' Hin']]. injection Hm' as ->. assumption.
Qed.
End PipelineTheorems.

Section DateOrder.
Variable Date_parse : string -> option Z.

Lemma byLastLoadDate_dated (a b : Metadata.t) :
  dated Date_parse a -> dated Date_parse b ->
  exists ta tb,
    load_time Date_parse a = Some ta /\ load_time Date_parse b = Some tb /\
    Keyword.byLastLoadDate Date_parse a b = Some (tb - ta)%Z.
Proof.
  unfold dated, load_time, Keyword.byLastLoadDate. intros Ha Hb.
  destruct (Keyword.Date_new Date_parse (Metadata.LastLoadDate a)) as [ta|]; [|now elim Ha].
  destruct (Keyword.Date_new Date_parse (Metadata.LastLoadDate b)) as [tb|]; [|now elim Hb].
  now exists ta, tb.
Qed.

Lemma before_or_tie_dated (a b : Metadata.t) :
  dated Date_parse a -> dated Date_parse b ->
  (before_or_tie (Keyword.byLastLoadDate Date_parse) a b = true <->
   loaded_not_before Date_parse a b).
Proof.
  intros Ha Hb. destruct (byLastLoadDate_dated a b Ha Hb) as [ta [tb [Ea [Eb E]]]].
  unfold before_or_tie, loaded_not_before. rewrite E, Ea, Eb. split.
  - intro H. apply Z.leb_le in H. exists ta, tb. repeat split; lia.
  - intros [ta' [tb' [H1 [H2 H3]]]]. injection H1 as <-. injection H2 as <-.
    apply Z.leb_le. lia.
Qed.

Lemma sort_by_date_sorted (l : list Metadata.t) :
  Forall (dated Date_parse) l ->
  StronglySorted (loaded_not_before Date_parse)
    (Array_sort (Keyword.byLastLoadDate Date_parse) l).
Proof.
  intro H.
  apply StronglySorted_weaken with
    (R := fun x y => before_or_tie (Keyword.byLastLoadDate Date_parse) x y = true)
    (P := dated Date_parse).
  - intros x y Hx Hy. now apply before_or_tie_dated.
  - apply (Permutation_Forall (Array_sort_perm _ l)). assumption.
  - apply Array_sort_sorted with (valid := dated Date_parse); [| |assumption].
    + intros x y Hx Hy E.
      destruct (byLastLoadDate_dated x y Hx Hy) as [ta [tb [Ea [Eb E1]]]].
      destruct (byLastLoadDate_dated y x Hy Hx) as [tb' [ta' [Eb' [Ea' E2]]]].
      unfold before_or_tie in *. rewrite E1 in E. rewrite E2.
      rewrite Ea in Ea'. rewrite Eb in Eb'. injection Ea' as <-. injection Eb' as <-.
      apply Z.leb_gt in E. apply Z.leb_le. lia.
    + intros x y z Hx Hy Hz H1 H2.
      apply before_or_tie_dated in H1, H2; try assumption.
      apply before_or_tie_dated; try assumption.
      destruct H1 as [tx [ty [Ex [Ey L1]]]]. destruct H2 as [ty' [tz [Ey' [Ez L2]]]].
      rewrite Ey in Ey'. injection Ey' as <-.
      exists tx, tz. repeat split; try assumption. lia.
Qed.

Lemma sort_by_date_stable (l : list Metadata.t) (t : Z) :
  filter (loaded_at Date_parse t) (Array_sort (Keyword.byLastLoadDate Date_parse) l)
  = filter (loaded_at Date_parse t) l.
Proof.
  apply Array_sort_stable. intros x y Hx Hy.
  unfold loaded_at in Hx, Hy. unfold before_or_tie, Keyword.byLastLoadDate.
  unfold load_time in Hx, Hy.
  destruct (Keyword.Date_new Date_parse (Metadata.LastLoadDate x)) as [tx|]; [|discriminate].
  destruct (Keyword.Date_new Date_parse (Metadata.LastLoadDate y)) as [ty|]; [|discriminate].
  apply Z.eqb_eq in Hx, Hy. subst. apply Z.leb_le. lia.
Qed.
End DateOrder.

Section NormalizationTheorems.
Context {Num : Type}.
Variable toS : Num -> string.
Variable Date_parse : string -> option Z.
Variable service : Request -> Settled Num.

(** C4, as amended.  Once the calls before it are answered, a metadata
    answer that is one object is stored as a one-element list; an array is
    stored in the order of the answer by the autofill version, and as a
    permutation of the answer by the keyword version, which is sorted by
    [LastLoadDate], latest first, records of equal date in the order of the
    answer, when every record of the array carries a valid date. *)
Theorem metadata_normalization
  (wk : World (Keyword.State Num) Request) (ck : Coordinate Num)
  (k1 k2 k3 : option (Response.t Num))
  (wa : World (Autofill.State Num) Request) (k : string) (ca : Coordinate Num)
  (a1 a2 a3 : option (Response.t Num)) :
  let circle_k := circle_text toS ck (toS (Keyword.radius (ui wk))) in
  let ids_k := map ProjectInfo.ProjectID (filteredProjects_of (projectIDs_of k1) k2) in
  let circle_a := circle_text toS ca (toS (Autofill.radius (ui wa))) in
  let stored_k :=
    Keyword.projectMetadata (ui (exec (Keyword.fetchProjects toS Date_parse service) wk)) in
  let stored_a :=
    Autofill.projectMetadata (ui (exec (Autofill.fetchProjects toS service k) wa)) in
  (Keyword.location (ui wk) = Some ck ->
   service (ProjectSearch (Keyword.keyword (ui wk))) = Fulfilled k1 ->
   service (GetProjects circle_k) = Fulfilled k2 ->
   ids_k <> [] ->
   service (GetProjectsMetadataById ids_k) = Fulfilled k3 ->
   (forall m, data_ProjectMetadata k3 = One m -> stored_k = [m]) /\
   (forall l, data_ProjectMetadata k3 = Many l ->
      Permutation l stored_k /\
      (Forall (dated Date_parse) l ->
       StronglySorted (loaded_not_before Date_parse) stored_k /\
       forall t, filter (loaded_at Date_parse t) stored_k
                 = filter (loaded_at Date_parse t) l)))
  /\
  (Autofill.location (ui wa) = Some ca ->
   service (ProjectSearch k) = Fulfilled a1 ->
   projectIDs_of a1 <> [] ->
   service (GetSurveys (projectIDs_of a1) circle_a) = Fulfilled a2 ->
   service (GetProjectsMetadataById (projectIDs_of a1)) = Fulfilled a3 ->
   (forall m, data_ProjectMetadata a3 = One m -> stored_a = [Some m]) /\
   (forall l, data_ProjectMetadata a3 = Many l -> stored_a = map (@Some Metadata.t) l)).
Proof.
  intros circle_k ids_k circle_a stored_k stored_a. split.
  - intros Lk K1 K2 Nk K3.
    destruct (keyword_answered toS Date_parse service wk ck k1 k2 k3 Lk K1 K2 Nk K3)
      as [_ [_ [Pk _]]].
    subst stored_k. rewrite Pk. split.
    + intros m ->. reflexivity.
    + intros l ->. split; [apply Array_sort_perm|].
      intro D. split; [now apply sort_by_date_sorted|].
      intro t. apply sort_by_date_stable.
  - intros La A1 Na A2 A3.
    destruct (autofill_answered toS service wa k ca a1 a2 a3 La A1 Na A2 A3)
      as [_ [Pa _]].
    subst stored_a. rewrite Pa. split.
    + intros m ->. reflexivity.
    + intros l ->. reflexivity.
Qed.
End NormalizationTheorems.

(** ** Maps and objects *)

Lemma JsMap_get_set {V : Type} (m : JsMap.t V) (k k' : JsId) (v : V) :
  JsMap.get (JsMap.set m k v) k' = if JsId_eqb k' k then Some v else JsMap.get m k'.
Proof.
  induction m as [|[k0 v0] r IH]; simpl; [reflexivity|].
  destruct (JsId_eqb k k0) eqn:E; simpl.
  - apply JsId_eqb_eq in E. subst k0. now destruct (JsId_eqb k' k).
  - rewrite IH. destruct (JsId_eqb k' k0) eqn:E0, (JsId_eqb k' k) eqn:E1; try reflexivity.
    apply JsId_eqb_eq in E0, E1. subst. rewrite JsId_eqb_refl in E. discriminate.
Qed.

Lemma counts_total_set (m : JsMap.t nat) (k : JsId) (v : nat) :
  counts_total (JsMap.set m k v) + Species.or_zero (JsMap.get m k)
  = counts_total m + v.
Proof.
  unfold counts_total. induction m as [|[k0 v0] r IH]; simpl; [lia|].
  destruct (JsId_eqb k k0); simpl; lia.
Qed.

Lemma JsObject_own_set {V : Type} (o : JsObject.t V) (k k' : string) (v : V) :
  JsObject.own (JsObject.set o k v) k' =
  if String.eqb k' k then Some v else JsObject.own o k'.
Proof.
  induction o as [|[k0 v0] r IH]; simpl; [reflexivity|].
  destruct (String.eqb k k0) eqn:E; simpl.
  - apply String.eqb_eq in E. subst k0. now destruct (String.eqb k' k).
  - rewrite IH. destruct (String.eqb k' k0) eqn:E0, (String.eqb k' k) eqn:E1; try reflexivity.
    apply String.eqb_eq in E0, E1. subst. rewrite String.eqb_refl in E. discriminate.
Qed.

Lemma JsObject_keys_set {V : Type} (o : JsObject.t V) (k : string) (v : V) :
  map fst (JsObject.set o k v) =
  match JsObject.own o k with
  | Some _ => map fst o
  | None => map fst o ++ [k]
  end.
Proof.
  induction o as [|[k0 v0] r IH]; simpl; [reflexivity|].
  destruct (String.eqb k k0) eqn:E; simpl; [reflexivity|].
  rewrite IH. now destruct (JsObject.own r k).
Qed.

Lemma JsObject_own_In {V : Type} (o : JsObject.t V) (k : string) (v : V) :
  NoDup (map fst o) -> In (k, v) o -> JsObject.own o k = Some v.
Proof.
  induction o as [|[k0 v0] r IH]; simpl; intros N H; [destruct H|].
  inversion N as [|? ? N1 N2]; subst. destruct H as [H|H].
  - injection H as -> ->. now rewrite String.eqb_refl.
  - destruct (String.eqb k k0) eqn:E.
    + apply String.eqb_eq in E. subst k0. elim N1.
      change k with (fst (k, v)). now apply in_map.
    + now apply IH.
Qed.

Lemma uint_of_string_comma (s : string) :
  has_comma s = true -> NilEmpty.uint_of_string s = None.
Proof.
  induction s as [|c r IH]; simpl; [discriminate|].
  destruct (Ascii.eqb c ",") eqn:E; simpl.
  - apply Ascii.eqb_eq in E. subst c. intros _.
    now destruct (NilEmpty.uint_of_string r).
  - intro H. now rewrite (IH H).
Qed.

Lemma array_index_comma (s : string) :
  has_comma s = true -> JsObject.array_index s = None.
Proof.
  intro H. unfold JsObject.array_index. now rewrite uint_of_string_comma.
Qed.

Lemma has_comma_app (a b : string) :
  has_comma (a ++ "," ++ b)%string = true.
Proof.
  induction a as [|c r IH]; [reflexivity|].
  change (String c r ++ "," ++ b)%string with (String c (r ++ "," ++ b)%string).
  simpl. rewrite IH. apply orb_true_r.
Qed.

Lemma comma_not_inherited (s : string) :
  has_comma s = true -> existsb (String.eqb s) JsObject.prototype_names = false.
Proof.
  intro H. destruct (existsb (String.eqb s) JsObject.prototype_names) eqn:E; [|reflexivity].
  apply existsb_exists in E as [n [Hn E]]. apply String.eqb_eq in E. subst n.
  exfalso. simpl in Hn.
  repeat (destruct Hn as [Hn|Hn]; [subst s; discriminate|]). destruct Hn.
Qed.

Lemma JsObject_values_named {V : Type} (o : JsObject.t V) :
  Forall (fun e => has_comma (fst e) = true) o -> JsObject.values o = map snd o.
Proof.
  unfold JsObject.values. induction o as [|[k v] r IH]; intro H; [reflexivity|].
  inversion H as [|? ? Hk Hr]; subst. simpl in Hk. simpl.
  rewrite (array_index_comma k Hk).
  specialize (IH Hr).
  assert (JsObject.index_entries r = []) as Z.
  { clear IH H. induction r as [|[k' v'] r' IH']; [reflexivity|].
    inversion Hr as [|? ? Hk' Hr']; subst. simpl in Hk'. simpl.
    rewrite (array_index_comma k' Hk'). now apply IH'. }
  rewrite Z in IH. rewrite Z. simpl in IH. simpl. now rewrite IH.
Qed.

(** ** First occurrences *)

Lemma first_seen_snoc (l : list string) (x : string) :
  first_seen (l ++ [x]) =
  if existsb (String.eqb x) l then first_seen l else first_seen l ++ [x].
Proof.
  induction l as [|a r IH]; simpl; [reflexivity|].
  rewrite IH. destruct (String.eqb x a) eqn:E; simpl.
  - destruct (existsb (String.eqb x) r); [reflexivity|].
    rewrite filter_app. simpl. rewrite E. simpl. now rewrite app_nil_r.
  - destruct (existsb (String.eqb x) r); [reflexivity|].
    rewrite filter_app. simpl. rewrite E. reflexivity.
Qed.

Lemma first_seen_In (l : list string) (k : string) :
  In k (first_seen l) <-> In k l.
Proof.
  induction l as [|a r IH]; simpl; [tauto|].
  rewrite filter_In, IH. split.
  - intros [H|[H _]]; auto.
  - intros [H|H]; [now left|].
    destruct (String.eqb k a) eqn:E.
    + apply String.eqb_eq in E. now left.
    + right. now split.
Qed.

Lemma first_seen_NoDup (l : list string) : NoDup (first_seen l).
Proof.
  induction l as [|a r IH]; simpl; constructor.
  - rewrite filter_In. intros [_ H]. now rewrite String.eqb_refl in H.
  - now apply NoDup_filter.
Qed.

Section LoopFacts.
Context {Num : Type}.
Variable toS : Num -> string.

Lemma coordKey_comma (s : Survey.Feature Num) : has_comma (Species.coordKey toS s) = true.
Proof. apply has_comma_app. Qed.

Lemma get_coordKey (o : JsObject.t (Species.Group Num)) (s : Survey.Feature Num) :
  JsObject.get o (Species.coordKey toS s) =
  match JsObject.own o (Species.coordKey toS s) with
  | Some g => JsObject.OwnProperty g
  | None => JsObject.NoProperty
  end.
Proof.
  unfold JsObject.get. destruct (JsObject.own o (Species.coordKey toS s)); [reflexivity|].
  now rewrite (comma_not_inherited _ (coordKey_comma s)).
Qed.

Lemma forEach_body_steps (acc : JsMap.t nat * JsObject.t (Species.Group Num))
  (s : Survey.Feature Num) :
  Species.forEach_body toS acc s =
  Normal (count_step (fst acc) s, group_step toS (snd acc) s).
Proof.
  destruct acc as [c g]. unfold Species.forEach_body, count_step, group_step.
  cbv zeta. simpl fst. simpl snd.
  rewrite (get_coordKey g s).
  destruct (JsObject.own g (Species.coordKey toS s)) as [grp|] eqn:E.
  - rewrite (get_coordKey g s), E. reflexivity.
  - rewrite get_coordKey, JsObject_own_set, String.eqb_refl. reflexivity.
Qed.

Lemma forEach_steps (l : list (Survey.Feature Num))
  (acc : JsMap.t nat * JsObject.t (Species.Group Num)) :
  Species.forEach toS l acc =
  Normal (fold_left count_step l (fst acc), fold_left (group_step toS) l (snd acc)).
Proof.
  revert acc. induction l as [|s r IH]; intro acc; simpl.
  - now destruct acc.
  - rewrite forEach_body_steps. apply IH.
Qed.

(** *** Counting *)

Lemma count_step_get (c : JsMap.t nat) (s : Survey.Feature Num) (i : JsId) :
  truthy i = true ->
  Species.or_zero (JsMap.get (count_step c s) i) =
  Species.or_zero (JsMap.get c i) + occurrences i [s].
Proof.
  intro T. unfold count_step, occurrences. simpl.
  destruct (truthy (Survey.ProjectID (Survey.properties s))) eqn:Ts.
  - rewrite JsMap_get_set.
    destruct (JsId_eqb i (Survey.ProjectID (Survey.properties s))) eqn:E.
    + apply JsId_eqb_eq in E. subst i. rewrite JsId_eqb_refl. simpl. reflexivity.
    + destruct (JsId_eqb (Survey.ProjectID (Survey.properties s)) i) eqn:E'.
      * apply JsId_eqb_eq in E'. subst i. rewrite JsId_eqb_refl in E. discriminate.
      * simpl. lia.
  - destruct (JsId_eqb (Survey.ProjectID (Survey.properties s)) i) eqn:E'.
    + apply JsId_eqb_eq in E'. subst i. congruence.
    + simpl. lia.
Qed.

Lemma count_fold_get (l : list (Survey.Feature Num)) (c : JsMap.t nat) (i : JsId) :
  truthy i = true ->
  Species.or_zero (JsMap.get (fold_left count_step l c) i) =
  Species.or_zero (JsMap.get c i) + occurrences i l.
Proof.
  intro T. revert c. induction l as [|s r IH]; intro c; simpl.
  - unfold occurrences. simpl. lia.
  - rewrite IH, (count_step_get c s i T). unfold occurrences. simpl.
    destruct (JsId_eqb (Survey.ProjectID (Survey.properties s)) i); simpl; lia.
Qed.

Lemma count_fold_falsy (l : list (Survey.Feature Num)) (c : JsMap.t nat) (i : JsId) :
  truthy i = false ->
  JsMap.get (fold_left count_step l c) i = JsMap.get c i.
Proof.
  intro T. revert c. induction l as [|s r IH]; intro c; simpl; [reflexivity|].
  rewrite IH. unfold count_step.
  destruct (truthy (Survey.ProjectID (Survey.properties s))) eqn:Ts; [|reflexivity].
  rewrite JsMap_get_set.
  destruct (JsId_eqb i (Survey.ProjectID (Survey.properties s))) eqn:E; [|reflexivity].
  apply JsId_eqb_eq in E. subst i. congruence.
Qed.

Lemma count_fold_total (l : list (Survey.Feature Num)) :
  counts_total (fold_left count_step l JsMap.empty)
  = List.length (filter truthy (survey_ids l)).
Proof.
  induction l as [|s l IH] using rev_ind; [reflexivity|].
  rewrite fold_left_app. simpl. unfold survey_ids in *.
  rewrite map_app, filter_app, length_app. simpl.
  unfold count_step at 1.
  destruct (truthy (Survey.ProjectID (Survey.properties s))) eqn:T; simpl.
  - pose proof (counts_total_set (fold_left count_step l JsMap.empty)
                  (Survey.ProjectID (Survey.properties s))
                  (Species.or_zero
                     (JsMap.get (fold_left count_step l JsMap.empty)
                        (Survey.ProjectID (Survey.properties s))) + 1)) as H.
    lia.
  - lia.
Qed.

(** *** Grouping *)

Lemma find_key_snoc (l : list (Survey.Feature Num)) (s : Survey.Feature Num) (k : string) :
  find (fun x => String.eqb (Species.coordKey toS x) k) (l ++ [s]) =
  match find (fun x => String.eqb (Species.coordKey toS x) k) l with
  | Some x => Some x
  | None => if String.eqb (Species.coordKey toS s) k then Some s else None
  end.
Proof.
  induction l as [|a r IH]; simpl; [reflexivity|].
  destruct (String.eqb (Species.coordKey toS a) k); [reflexivity | apply IH].
Qed.

Lemma find_key_none (l : list (Survey.Feature Num)) (k : string) :
  find (fun x => String.eqb (Species.coordKey toS x) k) l = None ->
  at_key toS k l = [] /\ existsb (String.eqb k) (map (Species.coordKey toS) l) = false.
Proof.
  unfold at_key.  induction l as [|a r IH]; simpl; [now split|].
  rewrite (String.eqb_sym k (Species.coordKey toS a)).
  destruct (String.eqb (Species.coordKey toS a) k); [discriminate|]. apply IH.
Qed.

Lemma find_key_some (l : list (Survey.Feature Num)) (k : string) (x : Survey.Feature Num) :
  find (fun x => String.eqb (Species.coordKey toS x) k) l = Some x ->
  Species.coordKey toS x = k /\ existsb (String.eqb k) (map (Species.coordKey toS) l) = true.
Proof.
  induction l as [|a r IH]; simpl; [discriminate|].
  rewrite (String.eqb_sym k (Species.coordKey toS a)).
  destruct (String.eqb (Species.coordKey toS a) k) eqn:E.
  - intros [= <-]. split; [now apply String.eqb_eq | reflexivity].
  - intro H. apply IH in H as [H1 H2]. now split.
Qed.

Lemma group_for_snoc (l : list (Survey.Feature Num)) (s : Survey.Feature Num) (k : string) :
  group_for toS k (l ++ [s]) =
  if String.eqb k (Species.coordKey toS s) then
    match group_for toS k l with
    | Some g =>
        Some (Species.mkGroup (Species.coordinate g)
                (Species.surveys g ++ [Survey.properties s]))
    | None =>
        Some (Species.mkGroup
                (mkCoordinate (snd (Survey.coordinates s)) (fst (Survey.coordinates s)))
                [Survey.properties s])
    end
  else group_for toS k l.
Proof.
  unfold group_for.  rewrite find_key_snoc.
  unfold at_key.  rewrite filter_app. simpl.
  rewrite (String.eqb_sym k (Species.coordKey toS s)).
  destruct (find (fun x => String.eqb (Species.coordKey toS x) k) l) as [x|] eqn:F.
  - destruct (String.eqb (Species.coordKey toS s) k); simpl.
    + now rewrite map_app.
    + now rewrite app_nil_r.
  - destruct (String.eqb (Species.coordKey toS s) k); simpl; [|reflexivity].
    destruct (find_key_none l k F) as [H _]. unfold at_key in H. 
    now rewrite H.
Qed.

Lemma group_fold (l : list (Survey.Feature Num)) :
  let G := fold_left (group_step toS) l JsObject.empty in
  map fst G = first_seen (map (Species.coordKey toS) l) /\
  forall k, JsObject.own G k = group_for toS k l.
Proof.
  induction l as [|s l IH] using rev_ind; [now split|].
  cbv zeta in *. rewrite fold_left_app. simpl.
  set (G := fold_left (group_step toS) l JsObject.empty) in *.
  destruct IH as [I1 I2]. unfold group_step. 
  assert (Hseen : existsb (String.eqb (Species.coordKey toS s)) (map (Species.coordKey toS) l) =
                  match JsObject.own G (Species.coordKey toS s) with Some _ => true | None => false end).
  { rewrite I2. unfold group_for. 
    destruct (find (fun x => String.eqb (Species.coordKey toS x) (Species.coordKey toS s)) l) as [x|] eqn:F.
    - now destruct (find_key_some l (Species.coordKey toS s) x F).
    - now destruct (find_key_none l (Species.coordKey toS s) F). }
  split.
  - rewrite map_app. simpl. rewrite first_seen_snoc, Hseen.
    destruct (JsObject.own G (Species.coordKey toS s)) as [g|] eqn:E.
    + rewrite JsObject_keys_set, E. exact I1.
    + rewrite JsObject_keys_set, JsObject_own_set, String.eqb_refl.
      rewrite JsObject_keys_set, E. now rewrite I1.
  - intro k. rewrite group_for_snoc, <- I2.
    destruct (JsObject.own G (Species.coordKey toS s)) as [g|] eqn:E.
    + rewrite JsObject_own_set.
      destruct (String.eqb k (Species.coordKey toS s)) eqn:Ek; [|reflexivity].
      apply String.eqb_eq in Ek. subst k. now rewrite E.
    + rewrite !JsObject_own_set.
      destruct (String.eqb k (Species.coordKey toS s)) eqn:Ek; [|reflexivity].
      apply String.eqb_eq in Ek. subst k. now rewrite E.
Qed.

Lemma group_fold_entry (l : list (Survey.Feature Num)) (k : string) (g : Species.Group Num) :
  In (k, g) (fold_left (group_step toS) l JsObject.empty) ->
  has_comma k = true /\
  marker_key toS (Species.surveyMarker g) = k /\
  Species.surveys g = map (@Survey.properties Num) (at_key toS k l).
Proof.
  intro H. destruct (group_fold l) as [I1 I2]. cbv zeta in *.
  assert (N : NoDup (map fst (fold_left (group_step toS) l JsObject.empty))).
  { rewrite I1. apply first_seen_NoDup. }
  pose proof (JsObject_own_In _ k g N H) as O. rewrite I2 in O.
  unfold group_for in O. 
  destruct (find (fun x => String.eqb (Species.coordKey toS x) k) l) as [x|] eqn:F; [|discriminate].
  destruct (find_key_some l k x F) as [Kx _]. injection O as <-.
  repeat split.
  - rewrite <- Kx. apply coordKey_comma.
  - exact Kx.
Qed.
End LoopFacts.

Section SpeciesFacts.
Context {Num : Type}.
Variable toS : Num -> string.
Variable localeCompare : string -> string -> Z.
Variable service : Request -> Settled Num.

(** A search whose survey lookup is answered with survey points: the
    state when the metadata lookup settles, and what settling does. *)
Lemma species_answered (w : World (Species.State Num) Request)
  (sp : SpeciesEntry.t) (c : Coordinate Num) (d : option (Response.t Num)) :
  let taxon := SpeciesEntry.TaxonID sp in
  let circle := circle_text toS c (Species.radius_text toS (Species.radius (ui w))) in
  let surveys := data_features d in
  let projectIDs := fold_left count_step surveys JsMap.empty in
  let markerGroups := fold_left (group_step toS) surveys JsObject.empty in
  let request := GetProjectsMetadataById (JsMap.keys projectIDs) in
  Species.selectedSpecies (ui w) = Some sp ->
  truthy taxon = true ->
  Species.location (ui w) = Some c ->
  service (GetSurveysBySpecies taxon circle) = Fulfilled d ->
  surveys <> [] ->
  exec (Species.handleSearch toS service) w =
  exec (Species.fetchProjectsMetadata_settled projectIDs (service request))
    (mkWorld
       (Species.mkState (Some c) (Species.keyword (ui w)) []
          (Species.loadingSuggestions (ui w)) (Species.radius (ui w)) []
          (Species.projectMetadata (ui w)) false None
          (map (@Species.surveyMarker Num) (JsObject.values markerGroups))
          (Some sp) false false)
       (requests w ++ [GetSurveysBySpecies taxon circle; request])
       (console w) (alerts w)).
Proof.
  intros taxon circle surveys projectIDs markerGroups request S T L E N.
  subst taxon circle surveys projectIDs markerGroups request.
  assert (Hlen : Nat.eqb (List.length (data_features d)) 0 = false).
  { destruct (data_features d); [now elim N | reflexivity]. }
  run_species. rewrite S. cbn. rewrite T. cbn. rewrite L. cbn. rewrite E.
  cbn -[Species.forEach fold_left JsObject.values data_features].
  rewrite Hlen, forEach_steps.
  cbn -[fold_left JsObject.values data_features].
  rewrite <- !app_assoc. cbn -[fold_left JsObject.values data_features].
  destruct (service (GetProjectsMetadataById _)) as [d3|e3];
    cbn -[fold_left JsObject.values data_features]; rewrite ?S, ?L;
    [|reflexivity].
  destruct (Species.combinedMetadata _ _); reflexivity.
Qed.

(** The markers a search stores are the ones built from the groups of the
    loop, whatever becomes of the metadata lookup. *)
Lemma species_markers_stored (w : World (Species.State Num) Request)
  (sp : SpeciesEntry.t) (c : Coordinate Num) (d : option (Response.t Num)) :
  let taxon := SpeciesEntry.TaxonID sp in
  let circle := circle_text toS c (Species.radius_text toS (Species.radius (ui w))) in
  let surveys := data_features d in
  let w' := exec (Species.handleSearch toS service) w in
  Species.selectedSpecies (ui w) = Some sp ->
  truthy taxon = true ->
  Species.location (ui w) = Some c ->
  service (GetSurveysBySpecies taxon circle) = Fulfilled d ->
  surveys <> [] ->
  exists projectIDs markerGroups,
    Species.forEach toS surveys (JsMap.empty, JsObject.empty)
      = Normal (projectIDs, markerGroups) /\
    Species.markers (ui w') =
      map (@Species.surveyMarker Num) (JsObject.values markerGroups) /\
    requests w' =
      requests w ++ [GetSurveysBySpecies taxon circle;
                     GetProjectsMetadataById (JsMap.keys projectIDs)].
Proof.
  intros taxon circle surveys w' S T L E N.
  eexists. eexists. split; [apply forEach_steps|]. simpl fst. simpl snd.
  subst w'. rewrite (species_answered w sp c d S T L E N). fold surveys.
  unfold exec, Species.fetchProjectsMetadata_settled, try_catch, bind, ret, throw,
    Species.setProjectMetadata, update_ui, console_error.
  destruct (service (GetProjectsMetadataById _)) as [d3|e3];
    cbn -[fold_left JsObject.values]; [|now split].
  destruct (Species.combinedMetadata _ _); cbn -[fold_left JsObject.values]; now split.
Qed.

(** C3.  The loop over the survey points always completes; the markers
    built from its groups are as many as the distinct coordinate keys, come
    in the order in which their keys first occur, and each carries the
    details of the survey points with its key, and only those, in input
    order. *)
Theorem grouping_by_coordinate (surveys : list (Survey.Feature Num)) :
  exists projectIDs markerGroups,
    Species.forEach toS surveys (JsMap.empty, JsObject.empty)
      = Normal (projectIDs, markerGroups) /\
    let keys := map (Species.coordKey toS) surveys in
    let surveyMarkers := map (@Species.surveyMarker Num) (JsObject.values markerGroups) in
    NoDup (first_seen keys) /\
    (forall k, In k (first_seen keys) <-> In k keys) /\
    List.length surveyMarkers = List.length (first_seen keys) /\
    map (marker_key toS) surveyMarkers = first_seen keys /\
    Forall (fun m =>
              Species.surveyDetails m =
              map Species.surveyDetail
                (map (@Survey.properties Num) (at_key toS (marker_key toS m) surveys)))
           surveyMarkers.
Proof.
  eexists. eexists. split; [apply forEach_steps|]. simpl fst. simpl snd.
  set (G := fold_left (group_step toS) surveys JsObject.empty).
  destruct (group_fold toS surveys) as [I1 _]. fold G in I1. cbv zeta.
  assert (V : JsObject.values G = map snd G).
  { apply JsObject_values_named. apply Forall_forall. intros [k g] H.
    now destruct (group_fold_entry toS surveys k g H). }
  assert (K : map (marker_key toS) (map (@Species.surveyMarker Num) (JsObject.values G))
              = first_seen (map (Species.coordKey toS) surveys)).
  { rewrite V, <- I1, !map_map. apply map_ext_in. intros [k g] H.
    now destruct (group_fold_entry toS surveys k g H) as [_ [H1 _]]. }
  split; [apply first_seen_NoDup|]. split; [apply first_seen_In|].
  split; [rewrite <- K, !length_map; reflexivity|]. split; [exact K|].
  rewrite V. apply Forall_forall. intros m Hm.
  apply in_map_iff in Hm as [g [<- Hg]]. apply in_map_iff in Hg as [[k g'] [E Hg]].
  simpl in E. subst g'.
  destruct (group_fold_entry toS surveys k g Hg) as [_ [H1 H2]].
  rewrite H1. simpl. now rewrite H2.
Qed.

(** C2, as amended.  A species search answered with survey points: the
    count map gives every truthy identifier (a number other than zero, a
    string other than the empty one) the number of survey points whose
    [ProjectID] is that identifier; survey points with a falsy identifier
    are skipped, so the map has no entry for a falsy identifier and the
    counts of the map add up to the number of survey points with a truthy
    one; every record of the metadata answer is stored with the
    [surveyCount] the map has for its project, 0 when the map has none, as
    for every project with a falsy identifier. *)
Theorem survey_counts_annotate_metadata (w : World (Species.State Num) Request)
  (sp : SpeciesEntry.t) (c : Coordinate Num) (d : option (Response.t Num)) :
  let taxon := SpeciesEntry.TaxonID sp in
  let circle := circle_text toS c (Species.radius_text toS (Species.radius (ui w))) in
  let surveys := data_features d in
  let w' := exec (Species.handleSearch toS service) w in
  Species.selectedSpecies (ui w) = Some sp ->
  truthy taxon = true ->
  Species.location (ui w) = Some c ->
  service (GetSurveysBySpecies taxon circle) = Fulfilled d ->
  surveys <> [] ->
  exists projectIDs markerGroups,
    Species.forEach toS surveys (JsMap.empty, JsObject.empty)
      = Normal (projectIDs, markerGroups) /\
    (forall i, truthy i = true ->
       Species.or_zero (JsMap.get projectIDs i) = occurrences i surveys) /\
    (forall i, truthy i = true -> 0 < occurrences i surveys ->
       JsMap.get projectIDs i = Some (occurrences i surveys)) /\
    (forall i, truthy i = false -> JsMap.get projectIDs i = None) /\
    Forall (fun i => truthy i = true) (JsMap.keys projectIDs) /\
    counts_total projectIDs = List.length (filter truthy (survey_ids surveys)) /\
    (forall d3,
       service (GetProjectsMetadataById (JsMap.keys projectIDs)) = Fulfilled d3 ->
       data_ProjectMetadata d3 <> Missing ->
       Species.projectMetadata (ui w') =
         map (Species.annotate projectIDs) (entries (data_ProjectMetadata d3)) /\
       forall a, In a (Species.projectMetadata (ui w')) ->
         (truthy (project_id (Species.record a)) = true ->
          Species.surveyCount a = occurrences (project_id (Species.record a)) surveys) /\
         (truthy (project_id (Species.record a)) = false ->
          Species.surveyCount a = 0) /\
         (JsMap.get projectIDs (project_id (Species.record a)) = None ->
          Species.surveyCount a = 0)).
Proof.
  intros taxon circle surveys w' S T L E N.
  eexists. eexists. split; [apply forEach_steps|]. simpl fst.
  set (projectIDs := fold_left count_step surveys JsMap.empty).
  assert (C : forall i, truthy i = true ->
            Species.or_zero (JsMap.get projectIDs i) = occurrences i surveys).
  { intros i Ti. unfold projectIDs. now rewrite count_fold_get. }
  assert (F : forall i, truthy i = false -> JsMap.get projectIDs i = None).
  { intros i Ti. unfold projectIDs. now rewrite count_fold_falsy. }
  split; [exact C|]. split; [|split; [exact F|split; [|split]]].
  - intros i Ti P. specialize (C i Ti).
    destruct (JsMap.get projectIDs i) as [n|]; simpl in C; [now subst|lia].
  - apply Forall_forall. intros i Hi.
    destruct (truthy i) eqn:Ti; [reflexivity|].
    specialize (F i Ti). unfold JsMap.keys in Hi.
    apply in_map_iff in Hi as [[k v] [Ek Hk]]. simpl in Ek. subst k.
    clear - F Hk. induction projectIDs as [|[k0 v0] r IH]; [destruct Hk|].
    simpl in F. destruct (JsId_eqb i k0) eqn:Ei; [discriminate|].
    destruct Hk as [Hk|Hk]; [|now apply IH].
    injection Hk as -> _. now rewrite JsId_eqb_refl in Ei.
  - apply count_fold_total.
  - intros d3 E3 M. subst w'.
    rewrite (species_answered w sp c d S T L E N). fold surveys projectIDs.
    rewrite E3. run_species.
    assert (P : forall A (x y : A) (l : list Species.Annotated),
      Species.combinedMetadata projectIDs (data_ProjectMetadata d3) = Normal l ->
      l = map (Species.annotate projectIDs) (entries (data_ProjectMetadata d3))).
    { intros _ _ _ l. destruct (data_ProjectMetadata d3); simpl; congruence. }
    destruct (Species.combinedMetadata projectIDs (data_ProjectMetadata d3)) as [l|e] eqn:CM.
    + cbn. rewrite (P unit tt tt l eq_refl). split; [reflexivity|].
      intros a Ha. apply in_map_iff in Ha as [m [<- _]]. simpl. split; [|split].
      * intro Tm. now apply C.
      * intro Tm. unfold project_id in Tm. now rewrite (F _ Tm).
      * unfold project_id. now intros ->.
    + destruct (data_ProjectMetadata d3); simpl in CM; try discriminate. now elim M.
Qed.
End SpeciesFacts.

(** ** Timers *)
Section DebounceFacts.
Context {A : Type}.
Variable delay : Z.

Lemma debounced_supersedes (n : nat) (t t' : Z) (a a' : A) :
  (t <= t' < t + delay)%Z ->
  Timers.debounced delay a'
    (Timers.mkDebounced (Timers.timeoutId (one_pending delay n t a))
       (Timers.advance t' (Timers.loop (one_pending delay n t a))))
  = one_pending delay (S n) t' a'.
Proof.
  intros [H1 H2]. unfold one_pending, Timers.debounced, Timers.advance,
    Timers.clearTimeout, Timers.setTimeout. simpl.
  assert (E : Z.leb (t + delay) t' = false) by (apply Z.leb_gt; lia).
  rewrite E. simpl. rewrite Nat.eqb_refl. simpl.
  replace (Z.max t t') with t' by lia. reflexivity.
Qed.

Lemma last_cons_default {B : Type} (l : list B) (x d : B) :
  last (x :: l) d = last l x.
Proof.
  revert x d. induction l as [|y r IH]; intros x d; [reflexivity|].
  change (last (x :: y :: r) d) with (last (y :: r) d).
  now rewrite (IH y d), (IH y x).
Qed.

Lemma calls_at_cons (e : Z * A) (r : list (Z * A)) (d : Timers.Debounced A) :
  Timers.calls_at delay (e :: r) d =
  Timers.calls_at delay r
    (Timers.debounced delay (snd e)
       (Timers.mkDebounced (Timers.timeoutId d) (Timers.advance (fst e) (Timers.loop d)))).
Proof. reflexivity. Qed.

Lemma calls_at_window (events : list (Z * A)) (n : nat) (t : Z) (a : A) :
  within_window delay t events ->
  exists n',
    Timers.calls_at delay events (one_pending delay n t a)
    = one_pending delay n' (fst (last events (t, a))) (snd (last events (t, a))).
Proof.
  revert n t a. induction events as [|[t' a'] r IH]; intros n t a H.
  - now exists n.
  - destruct H as [H1 H2]. simpl in H1, H2.
    rewrite last_cons_default, calls_at_cons. cbn [fst snd].
    rewrite (debounced_supersedes n t t' a a' H1).
    destruct (IH (S n) t' a' H2) as [n' E]. exists n'. exact E.
Qed.

(** Calls less than [delay] apart: the wrapped function runs once, on the
    last argument. *)
Lemma debounce_runs_last (start : Z) (first : Z * A) (rest : list (Z * A)) :
  (start <= fst first)%Z ->
  within_window delay (fst first) rest ->
  Timers.invoked
    (Timers.settle
       (Timers.loop (Timers.calls_at delay (first :: rest) (Timers.debounce start))))
  = [snd (last rest first)].
Proof.
  intros H1 H2. rewrite calls_at_cons.
  assert (E : Timers.debounced delay (snd first)
                (Timers.mkDebounced (Timers.timeoutId (Timers.debounce (A := A) start))
                   (Timers.advance (fst first) (Timers.loop (Timers.debounce (A := A) start))))
              = one_pending delay 0 (fst first) (snd first)).
  { unfold Timers.debounce, Timers.debounced, Timers.advance, Timers.clearTimeout,
      Timers.setTimeout, one_pending. simpl.
    replace (Z.max start (fst first)) with (fst first) by lia. reflexivity. }
  rewrite E. destruct (calls_at_window rest 0 (fst first) (snd first) H2) as [n' E'].
  rewrite E'. destruct first as [t a]. reflexivity.
Qed.
End DebounceFacts.

Section SuggestionFacts.
Context {Num : Type}.
Variable localeCompare : string -> string -> Z.
Variable service : Request -> Settled Num.

(** Every keystroke that is not blank sends its own request. *)
Lemma keystrokes_each_send (texts : list string) (w : World (Species.State Num) Request) :
  Forall (fun t => trim_is_empty t = false) texts ->
  requests (exec (Species.handle_all localeCompare (map (@Species.Typed Num) texts)) w)
  = requests w ++ map SpeciesSearch texts.
Proof.
  intro H. revert w. induction H as [|t r Ht Hr IH]; intro w.
  - simpl. unfold exec, ret. simpl. now rewrite app_nil_r.
  - simpl map. unfold Species.handle_all. fold (Species.handle_all (Num := Num) localeCompare).
    unfold exec, bind. simpl Species.handle.
    destruct (Species.handleInputChange t w) as [r0 w0] eqn:E0.
    assert (K : r0 = Normal tt /\ requests w0 = requests w ++ [SpeciesSearch t]).
    { revert E0. run_suggest. rewrite Ht.
      destruct (String.eqb t "") eqn:Et.
      - apply String.eqb_eq in Et. subst t. discriminate.
      - cbn. intros [= <- <-]. now split. }
    destruct K as [-> K]. specialize (IH w0). unfold exec in IH. rewrite IH, K.
    now rewrite <- app_assoc.
Qed.

(** Whatever was typed since, an answer replaces the suggestion list. *)
Lemma answer_replaces_suggestions (w : World (Species.State Num) Request)
  (input : string) (d : option (Response.t Num)) :
  Species.suggestions
    (ui (exec (Species.handle localeCompare (Species.Answered input (Fulfilled d))) w))
  = Array_sort (Species.byScientificName localeCompare) (data_Species d).
Proof. reflexivity. Qed.

Hypothesis localeCompare_total :
  forall a b, (localeCompare a b <= 0 \/ localeCompare b a <= 0)%Z.
Hypothesis localeCompare_trans :
  forall a b c, (localeCompare a b <= 0 -> localeCompare b c <= 0 -> localeCompare a c <= 0)%Z.

Lemma sort_by_name_sorted (l : list SpeciesEntry.t) :
  StronglySorted
    (fun a b => (localeCompare (SpeciesEntry.ScientificName a)
                               (SpeciesEntry.ScientificName b) <= 0)%Z)
    (Array_sort (Species.byScientificName localeCompare) l).
Proof.
  apply StronglySorted_weaken with
    (R := fun x y => before_or_tie (Species.byScientificName localeCompare) x y = true)
    (P := fun _ => True).
  - intros x y _ _ H. unfold before_or_tie, Species.byScientificName in H.
    now apply Z.leb_le.
  - apply Forall_forall. auto.
  - apply Array_sort_sorted with (valid := fun _ => True).
    + intros x y _ _ H. unfold before_or_tie, Species.byScientificName in *.
      apply Z.leb_gt in H. apply Z.leb_le.
      destruct (localeCompare_total (SpeciesEntry.ScientificName x) (SpeciesEntry.ScientificName y)); lia.
    + intros x y z _ _ _ H1 H2. unfold before_or_tie, Species.byScientificName in *.
      apply Z.leb_le in H1, H2. apply Z.leb_le. eapply localeCompare_trans; eassumption.
    + apply Forall_forall. auto.
Qed.

Lemma sort_by_name_stable (l : list SpeciesEntry.t) (s : string) :
  filter (collates_with localeCompare s)
    (Array_sort (Species.byScientificName localeCompare) l)
  = filter (collates_with localeCompare s) l.
Proof.
  apply Array_sort_stable. intros x y Hx Hy. unfold collates_with in Hx, Hy.
  apply andb_true_iff in Hx as [Hx _]. apply andb_true_iff in Hy as [_ Hy].
  apply Z.leb_le in Hx, Hy. unfold before_or_tie, Species.byScientificName.
  apply Z.leb_le. eapply localeCompare_trans; eassumption.
Qed.

Lemma sort_by_name_namesakes (l : list SpeciesEntry.t) (s : string) :
  filter (named s) (Array_sort (Species.byScientificName localeCompare) l)
  = filter (named s) l.
Proof.
  apply Array_sort_stable. intros x y Hx Hy. unfold named in Hx, Hy.
  apply String.eqb_eq in Hx, Hy. unfold before_or_tie, Species.byScientificName.
  rewrite Hx, Hy. apply Z.leb_le. destruct (localeCompare_total s s); assumption.
Qed.
End SuggestionFacts.

(** ** The code-unit comparator is consistent *)

Lemma code_unit_compare_le (a b : string) :
  (code_unit_compare a b <= 0)%Z <-> (a = b \/ String_as_OT.lt a b).
Proof.
  unfold code_unit_compare. destruct (String.compare a b) eqn:E.
  - apply String_as_OT.cmp_eq in E. split; [now left | lia].
  - apply String_as_OT.cmp_lt in E. split; [now right | lia].
  - split; [lia|]. intros [H|H].
    + apply String_as_OT.cmp_eq in H. unfold String_as_OT.cmp in H. congruence.
    + apply String_as_OT.cmp_lt in H. unfold String_as_OT.cmp in H. congruence.
Qed.

Lemma code_unit_compare_total (a b : string) :
  (code_unit_compare a b <= 0 \/ code_unit_compare b a <= 0)%Z.
Proof.
  unfold code_unit_compare. rewrite (String.compare_antisym a b).
  destruct (String.compare b a); simpl; lia.
Qed.

Lemma code_unit_compare_trans (a b c : string) :
  (code_unit_compare a b <= 0 -> code_unit_compare b c <= 0 ->
   code_unit_compare a c <= 0)%Z.
Proof.
  rewrite !code_unit_compare_le. intros [->|H1] [->|H2]; auto.
  right. eapply String_as_OT.lt_trans; eassumption.
Qed.

Section SuggestionTheorems.
Context {Num : Type}.
Variable toS : Num -> string.
Variable localeCompare : string -> string -> Z.
Variable service : Request -> Settled Num.

(** C8, as amended.  Species version: for a non-empty input whose search
    is answered, the suggestion list is the [Species] array of the answer
    sorted by [ScientificName] under [localeCompare] by a stable sort: a
    permutation of the array, in [localeCompare] order, in which the
    suggestions that [localeCompare] does not tell apart, those of one
    scientific name among them, keep the order of the answer;
    [localeCompare] being a consistent comparator.  Autofill version: the
    list is the [Species] array in the order of the answer. *)
Theorem species_suggestions_sorted (w : World (Species.State Num) Request)
  (wa : World (Autofill.State Num) Request)
  (input : string) (d : option (Response.t Num)) :
  let w' := exec (Species.fetchSuggestions localeCompare service input) w in
  let wa' := exec (Autofill.fetchSuggestions_callback service input) wa in
  input <> "" ->
  service (SpeciesSearch input) = Fulfilled d ->
  (requests w' = requests w ++ [SpeciesSearch input] /\
   Species.loadingSuggestions (ui w') = false /\
   Permutation (data_Species d) (Species.suggestions (ui w')) /\
   ((forall a b, (localeCompare a b <= 0 \/ localeCompare b a <= 0)%Z) ->
    (forall a b c, (localeCompare a b <= 0 -> localeCompare b c <= 0 ->
                    localeCompare a c <= 0)%Z) ->
    StronglySorted
      (fun a b => (localeCompare (SpeciesEntry.ScientificName a)
                                 (SpeciesEntry.ScientificName b) <= 0)%Z)
      (Species.suggestions (ui w'))) /\
   ((forall a b c, (localeCompare a b <= 0 -> localeCompare b c <= 0 ->
                    localeCompare a c <= 0)%Z) ->
    forall s, filter (collates_with localeCompare s) (Species.suggestions (ui w'))
              = filter (collates_with localeCompare s) (data_Species d)) /\
   ((forall a b, (localeCompare a b <= 0 \/ localeCompare b a <= 0)%Z) ->
    forall s, filter (named s) (Species.suggestions (ui w'))
              = filter (named s) (data_Species d)))
  /\
  Autofill.suggestions (ui wa') =
    match d with
    | Some _ => data_Species d
    | None => Autofill.suggestions (ui wa)
    end.
Proof.
  intros w' wa' N E. subst w' wa'.
  destruct (String.eqb input "") eqn:Ei; [apply String.eqb_eq in Ei; contradiction|].
  split.
  - run_suggest. rewrite Ei.
    cbn -[Array_sort data_Species]. rewrite E. cbn -[Array_sort data_Species].
    repeat split.
    + apply Array_sort_perm.
    + intros Tot Tr. now apply sort_by_name_sorted.
    + intros Tr s. now apply sort_by_name_stable.
    + intros Tot s. now apply sort_by_name_namesakes.
  - run_autofill. rewrite Ei. cbn. rewrite E. now destruct d.
Qed.

(** C7, as amended.  Calls to one debounced function that come less than
    the delay after one another make the wrapped function run once, on the
    argument of the last call.  The input box of the species version is not
    debounced: every keystroke that is not blank sends its own request, and
    an answer replaces the suggestion list whatever was typed since. *)
Theorem debounce_once_species_input_each
  (delay start : Z) (first : Z * string) (rest : list (Z * string))
  (w : World (Species.State Num) Request) (texts : list string) :
  (start <= fst first)%Z ->
  within_window delay (fst first) rest ->
  Forall (fun t => trim_is_empty t = false) texts ->
  Timers.invoked
    (Timers.settle
       (Timers.loop (Timers.calls_at delay (first :: rest) (Timers.debounce start))))
  = [snd (last rest first)]
  /\
  requests (exec (Species.handle_all localeCompare (map (@Species.Typed Num) texts)) w)
  = requests w ++ map SpeciesSearch texts
  /\
  (forall input d,
     Species.suggestions
       (ui (exec (Species.handle localeCompare (Species.Answered input (Fulfilled d))) w))
     = Array_sort (Species.byScientificName localeCompare) (data_Species d)).
Proof.
  intros H1 H2 H3. split; [now apply debounce_runs_last|].
  split; [now apply keystrokes_each_send|].
  intros input d. apply answer_replaces_suggestions.
Qed.

(** A rejected metadata lookup of the species version is logged and
    nothing else. *)
Lemma species_metadata_rejected (w : World (Species.State Num) Request)
  (sp : SpeciesEntry.t) (c : Coordinate Num) (d : option (Response.t Num))
  (reason : string) :
  let taxon := SpeciesEntry.TaxonID sp in
  let circle := circle_text toS c (Species.radius_text toS (Species.radius (ui w))) in
  let surveys := data_features d in
  let request :=
    GetProjectsMetadataById (JsMap.keys (fold_left count_step surveys JsMap.empty)) in
  let w' := exec (Species.handleSearch toS service) w in
  Species.selectedSpecies (ui w) = Some sp ->
  truthy taxon = true ->
  Species.location (ui w) = Some c ->
  service (GetSurveysBySpecies taxon circle) = Fulfilled d ->
  surveys <> [] ->
  service request = Rejected reason ->
  Species.errorMsg (ui w') = None /\
  console w' = console w ++ ["Error fetching project metadata:"] /\
  Species.projectMetadata (ui w') = Species.projectMetadata (ui w).
Proof.
  intros taxon circle surveys request w' S T L E N R. subst w'.
  rewrite (species_answered toS service w sp c d S T L E N).
  fold surveys. fold request. rewrite R. now split.
Qed.

(** A rejected survey lookup of the species version is logged and shown. *)
Lemma species_survey_rejected (w : World (Species.State Num) Request)
  (sp : SpeciesEntry.t) (c : Coordinate Num) (reason : string) :
  let taxon := SpeciesEntry.TaxonID sp in
  let circle := circle_text toS c (Species.radius_text toS (Species.radius (ui w))) in
  let w' := exec (Species.handleSearch toS service) w in
  Species.selectedSpecies (ui w) = Some sp ->
  truthy taxon = true ->
  Species.location (ui w) = Some c ->
  service (GetSurveysBySpecies taxon circle) = Rejected reason ->
  Species.errorMsg (ui w') = Some Species.survey_error /\
  console w' = console w ++ ["Error fetching survey data:"].
Proof.
  intros taxon circle w' S T L E. subst w' taxon circle.
  run_species. rewrite S. cbn. rewrite T. cbn. rewrite L. cbn. rewrite E. cbn.
  now split.
Qed.

(** The two normalizing expressions on an absent [ProjectMetadata]. *)
Lemma undefined_metadata_expressions (surveyCounts : JsMap.t nat) :
  Autofill.as_array (@Missing Metadata.t) = [None] /\
  Autofill.keyExtractor None = Throw (TypeError "item.Project") /\
  Species.combinedMetadata surveyCounts Missing = Throw (TypeError "metadata.Project").
Proof. repeat split. Qed.

(** C10.  A metadata answer without [ProjectMetadata], the calls before it
    answered.  Autofill version: the list stored is the one-element list
    holding [undefined], no message is set, and the list's key extractor
    throws on that element.  Species version: the expression that annotates
    the records throws a [TypeError] on reading [metadata.Project]; the
    function's handler logs it, and the metadata list and the message stay
    as they were. *)
Theorem missing_metadata_field_is_dereferenced
  (wa : World (Autofill.State Num) Request) (k : string) (ca : Coordinate Num)
  (a1 a2 a3 : option (Response.t Num))
  (ws : World (Species.State Num) Request) (sp : SpeciesEntry.t)
  (cs : Coordinate Num) (s1 s3 : option (Response.t Num)) :
  let circle_a := circle_text toS ca (toS (Autofill.radius (ui wa))) in
  let wa' := exec (Autofill.fetchProjects toS service k) wa in
  let taxon := SpeciesEntry.TaxonID sp in
  let circle_s := circle_text toS cs (Species.radius_text toS (Species.radius (ui ws))) in
  let ws' := exec (Species.handleSearch toS service) ws in
  (Autofill.location (ui wa) = Some ca ->
   service (ProjectSearch k) = Fulfilled a1 ->
   projectIDs_of a1 <> [] ->
   service (GetSurveys (projectIDs_of a1) circle_a) = Fulfilled a2 ->
   service (GetProjectsMetadataById (projectIDs_of a1)) = Fulfilled a3 ->
   data_ProjectMetadata a3 = Missing ->
   Autofill.projectMetadata (ui wa') = [None] /\
   Autofill.errorMsg (ui wa') = None /\
   map Autofill.keyExtractor (Autofill.projectMetadata (ui wa'))
     = [Throw (TypeError "item.Project")])
  /\
  (Species.selectedSpecies (ui ws) = Some sp ->
   truthy taxon = true ->
   Species.location (ui ws) = Some cs ->
   service (GetSurveysBySpecies taxon circle_s) = Fulfilled s1 ->
   data_features s1 <> [] ->
   exists projectIDs markerGroups,
     Species.forEach toS (data_features s1) (JsMap.empty, JsObject.empty)
       = Normal (projectIDs, markerGroups) /\
     (service (GetProjectsMetadataById (JsMap.keys projectIDs)) = Fulfilled s3 ->
      data_ProjectMetadata s3 = Missing ->
      Species.combinedMetadata projectIDs (data_ProjectMetadata s3)
        = Throw (TypeError "metadata.Project") /\
      console ws' = console ws ++ ["Error fetching project metadata:"] /\
      Species.projectMetadata (ui ws') = Species.projectMetadata (ui ws) /\
      Species.errorMsg (ui ws') = None)).
Proof.
  intros circle_a wa' taxon circle_s ws'. split.
  - intros La A1 Na A2 A3 M.
    destruct (autofill_answered toS service wa k ca a1 a2 a3 La A1 Na A2 A3)
      as [_ [P [_ [E _]]]].
    subst wa'. rewrite P, M. now repeat split.
  - intros S T L E N. eexists. eexists. split; [apply forEach_steps|].
    simpl fst. intros E3 M. subst ws'.
    rewrite (species_answered toS service ws sp cs s1 S T L E N), E3.
    unfold exec, Species.fetchProjectsMetadata_settled, try_catch, bind, ret, throw,
      console_error.
    rewrite M. now repeat split.
Qed.
End SuggestionTheorems.

Section FailureFacts.
Context {Num : Type}.
Variable toS : Num -> string.
Variable Date_parse : string -> option Z.
Variable service : Request -> Settled Num.

(** X1.  Keyword version: whichever call is rejected, the failure is
    logged and the one generic message is shown, and the loading flag is
    lowered. *)
Lemma keyword_failure_surfaced (w : World (Keyword.State Num) Request)
  (new : list Request) (r : Request) (reason : string) :
  let w' := exec (Keyword.fetchProjects toS Date_parse service) w in
  requests w' = requests w ++ new ->
  In r new ->
  service r = Rejected reason ->
  Keyword.errorMsg (ui w') = Some Keyword.generic_error /\
  console w' = console w ++ ["Error fetching project data:"] /\
  Keyword.loading (ui w') = false.
Proof.
  intro w'. subst w'. run_keyword.
  destruct (service (ProjectSearch (Keyword.keyword (ui w)))) as [d1|e1] eqn:E1; cbn.
  2:{ intros _ _ _. repeat split. }
  destruct (projectIDs_of d1) as [|i1 r1] eqn:I1; cbn.
  { intros R K F. pick_request R. }
  destruct (Keyword.location (ui w)) as [c|] eqn:L; cbn.
  2:{ intros _ _ _. repeat split. }
  set (circle := circle_text toS c (toS (Keyword.radius (ui w)))).
  destruct (service (GetProjects circle)) as [d2|e2] eqn:E2; cbn.
  2:{ intros _ _ _. repeat split. }
  destruct (filteredProjects_of (i1 :: r1) d2) as [|p1 q1] eqn:F; cbn.
  { rewrite <- app_assoc. intros R K F'. pick_request R. }
  set (fids := ProjectInfo.ProjectID p1 :: map ProjectInfo.ProjectID q1).
  destruct (service (GetProjectsMetadataById fids)) as [d3|e3] eqn:E3; cbn.
  2:{ intros _ _ _. repeat split. }
  destruct (data_ProjectMetadata d3) as [|m|l]; cbn; rewrite <- !app_assoc;
    intros R K F'; pick_request R.
Qed.

(** X2.  Autofill version: whichever call is rejected, the failure is
    logged and the one generic message is shown, and the loading flag is
    lowered. *)
Lemma autofill_failure_surfaced (w : World (Autofill.State Num) Request)
  (k : string) (new : list Request) (r : Request) (reason : string) :
  let w' := exec (Autofill.fetchProjects toS service k) w in
  requests w' = requests w ++ new ->
  In r new ->
  service r = Rejected reason ->
  Autofill.errorMsg (ui w') = Some Autofill.generic_error /\
  console w' = console w ++ ["Error fetching projects:"] /\
  Autofill.loadingProjects (ui w') = false.
Proof.
  intro w'. subst w'. run_autofill.
  destruct (service (ProjectSearch k)) as [d1|e1] eqn:E1; cbn.
  2:{ intros _ _ _. repeat split. }
  destruct (projectIDs_of d1) as [|i1 r1] eqn:I1; cbn.
  { intros R K F. pick_request R. }
  destruct (Autofill.location (ui w)) as [c|] eqn:L; cbn.
  2:{ intros _ _ _. repeat split. }
  set (circle := circle_text toS c (toS (Autofill.radius (ui w)))).
  destruct (service (GetSurveys (i1 :: r1) circle)) as [d2|e2] eqn:E2; cbn.
  2:{ intros _ _ _. repeat split. }
  destruct (service (GetProjectsMetadataById (i1 :: r1))) as [d3|e3] eqn:E3; cbn.
  2:{ intros _ _ _. repeat split. }
  rewrite <- !app_assoc. intros R K F'. pick_request R.
Qed.
End FailureFacts.

(** * The statements on the sample data *)

Lemma one_or_many_entries (l : list Metadata.t) :
  entries (Demo.one_or_many l) = l.
Proof. destruct l as [|m [|m' r]]; reflexivity. Qed.

Lemma Demo_service_answers_requested_ids : answers_requested_ids Demo.service.
Proof.
  intros ids d m E H. simpl in E. injection E as <-. simpl in H.
  rewrite one_or_many_entries in H. unfold Demo.lookup in H.
  apply filter_In in H as [_ H]. now apply Array_includes_In.
Qed.

(** The example of the specification: candidates 101 and 102, only 101
    inside the circle. *)
Example koala_metadata_request :
  let w' := exec (Keyword.fetchProjects Number_toString Demo.Date_parse Demo.service)
                 (Demo.keyword_world "Koala") in
  map (url (fun s => s)) (requests w') =
    [ "https://apps.des.qld.gov.au/species/?op=projectsearch&projtitle=Koala";
      "https://apps.des.qld.gov.au/species/?op=getprojects&circle=-16,145,6000";
      "https://apps.des.qld.gov.au/species/?op=getprojectsmetadatabyid&projids=101" ] /\
  Keyword.projectMetadata (ui w') = [Demo.metadata 101 (Some "1000")].
Proof. split; reflexivity. Qed.

Lemma metadata_request_only_for_projects_in_area_witness :
  answers_requested_ids Demo.service /\
  (exists new,
     requests (exec (Keyword.fetchProjects Number_toString Demo.Date_parse Demo.service)
                    (Demo.keyword_world "Koala")) = [] ++ new /\
     In (GetProjectsMetadataById [IdNumber 101]) new /\
     forall m,
       In m (Keyword.projectMetadata
               (ui (exec (Keyword.fetchProjects Number_toString Demo.Date_parse Demo.service)
                         (Demo.keyword_world "Koala")))) ->
       In (project_id m) [IdNumber 101; IdNumber 102]) /\
  (exists new,
     requests (exec (Autofill.fetchProjects Number_toString Demo.service "Koala")
                    Demo.autofill_world) = [] ++ new /\
     In (GetProjectsMetadataById [IdNumber 101; IdNumber 102]) new).
Proof.
  split; [exact Demo_service_answers_requested_ids|].
  destruct (metadata_request_only_for_projects_in_area Number_toString Demo.Date_parse
              Demo.service (Demo.keyword_world "Koala") Demo.autofill_world "Koala")
    as [[nk [Rk Hk]] [na [Ra _]]].
  split.
  - exists nk. split; [exact Rk|].
    assert (E : [ProjectSearch "Koala"; GetProjects "-16,145,6000";
                 GetProjectsMetadataById [IdNumber 101]] = nk) by exact Rk.
    assert (Hin : In (GetProjectsMetadataById [IdNumber 101]) nk).
    { rewrite <- E. right. right. now left. }
    split; [exact Hin|].
    destruct (Hk _ Hin) as [c [d1 [d2 [_ [E1 [_ [_ P]]]]]]].
    injection E1 as <-.
    destruct (P Demo_service_answers_requested_ids) as [P'|P'].
    + discriminate P'.
    + intros m Hm. exact (proj1 (P' m Hm)).
  - exists na. split; [exact Ra|].
    assert (E : [ProjectSearch "Koala";
                 GetSurveys [IdNumber 101; IdNumber 102] "-16,145,60000";
                 GetProjectsMetadataById [IdNumber 101; IdNumber 102]] = na) by exact Ra.
    rewrite <- E. right. right. now left.
Defined.

(** C1 as stated fails in the autofill version: candidates 101 and 102,
    surveys inside the circle for 101 only, and the metadata request asks
    for both. *)
Lemma autofill_requests_ids_outside_the_circle :
  let w' := exec (Autofill.fetchProjects Number_toString Demo.service "Koala")
                 Demo.autofill_world in
  let in_circle :=
    map (fun s => Survey.ProjectID (Survey.properties s))
        [Demo.feature 145 (-16) (IdNumber 101)] in
  Demo.service (GetSurveys [IdNumber 101; IdNumber 102] "-16,145,60000")
    = Demo.with_features [Demo.feature 145 (-16) (IdNumber 101)] /\
  map (url (fun s => s)) (requests w') =
    [ "https://apps.des.qld.gov.au/species/?op=projectsearch&projtitle=Koala";
      "https://apps.des.qld.gov.au/species/?op=getsurveys&projids=101,102&circle=-16,145,60000";
      "https://apps.des.qld.gov.au/species/?op=getprojectsmetadatabyid&projids=101,102" ] /\
  ~ only_surviving_ids_requested in_circle (requests w').
Proof.
  split; [reflexivity|]. split; [reflexivity|].
  intro H.
  assert (K : In (IdNumber 102) [IdNumber 101]).
  { apply (H [IdNumber 101; IdNumber 102]).
    - right. right. now left.
    - right. now left. }
  destruct K as [K|[]]. discriminate.
Qed.

(** C2 as stated fails for the identifier 0: one survey point carries it,
    the count map has no entry for it and its record is annotated with 0. *)
Lemma zero_project_id_not_counted :
  let surveys := [Demo.feature 145 (-16) (IdNumber 0)] in
  exists projectIDs markerGroups,
    Species.forEach Number_toString surveys (JsMap.empty, JsObject.empty)
      = Normal (projectIDs, markerGroups) /\
    occurrences (IdNumber 0) surveys = 1 /\
    JsMap.get projectIDs (IdNumber 0) = None /\
    Species.surveyCount (Species.annotate projectIDs (Demo.metadata 0 None)) = 0 /\
    ~ counts_every_id surveys projectIDs.
Proof.
  eexists. eexists. split; [reflexivity|]. repeat split.
  intro H. specialize (H (IdNumber 0)). discriminate.
Qed.

Lemma survey_counts_annotate_metadata_witness :
  let w' := exec (Species.handleSearch Number_toString Demo.service) Demo.species_world in
  truthy (IdNumber 55) = true /\
  occurrences (IdNumber 55) Demo.three_surveys = 3 /\
  Species.projectMetadata (ui w')
    = [Species.mkAnnotated (Demo.metadata 55 (Some "2000")) 3].
Proof.
  destruct (survey_counts_annotate_metadata Number_toString Demo.service
              Demo.species_world (Demo.species "Phascolarctos cinereus") Demo.here
              (Some (Response.make None (Some Demo.three_surveys) Missing None))
              eq_refl eq_refl eq_refl eq_refl)
    as [projectIDs [markerGroups [F [C [_ [_ [_ [_ A]]]]]]]]; [discriminate|].
  injection F as <- _.
  destruct (A (Some (Response.make None None (One (Demo.metadata 55 (Some "2000"))) None))
              eq_refl) as [P _]; [discriminate|].
  split; [reflexivity|]. split; [reflexivity|]. exact P.
Defined.

Lemma metadata_normalization_witness :
  let stored_k :=
    Keyword.projectMetadata
      (ui (exec (Keyword.fetchProjects Number_toString Demo.Date_parse Demo.both_near)
                (Demo.keyword_world "Koala"))) in
  let l := [Demo.metadata 101 (Some "1000"); Demo.metadata 102 (Some "3000")] in
  Forall (dated Demo.Date_parse) l /\
  Permutation l stored_k /\
  StronglySorted (loaded_not_before Demo.Date_parse) stored_k /\
  stored_k = [Demo.metadata 102 (Some "3000"); Demo.metadata 101 (Some "1000")] /\
  Autofill.projectMetadata
    (ui (exec (Autofill.fetchProjects Number_toString Demo.both_near "Koala")
              Demo.autofill_world))
  = map (@Some Metadata.t) l.
Proof.
  intros stored_k l.
  assert (D : Forall (dated Demo.Date_parse) l).
  { repeat constructor; discriminate. }
  destruct (metadata_normalization Number_toString Demo.Date_parse Demo.both_near
              (Demo.keyword_world "Koala") Demo.here
              (Some (Response.make (Some [Demo.project 101; Demo.project 102]) None Missing None))
              (Some (Response.make (Some [Demo.project 101; Demo.project 102]) None Missing None))
              (Some (Response.make None None (Many l) None))
              Demo.autofill_world "Koala" Demo.here
              (Some (Response.make (Some [Demo.project 101; Demo.project 102]) None Missing None))
              (Some (Response.make None (Some [Demo.feature 145 (-16) (IdNumber 101)]) Missing None))
              (Some (Response.make None None (Many l) None)))
    as [K A].
  destruct K as [_ K]; try reflexivity; try discriminate.
  destruct A as [_ A]; try reflexivity; try discriminate.
  destruct (K l eq_refl) as [P K'].
  destruct (K' D) as [S _].
  split; [exact D|]. split; [exact P|]. split; [exact S|].
  split; [reflexivity|]. exact (A l eq_refl).
Defined.

(** C4 as stated fails when records come without a date: the comparator
    answers NaN on them, every record of this array ties with its
    neighbours, and the array is stored as it came, the record loaded at
    1000 before the one loaded at 2000. *)
Lemma undated_records_break_the_date_order :
  let stored :=
    Keyword.projectMetadata
      (ui (exec (Keyword.fetchProjects Number_toString Demo.Date_parse Demo.undated)
                (Demo.keyword_world "Koala"))) in
  let older := Demo.metadata 102 (Some "1000") in
  let newer := Demo.metadata 104 (Some "2000") in
  stored = Demo.undated_records /\
  stored = [Demo.metadata 101 None; older; Demo.metadata 103 None; newer] /\
  load_time Demo.Date_parse older = Some 1000%Z /\
  load_time Demo.Date_parse newer = Some 2000%Z /\
  ~ loaded_not_before Demo.Date_parse older newer /\
  ~ StronglySorted (loaded_not_before Demo.Date_parse) stored.
Proof.
  assert (N : ~ loaded_not_before Demo.Date_parse
                (Demo.metadata 102 (Some "1000")) (Demo.metadata 104 (Some "2000"))).
  { intros [ta [tb [Ha [Hb H]]]]. vm_compute in Ha, Hb.
    injection Ha as <-. injection Hb as <-. lia. }
  split; [reflexivity|]. split; [reflexivity|]. split; [reflexivity|].
  split; [reflexivity|]. split; [exact N|].
  intro H. inversion H as [|? ? _ F]; subst.
  inversion F as [|? ? [ta [tb [Ha _]]] _]; subst. discriminate.
Qed.

Lemma empty_search_result_stops_witness :
  let wk := exec (Keyword.fetchProjects Number_toString Demo.Date_parse Demo.service)
                 (Demo.keyword_world "Yeti") in
  let wa := exec (Autofill.fetchProjects Number_toString Demo.service "Yeti")
                 Demo.autofill_world in
  (requests wk = [ProjectSearch "Yeti"] /\
   Keyword.errorMsg (ui wk) = Some "No results found for keyword: Yeti" /\
   Keyword.loading (ui wk) = false) /\
  (requests wa = [ProjectSearch "Yeti"] /\
   Autofill.errorMsg (ui wa) = Some "No results found for keyword: Yeti" /\
   Autofill.loadingProjects (ui wa) = false).
Proof.
  destruct (empty_search_result_stops Number_toString Demo.Date_parse Demo.service
              (Demo.keyword_world "Yeti") Demo.autofill_world "Yeti") as [K A].
  split.
  - exact (K (Some (Response.make (Some []) None Missing None)) eq_refl eq_refl).
  - exact (A (Some (Response.make (Some []) None Missing None)) eq_refl eq_refl).
Defined.

Lemma empty_intersection_stops_witness :
  let w' := exec (Keyword.fetchProjects Number_toString Demo.Date_parse Demo.nothing_near)
                 (Demo.keyword_world "Koala") in
  requests w' = [ProjectSearch "Koala"; GetProjects "-16,145,6000"] /\
  Keyword.errorMsg (ui w') =
    Some "No results found for keyword: Koala within 6000 meters. Try increasing the radius." /\
  Keyword.loading (ui w') = false /\
  Keyword.projectMetadata (ui w') = [].
Proof.
  apply (empty_intersection_stops Number_toString Demo.Date_parse Demo.nothing_near
           (Demo.keyword_world "Koala") Demo.here
           (Some (Response.make (Some [Demo.project 101; Demo.project 102]) None Missing None))
           (Some (Response.make (Some [Demo.project 7]) None Missing None)));
    try reflexivity; try discriminate.
  intros i [<-|[<-|[]]] [H|[]]; discriminate.
Defined.

(** C7 as stated fails in the species version: the keystrokes k, ko, koa
    send three requests, and the answer for k, arriving after the answer
    for koa, is what the list shows. *)
Lemma three_keystrokes_three_calls :
  let typed := [Species.Typed "k"; Species.Typed "ko"; Species.Typed "koa"] in
  let w' := exec (Species.handle_all code_unit_compare typed) Demo.species_world in
  let late :=
    typed ++ [ Species.Answered "koa" (Demo.with_species [Demo.species "Koala"]);
               Species.Answered "k" (Demo.with_species [Demo.species "Kangaroo"]) ] in
  let w'' := exec (Species.handle_all code_unit_compare late) Demo.species_world in
  requests w' = [SpeciesSearch "k"; SpeciesSearch "ko"; SpeciesSearch "koa"] /\
  requests w' <> [SpeciesSearch "koa"] /\
  Species.keyword (ui w'') = "koa" /\
  Species.suggestions (ui w'') = [Demo.species "Kangaroo"].
Proof.
  split; [reflexivity|]. split; [discriminate|]. split; reflexivity.
Qed.

Lemma debounce_once_species_input_each_witness :
  Timers.invoked
    (Timers.settle
       (Timers.loop
          (Timers.calls_at Autofill.suggestion_delay
             [(0%Z, "k"); (100%Z, "ko"); (250%Z, "koa")] (Timers.debounce 0%Z))))
  = ["koa"] /\
  requests (exec (Species.handle_all code_unit_compare
                    (map (@Species.Typed Z) ["k"; "ko"; "koa"])) Demo.species_world)
  = [SpeciesSearch "k"; SpeciesSearch "ko"; SpeciesSearch "koa"].
Proof.
  destruct (debounce_once_species_input_each code_unit_compare
              Autofill.suggestion_delay 0%Z (0%Z, "k") [(100%Z, "ko"); (250%Z, "koa")]
              Demo.species_world ["k"; "ko"; "koa"]) as [D [K _]].
  - simpl. lia.
  - simpl. unfold Autofill.suggestion_delay. lia.
  - repeat constructor.
  - split; [exact D | exact K].
Defined.

(** C8 as stated fails in the autofill version: the answer Zebra, Ant is
    stored in that order. *)
Lemma autofill_suggestions_unsorted :
  let w' := exec (Autofill.fetchSuggestions_callback Demo.service "z") Demo.autofill_world in
  Autofill.suggestions (ui w') = [Demo.species "Zebra"; Demo.species "Ant"] /\
  ~ Sorted (fun a b => (code_unit_compare (SpeciesEntry.ScientificName a)
                                          (SpeciesEntry.ScientificName b) <= 0)%Z)
           (Autofill.suggestions (ui w')).
Proof.
  split; [reflexivity|]. intro H. simpl in H.
  inversion H as [|? ? _ R]; subst. inversion R as [|? ? K]; subst.
  vm_compute in K. now apply K.
Qed.

Lemma species_suggestions_sorted_witness :
  let w' := exec (Species.fetchSuggestions code_unit_compare Demo.namesakes "z")
                 Demo.species_world in
  "z" <> "" /\
  requests w' = [SpeciesSearch "z"] /\
  Species.suggestions (ui w')
    = [Demo.species "Ant"; Demo.species_called "Zebra" "plains";
       Demo.species_called "Zebra" "mountain"] /\
  StronglySorted
    (fun a b => (code_unit_compare (SpeciesEntry.ScientificName a)
                                   (SpeciesEntry.ScientificName b) <= 0)%Z)
    (Species.suggestions (ui w')) /\
  filter (named "Zebra") (Species.suggestions (ui w'))
    = [Demo.species_called "Zebra" "plains"; Demo.species_called "Zebra" "mountain"].
Proof.
  assert (N : "z" <> "") by discriminate.
  destruct (species_suggestions_sorted code_unit_compare Demo.namesakes
              Demo.species_world Demo.autofill_world
              "z" (Some (Response.make None None Missing
                           (Some [Demo.species_called "Zebra" "plains";
                                  Demo.species "Ant";
                                  Demo.species_called "Zebra" "mountain"])))
              N eq_refl)
    as [[R [_ [_ [S [_ K]]]]] _].
  split; [exact N|]. split; [exact R|]. split; [reflexivity|].
  split; [exact (S code_unit_compare_total code_unit_compare_trans)|].
  exact (K code_unit_compare_total "Zebra").
Defined.

Lemma missing_metadata_field_is_dereferenced_witness :
  let wa' := exec (Autofill.fetchProjects Number_toString Demo.metadata_missing "Koala")
                  Demo.autofill_world in
  let ws' := exec (Species.handleSearch Number_toString Demo.metadata_missing)
                  Demo.species_world in
  (Autofill.projectMetadata (ui wa') = [None] /\
   Autofill.errorMsg (ui wa') = None /\
   map Autofill.keyExtractor (Autofill.projectMetadata (ui wa'))
     = [Throw (TypeError "item.Project")]) /\
  (console ws' = ["Error fetching project metadata:"] /\
   Species.projectMetadata (ui ws') = [] /\
   Species.errorMsg (ui ws') = None).
Proof.
  destruct (missing_metadata_field_is_dereferenced Number_toString Demo.metadata_missing
              Demo.autofill_world "Koala" Demo.here
              (Some (Response.make (Some [Demo.project 101; Demo.project 102]) None Missing None))
              (Some (Response.make None (Some [Demo.feature 145 (-16) (IdNumber 101)]) Missing None))
              (Some (Response.make None None Missing None))
              Demo.species_world (Demo.species "Phascolarctos cinereus") Demo.here
              (Some (Response.make None (Some Demo.three_surveys) Missing None))
              (Some (Response.make None None Missing None)))
    as [A S].
  split.
  - apply A; try reflexivity; discriminate.
  - destruct S as [projectIDs [markerGroups [F H]]]; try reflexivity; try discriminate.
    injection F as <- _.
    destruct (H eq_refl eq_refl) as [_ H']. exact H'.
Defined.

(** C9.  Species version, metadata operation unreachable: the rejection is
    caught and logged, and no message is set for the user. *)
Theorem metadata_failure_not_surfaced :
  let w' := exec (Species.handleSearch Number_toString Demo.metadata_down)
                 Demo.species_world in
  requests w' =
    [ GetSurveysBySpecies (IdNumber 860) "-16,145,60000";
      GetProjectsMetadataById [IdNumber 55] ] /\
  Demo.metadata_down (GetProjectsMetadataById [IdNumber 55]) = Rejected "Network Error" /\
  console w' = ["Error fetching project metadata:"] /\
  Species.errorMsg (ui w') = None /\
  Species.projectMetadata (ui w') = [].
Proof. repeat split. Qed.

(** The same failure in the keyword version reaches the user. *)
Example keyword_metadata_failure_surfaced :
  let w' := exec (Keyword.fetchProjects Number_toString Demo.Date_parse Demo.metadata_down)
                 (Demo.keyword_world "Koala") in
  console w' = ["Error fetching project data:"] /\
  Keyword.errorMsg (ui w') =
    Some "An error occurred while fetching data. Please try again.".
Proof. split; reflexivity. Qed.

(** The autofill version stores the absent value. *)
Example autofill_stores_undefined :
  let w' := exec (Autofill.fetchProjects Number_toString Demo.metadata_missing "Koala")
                 Demo.autofill_world in
  Autofill.projectMetadata (ui w') = [None] /\
  map Autofill.keyExtractor (Autofill.projectMetadata (ui w'))
    = [Throw (TypeError "item.Project")] /\
  Autofill.errorMsg (ui w') = None.
Proof. repeat split. Qed.

(** The keyword version tests the field first. *)
Example keyword_reports_missing_metadata :
  let w' := exec (Keyword.fetchProjects Number_toString Demo.Date_parse Demo.metadata_missing)
                 (Demo.keyword_world "Koala") in
  Keyword.errorMsg (ui w') = Some "No metadata found for projects." /\
  Keyword.projectMetadata (ui w') = [].
Proof. split; reflexivity. Qed.

(** The example of the specification: three survey points of project 55 at
    two coordinates. *)
Example three_surveys_two_groups :
  exists projectIDs markerGroups,
    Species.forEach Number_toString Demo.three_surveys (JsMap.empty, JsObject.empty)
      = Normal (projectIDs, markerGroups) /\
    JsMap.get projectIDs (IdNumber 55) = Some 3 /\
    map fst markerGroups = ["-16,145"; "-17,146"] /\
    List.length (JsObject.values markerGroups) = 2.
Proof. eexists. eexists. split; [reflexivity|]. repeat split. Qed.

(** * Further properties of the three versions *)

Ltac keep_loop := cbn -[Species.forEach fold_left JsObject.values data_features].

(** ** Every search settles *)

Section NeverRejects.
Context {Num : Type}.
Variable toS : Num -> string.
Variable Date_parse : string -> option Z.
Variable service : Request -> Settled Num.

(** X3.  A search of the keyword version never rejects and never leaves
    the loading flag up: whatever the service answers, the function
    returns normally with [loading] false, the keyword, location and
    radius as they were, and nothing shown in an alert. *)
Theorem keyword_search_always_settles (w : World (Keyword.State Num) Request) :
  let r := Keyword.fetchProjects toS Date_parse service w in
  fst r = Normal tt /\
  Keyword.loading (ui (snd r)) = false /\
  Keyword.keyword (ui (snd r)) = Keyword.keyword (ui w) /\
  Keyword.location (ui (snd r)) = Keyword.location (ui w) /\
  Keyword.radius (ui (snd r)) = Keyword.radius (ui w) /\
  alerts (snd r) = alerts w.
Proof.
  run_keyword.
  destruct (service (ProjectSearch (Keyword.keyword (ui w)))) as [d1|e1]; cbn;
    [|repeat split].
  destruct (projectIDs_of d1) as [|i1 r1]; cbn; [repeat split|].
  destruct (Keyword.location (ui w)) as [c|] eqn:L; cbn; [|repeat split].
  destruct (service (GetProjects _)) as [d2|e2]; cbn; [|repeat split].
  destruct (filteredProjects_of (i1 :: r1) d2) as [|p1 q1]; cbn; [repeat split|].
  destruct (service (GetProjectsMetadataById _)) as [d3|e3]; cbn; [|repeat split].
  destruct (data_ProjectMetadata d3); cbn; repeat split.
Qed.

(** X4.  A search of the autofill version never rejects: it returns with
    [loadingProjects] false, and it never shows metadata and a message
    together; the location, the radius, the keyword and the suggestion
    list are as they were. *)
Theorem autofill_search_always_settles (w : World (Autofill.State Num) Request)
  (k : string) :
  let r := Autofill.fetchProjects toS service k w in
  fst r = Normal tt /\
  Autofill.loadingProjects (ui (snd r)) = false /\
  (Autofill.projectMetadata (ui (snd r)) <> [] ->
   Autofill.errorMsg (ui (snd r)) = None) /\
  (Autofill.errorMsg (ui (snd r)) <> None ->
   Autofill.projectMetadata (ui (snd r)) = []) /\
  Autofill.location (ui (snd r)) = Autofill.location (ui w) /\
  Autofill.radius (ui (snd r)) = Autofill.radius (ui w) /\
  Autofill.keyword (ui (snd r)) = Autofill.keyword (ui w) /\
  Autofill.suggestions (ui (snd r)) = Autofill.suggestions (ui w).
Proof.
  run_autofill.
  destruct (service (ProjectSearch k)) as [d1|e1]; cbn;
    [|repeat split; congruence].
  destruct (projectIDs_of d1) as [|i1 r1]; cbn; [repeat split; congruence|].
  destruct (Autofill.location (ui w)) as [c|] eqn:L; cbn; [|repeat split; congruence].
  destruct (service (GetSurveys _ _)) as [d2|e2]; cbn; [|repeat split; congruence].
  destruct (service (GetProjectsMetadataById _)) as [d3|e3]; cbn;
    repeat split; congruence.
Qed.
End NeverRejects.

Section SpeciesSettles.
Context {Num : Type}.
Variable toS : Num -> string.
Variable service : Request -> Settled Num.

(** X5.  A search of the species version never rejects and never changes
    the selected species, the location, the radius or the keyword.  With
    no species selected it only shows an alert; with one selected it ends
    with [isSearching] and [isTypingKeyword] false and no suggestions, and
    a falsy [TaxonID] sends nothing and only shows the other alert. *)
Theorem species_search_always_settles (w : World (Species.State Num) Request) :
  let r := Species.handleSearch toS service w in
  fst r = Normal tt /\
  Species.selectedSpecies (ui (snd r)) = Species.selectedSpecies (ui w) /\
  Species.location (ui (snd r)) = Species.location (ui w) /\
  Species.radius (ui (snd r)) = Species.radius (ui w) /\
  Species.keyword (ui (snd r)) = Species.keyword (ui w) /\
  match Species.selectedSpecies (ui w) with
  | None =>
      ui (snd r) = ui w /\ requests (snd r) = requests w /\
      console (snd r) = console w /\
      alerts (snd r) = alerts w ++ ["Please select a species before searching."]
  | Some sp =>
      Species.isSearching (ui (snd r)) = false /\
      Species.isTypingKeyword (ui (snd r)) = false /\
      Species.suggestions (ui (snd r)) = [] /\
      if truthy (SpeciesEntry.TaxonID sp)
      then Species.loadingProjects (ui (snd r)) = false /\
           alerts (snd r) = alerts w
      else requests (snd r) = requests w /\
           console (snd r) = console w /\
           alerts (snd r) = alerts w ++ ["No species selected."] /\
           Species.projectMetadata (ui (snd r)) = Species.projectMetadata (ui w) /\
           Species.markers (ui (snd r)) = Species.markers (ui w)
  end.
Proof.
  run_species.
  destruct (Species.selectedSpecies (ui w)) as [sp|] eqn:S; keep_loop;
    [|solve [repeat split; rewrite ?S; auto]].
  destruct (truthy (SpeciesEntry.TaxonID sp)) eqn:T; keep_loop;
    [|solve [repeat split; rewrite ?S; auto]].
  destruct (Species.location (ui w)) as [c|] eqn:L; keep_loop;
    [|solve [repeat split; rewrite ?S, ?L; auto]].
  destruct (service (GetSurveysBySpecies _ _)) as [d|e]; keep_loop;
    [|solve [repeat split; rewrite ?S, ?L; auto]].
  destruct (Nat.eqb (List.length (data_features d)) 0); keep_loop;
    [solve [repeat split; rewrite ?S, ?L; auto]|].
  rewrite forEach_steps. keep_loop.
  destruct (service (GetProjectsMetadataById _)) as [d3|e3]; keep_loop;
    [|solve [repeat split; rewrite ?S, ?L; auto]].
  destruct (Species.combinedMetadata _ _); keep_loop;
    solve [repeat split; rewrite ?S, ?L; auto].
Qed.
End SpeciesSettles.

(** ** Edges of the searches *)

Section EdgeFacts.
Context {Num : Type}.
Variable toS : Num -> string.
Variable Date_parse : string -> option Z.
Variable service : Request -> Settled Num.

(** X6.  Species version, survey lookup rejected: no metadata is
    requested, the failure is logged and the survey message is shown, the
    markers are cleared, and the metadata of the search before stays. *)
Theorem species_survey_failure_stops (w : World (Species.State Num) Request)
  (sp : SpeciesEntry.t) (c : Coordinate Num) (reason : string) :
  let taxon := SpeciesEntry.TaxonID sp in
  let circle := circle_text toS c (Species.radius_text toS (Species.radius (ui w))) in
  let w' := exec (Species.handleSearch toS service) w in
  Species.selectedSpecies (ui w) = Some sp ->
  truthy taxon = true ->
  Species.location (ui w) = Some c ->
  service (GetSurveysBySpecies taxon circle) = Rejected reason ->
  requests w' = requests w ++ [GetSurveysBySpecies taxon circle] /\
  console w' = console w ++ ["Error fetching survey data:"] /\
  Species.errorMsg (ui w') = Some Species.survey_error /\
  Species.markers (ui w') = [] /\
  Species.projectMetadata (ui w') = Species.projectMetadata (ui w) /\
  Species.loadingProjects (ui w') = false.
Proof.
  intros taxon circle w' S T L E. subst w' taxon circle.
  run_species. rewrite S. cbn. rewrite T. cbn. rewrite L. cbn. rewrite E. cbn.
  repeat split.
Qed.

(** X7.  Species version, survey lookup answered with no survey point:
    no metadata is requested, nothing is logged, the message asks for a
    larger radius, and the markers and the metadata are cleared. *)
Theorem species_no_surveys_stops (w : World (Species.State Num) Request)
  (sp : SpeciesEntry.t) (c : Coordinate Num) (d : option (Response.t Num)) :
  let taxon := SpeciesEntry.TaxonID sp in
  let circle := circle_text toS c (Species.radius_text toS (Species.radius (ui w))) in
  let w' := exec (Species.handleSearch toS service) w in
  Species.selectedSpecies (ui w) = Some sp ->
  truthy taxon = true ->
  Species.location (ui w) = Some c ->
  service (GetSurveysBySpecies taxon circle) = Fulfilled d ->
  data_features d = [] ->
  requests w' = requests w ++ [GetSurveysBySpecies taxon circle] /\
  console w' = console w /\
  Species.errorMsg (ui w') = Some Species.no_surveys /\
  Species.markers (ui w') = [] /\
  Species.projectMetadata (ui w') = [] /\
  Species.loadingProjects (ui w') = false.
Proof.
  intros taxon circle w' S T L E F. subst w' taxon circle.
  run_species. rewrite S. cbn. rewrite T. cbn. rewrite L. cbn. rewrite E.
  keep_loop. rewrite F. cbn. repeat split.
Qed.

(** X8.  A search started before the location is known.  Keyword and
    autofill versions: the project search is sent, reading the latitude of
    the missing location throws, and the generic message is shown.  Species
    version: nothing is sent and the survey message is shown. *)
Theorem search_without_location
  (wk : World (Keyword.State Num) Request)
  (wa : World (Autofill.State Num) Request) (k : string)
  (ws : World (Species.State Num) Request) (sp : SpeciesEntry.t) :
  (forall d1,
     Keyword.location (ui wk) = None ->
     service (ProjectSearch (Keyword.keyword (ui wk))) = Fulfilled d1 ->
     projectIDs_of d1 <> [] ->
     let w' := exec (Keyword.fetchProjects toS Date_parse service) wk in
     requests w' = requests wk ++ [ProjectSearch (Keyword.keyword (ui wk))] /\
     console w' = console wk ++ ["Error fetching project data:"] /\
     Keyword.errorMsg (ui w') = Some Keyword.generic_error /\
     Keyword.loading (ui w') = false)
  /\
  (forall d1,
     Autofill.location (ui wa) = None ->
     service (ProjectSearch k) = Fulfilled d1 ->
     projectIDs_of d1 <> [] ->
     let w' := exec (Autofill.fetchProjects toS service k) wa in
     requests w' = requests wa ++ [ProjectSearch k] /\
     console w' = console wa ++ ["Error fetching projects:"] /\
     Autofill.errorMsg (ui w') = Some Autofill.generic_error /\
     Autofill.markers (ui w') = [] /\
     Autofill.projectMetadata (ui w') = [] /\
     Autofill.loadingProjects (ui w') = false)
  /\
  (Species.location (ui ws) = None ->
   Species.selectedSpecies (ui ws) = Some sp ->
   truthy (SpeciesEntry.TaxonID sp) = true ->
   let w' := exec (Species.handleSearch toS service) ws in
   requests w' = requests ws /\
   console w' = console ws ++ ["Error fetching survey data:"] /\
   Species.errorMsg (ui w') = Some Species.survey_error /\
   Species.loadingProjects (ui w') = false).
Proof.
  split; [|split].
  - intros d1 L E1 N. run_keyword. rewrite E1. cbn.
    destruct (projectIDs_of d1) as [|i1 r1]; [now elim N|].
    cbn. rewrite L. cbn. repeat split.
  - intros d1 L E1 N. run_autofill. rewrite E1. cbn.
    destruct (projectIDs_of d1) as [|i1 r1]; [now elim N|].
    cbn. rewrite L. cbn. repeat split.
  - intros L S T. run_species. rewrite S. cbn. rewrite T. cbn. rewrite L. cbn.
    repeat split.
Qed.

Lemma filtered_ids_length {N' : Type} (ids : list JsId) (d : option (Response.t N')) :
  NoDup (projectIDs_of d) ->
  List.length (filteredProjects_of ids d) <= List.length ids.
Proof.
  intro ND.
  rewrite <- (length_map ProjectInfo.ProjectID (filteredProjects_of ids d)).
  apply NoDup_incl_length.
  - unfold filteredProjects_of, projectIDs_of in *.
    destruct (data_Project d) as [l|]; [|constructor].
    clear - ND. induction l as [|p r IH]; simpl; [constructor|].
    simpl in ND. inversion ND as [|? ? H1 H2]; subst.
    destruct (Array_includes ids (ProjectInfo.ProjectID p)); simpl; [|now apply IH].
    constructor; [|now apply IH].
    intro H. apply H1. apply in_map_iff in H as [q [E Hq]].
    apply filter_In in Hq as [Hq _]. rewrite <- E. now apply in_map.
  - intros i Hi. now apply filteredProjects_of_ids in Hi.
Qed.

(** X9.  The two counters of the keyword version: the keyword count is
    the number of ids of the project search, the area count the number of
    circle projects among them; the area count does not exceed the keyword
    count when the circle answer lists no project twice. *)
Theorem keyword_counts (w : World (Keyword.State Num) Request)
  (c : Coordinate Num) (d1 d2 : option (Response.t Num)) :
  let k := Keyword.keyword (ui w) in
  let circle := circle_text toS c (toS (Keyword.radius (ui w))) in
  let w' := exec (Keyword.fetchProjects toS Date_parse service) w in
  Keyword.location (ui w) = Some c ->
  service (ProjectSearch k) = Fulfilled d1 ->
  projectIDs_of d1 <> [] ->
  service (GetProjects circle) = Fulfilled d2 ->
  Keyword.keywordProjectCount (ui w') = List.length (projectIDs_of d1) /\
  Keyword.areaProjectCount (ui w') =
    List.length (filteredProjects_of (projectIDs_of d1) d2) /\
  (NoDup (projectIDs_of d2) ->
   Keyword.areaProjectCount (ui w') <= Keyword.keywordProjectCount (ui w')).
Proof.
  intros k circle w' L E1 N E2.
  assert (H : Keyword.keywordProjectCount (ui w') = List.length (projectIDs_of d1) /\
              Keyword.areaProjectCount (ui w') =
                List.length (filteredProjects_of (projectIDs_of d1) d2)).
  { subst k circle w'. run_keyword. rewrite E1. cbn.
    destruct (projectIDs_of d1) as [|i1 r1]; [now elim N|].
    cbn. rewrite L. cbn. rewrite E2. cbn.
    destruct (filteredProjects_of (i1 :: r1) d2) as [|p1 q1]; cbn; [now split|].
    destruct (service (GetProjectsMetadataById _)) as [d3|e3]; cbn; [|now split].
    destruct (data_ProjectMetadata d3); cbn; now split. }
  destruct H as [H1 H2]. split; [exact H1|]. split; [exact H2|].
  intro ND. rewrite H1, H2. now apply filtered_ids_length.
Qed.

(** X10.  A keyword search that finds no project sets the keyword count
    to 0 and a message, and leaves the metadata list and the area count of
    the search before on the screen. *)
Theorem keyword_keeps_previous_results (w : World (Keyword.State Num) Request)
  (d1 : option (Response.t Num)) :
  let w' := exec (Keyword.fetchProjects toS Date_parse service) w in
  service (ProjectSearch (Keyword.keyword (ui w))) = Fulfilled d1 ->
  projectIDs_of d1 = [] ->
  Keyword.keywordProjectCount (ui w') = 0 /\
  Keyword.areaProjectCount (ui w') = Keyword.areaProjectCount (ui w) /\
  Keyword.projectMetadata (ui w') = Keyword.projectMetadata (ui w) /\
  Keyword.errorMsg (ui w') <> None.
Proof.
  intros w' E1 I1. subst w'. run_keyword. rewrite E1. cbn. rewrite I1. cbn.
  repeat split. discriminate.
Qed.

(** X11.  Autofill version, metadata lookup rejected after the surveys
    were answered: the markers, one per survey point, are stored all the
    same, next to the generic message and an empty metadata list. *)
Theorem autofill_markers_survive_metadata_failure
  (w : World (Autofill.State Num) Request) (k : string) (c : Coordinate Num)
  (d1 d2 : option (Response.t Num)) (reason : string) :
  let circle := circle_text toS c (toS (Autofill.radius (ui w))) in
  let ids := projectIDs_of d1 in
  let w' := exec (Autofill.fetchProjects toS service k) w in
  Autofill.location (ui w) = Some c ->
  service (ProjectSearch k) = Fulfilled d1 ->
  ids <> [] ->
  service (GetSurveys ids circle) = Fulfilled d2 ->
  service (GetProjectsMetadataById ids) = Rejected reason ->
  Autofill.markers (ui w') = map (@Autofill.newMarker Num) (data_features d2) /\
  List.length (Autofill.markers (ui w')) = List.length (data_features d2) /\
  Autofill.projectMetadata (ui w') = [] /\
  Autofill.errorMsg (ui w') = Some Autofill.generic_error.
Proof.
  intros circle ids w' L E1 N E2 E3. subst w' circle ids. run_autofill.
  rewrite E1. cbn.
  destruct (projectIDs_of d1) as [|i1 r1] eqn:I1; [now elim N|].
  cbn. rewrite L. cbn. rewrite E2. cbn. rewrite E3. cbn.
  repeat split. apply length_map.
Qed.
End EdgeFacts.

(** ** The survey loop *)

(** ** Keys and totals of maps and objects *)

Lemma JsMap_keys_set {V : Type} (m : JsMap.t V) (k : JsId) (v : V) :
  JsMap.keys (JsMap.set m k v) =
  match JsMap.get m k with
  | Some _ => JsMap.keys m
  | None => JsMap.keys m ++ [k]
  end.
Proof.
  unfold JsMap.keys. induction m as [|[k0 v0] r IH]; simpl; [reflexivity|].
  destruct (JsId_eqb k k0) eqn:E; simpl; [reflexivity|].
  rewrite IH. now destruct (JsMap.get r k).
Qed.

Lemma JsMap_get_keys {V : Type} (m : JsMap.t V) (k : JsId) :
  existsb (JsId_eqb k) (JsMap.keys m) =
  match JsMap.get m k with Some _ => true | None => false end.
Proof.
  unfold JsMap.keys. induction m as [|[k0 v0] r IH]; simpl; [reflexivity|].
  destruct (JsId_eqb k k0); simpl; [reflexivity | exact IH].
Qed.

Lemma group_total_set {Num : Type} (o : JsObject.t (Species.Group Num))
  (k : string) (g : Species.Group Num) :
  group_total (JsObject.set o k g)
  + match JsObject.own o k with
    | Some old => List.length (Species.surveys old)
    | None => 0
    end
  = group_total o + List.length (Species.surveys g).
Proof.
  unfold group_total. induction o as [|[k0 g0] r IH]; simpl; [lia|].
  destruct (String.eqb k k0); simpl; lia.
Qed.

Lemma first_ids_snoc (l : list JsId) (x : JsId) :
  first_ids (l ++ [x]) =
  if existsb (JsId_eqb x) l then first_ids l else first_ids l ++ [x].
Proof.
  induction l as [|a r IH]; simpl; [reflexivity|].
  rewrite IH. destruct (JsId_eqb x a) eqn:E; simpl.
  - destruct (existsb (JsId_eqb x) r); [reflexivity|].
    rewrite filter_app. simpl. rewrite E. simpl. now rewrite app_nil_r.
  - destruct (existsb (JsId_eqb x) r); [reflexivity|].
    rewrite filter_app. simpl. rewrite E. reflexivity.
Qed.

Lemma first_ids_In (l : list JsId) (i : JsId) : In i (first_ids l) <-> In i l.
Proof.
  induction l as [|a r IH]; simpl; [tauto|].
  rewrite filter_In, IH. split.
  - intros [H|[H _]]; auto.
  - intros [H|H]; [now left|].
    destruct (JsId_eqb i a) eqn:E.
    + apply JsId_eqb_eq in E. now left.
    + right. now split.
Qed.

Lemma first_ids_NoDup (l : list JsId) : NoDup (first_ids l).
Proof.
  induction l as [|a r IH]; simpl; constructor.
  - rewrite filter_In. intros [_ H]. now rewrite JsId_eqb_refl in H.
  - now apply NoDup_filter.
Qed.

Lemma existsb_first_ids (l : list JsId) (x : JsId) :
  existsb (JsId_eqb x) (first_ids l) = existsb (JsId_eqb x) l.
Proof.
  destruct (existsb (JsId_eqb x) l) eqn:E.
  - apply existsb_exists in E as [y [Hy E]]. apply existsb_exists.
    exists y. split; [exact (proj2 (first_ids_In l y) Hy) | exact E].
  - destruct (existsb (JsId_eqb x) (first_ids l)) eqn:E'; [|reflexivity].
    apply existsb_exists in E' as [y [Hy E']].
    apply (proj1 (first_ids_In l y)) in Hy.
    assert (existsb (JsId_eqb x) l = true) as H
      by (apply existsb_exists; exists y; split; assumption).
    congruence.
Qed.

Lemma first_seen_length (l : list string) :
  List.length (first_seen l) <= List.length l.
Proof.
  apply NoDup_incl_length; [apply first_seen_NoDup|].
  intros k. apply first_seen_In.
Qed.

Section LoopTotals.
Context {Num : Type}.
Variable toS : Num -> string.

Lemma count_fold_keys (l : list (Survey.Feature Num)) :
  JsMap.keys (fold_left count_step l JsMap.empty)
  = first_ids (filter truthy (survey_ids l)).
Proof.
  induction l as [|s l IH] using rev_ind; [reflexivity|].
  rewrite fold_left_app. simpl. unfold survey_ids in *.
  rewrite map_app, filter_app. simpl.
  unfold count_step at 1.
  destruct (truthy (Survey.ProjectID (Survey.properties s))) eqn:T.
  - rewrite JsMap_keys_set, first_ids_snoc, <- existsb_first_ids, <- IH, JsMap_get_keys.
    destruct (JsMap.get _ _); [reflexivity|]. now rewrite IH.
  - now rewrite app_nil_r.
Qed.

Lemma group_step_total (o : JsObject.t (Species.Group Num)) (s : Survey.Feature Num) :
  group_total (group_step toS o s) = group_total o + 1.
Proof.
  unfold group_step.
  destruct (JsObject.own o (Species.coordKey toS s)) as [g|] eqn:E.
  - pose proof (group_total_set o (Species.coordKey toS s)
                  (Species.mkGroup (Species.coordinate g)
                     (Species.surveys g ++ [Survey.properties s]))) as H.
    rewrite E in H. simpl in H. rewrite length_app in H. simpl in H. lia.
  - set (g0 := Species.mkGroup
                 (mkCoordinate (snd (Survey.coordinates s)) (fst (Survey.coordinates s))) []).
    pose proof (group_total_set o (Species.coordKey toS s) g0) as H0.
    rewrite E in H0. simpl in H0.
    pose proof (group_total_set (JsObject.set o (Species.coordKey toS s) g0)
                  (Species.coordKey toS s)
                  (Species.mkGroup
                     (mkCoordinate (snd (Survey.coordinates s)) (fst (Survey.coordinates s)))
                     [Survey.properties s])) as H1.
    rewrite JsObject_own_set, String.eqb_refl in H1. simpl in H1. lia.
Qed.

Lemma group_fold_total (l : list (Survey.Feature Num)) (o : JsObject.t (Species.Group Num)) :
  group_total (fold_left (group_step toS) l o) = group_total o + List.length l.
Proof.
  revert o. induction l as [|s r IH]; intro o; simpl; [lia|].
  rewrite IH, group_step_total. lia.
Qed.

Lemma group_values (l : list (Survey.Feature Num)) :
  JsObject.values (fold_left (group_step toS) l JsObject.empty)
  = map snd (fold_left (group_step toS) l JsObject.empty).
Proof.
  apply JsObject_values_named. apply Forall_forall. intros [k g] H.
  now destruct (group_fold_entry toS l k g H).
Qed.

Lemma markers_details_total (l : list (Survey.Feature Num)) :
  details_total
    (map (@Species.surveyMarker Num)
       (JsObject.values (fold_left (group_step toS) l JsObject.empty)))
  = List.length l.
Proof.
  pose proof (group_fold_total l JsObject.empty) as G. simpl in G.
  rewrite group_values. unfold details_total. rewrite <- G. unfold group_total.
  rewrite !map_map. f_equal. apply map_ext. intros [k g]. simpl.
  now rewrite length_map.
Qed.
End LoopTotals.

Section SurveyLoop.
Context {Num : Type}.
Variable toS : Num -> string.
Variable localeCompare : string -> string -> Z.
Variable service : Request -> Settled Num.

(** X12.  The loop over the survey points loses and invents nothing: the
    count map has one key for each distinct truthy project id, in the order
    of first occurrence, its counts add up to the number of survey points
    with a truthy id, and the groups together hold as many entries as there
    are survey points. *)
Theorem survey_loop_accounts_for_every_point
  (surveys : list (Survey.Feature Num))
  (projectIDs : JsMap.t nat) (markerGroups : JsObject.t (Species.Group Num)) :
  Species.forEach toS surveys (JsMap.empty, JsObject.empty)
    = Normal (projectIDs, markerGroups) ->
  JsMap.keys projectIDs = first_ids (filter truthy (survey_ids surveys)) /\
  NoDup (JsMap.keys projectIDs) /\
  counts_total projectIDs = List.length (filter truthy (survey_ids surveys)) /\
  group_total markerGroups = List.length surveys /\
  details_total (map (@Species.surveyMarker Num) (JsObject.values markerGroups))
    = List.length surveys.
Proof.
  rewrite forEach_steps. intros E. injection E as <- <-.
  rewrite count_fold_keys, count_fold_total.
  split; [reflexivity|]. split; [apply first_ids_NoDup|].
  split; [reflexivity|].
  pose proof (group_fold_total toS surveys JsObject.empty) as G. simpl in G.
  split; [exact G | apply markers_details_total].
Qed.

(** X13.  A species search answered with survey points asks for the metadata
    of each truthy project id of the answer once, in the order of first
    occurrence, whatever the ids are; the markers it stores carry one
    detail entry per survey point, and are no more than the survey
    points. *)
Theorem species_requests_each_project_once
  (w : World (Species.State Num) Request)
  (sp : SpeciesEntry.t) (c : Coordinate Num) (d : option (Response.t Num)) :
  let taxon := SpeciesEntry.TaxonID sp in
  let circle := circle_text toS c (Species.radius_text toS (Species.radius (ui w))) in
  let surveys := data_features d in
  let w' := exec (Species.handleSearch toS service) w in
  Species.selectedSpecies (ui w) = Some sp ->
  truthy taxon = true ->
  Species.location (ui w) = Some c ->
  service (GetSurveysBySpecies taxon circle) = Fulfilled d ->
  surveys <> [] ->
  requests w' =
    requests w ++ [GetSurveysBySpecies taxon circle;
                   GetProjectsMetadataById
                     (first_ids (filter truthy (survey_ids surveys)))] /\
  details_total (Species.markers (ui w')) = List.length surveys /\
  0 < List.length (Species.markers (ui w')) <= List.length surveys /\
  Forall (fun m => Species.surveyDetails m <> []) (Species.markers (ui w')).
Proof.
  intros taxon circle surveys w' S T L E N.
  destruct (species_markers_stored toS service w sp c d S T L E N)
    as [projectIDs [markerGroups [F [Mk R]]]].
  fold taxon circle surveys w' in F, Mk, R.
  rewrite forEach_steps in F. injection F as <- <-.
  rewrite count_fold_keys in R. split; [exact R|]. rewrite Mk.
  split; [apply markers_details_total|].
  rewrite group_values, !length_map.
  destruct (group_fold toS surveys) as [Hk _]. cbv zeta in Hk.
  set (Gs := fold_left (group_step toS) surveys JsObject.empty) in *.
  assert (Len : List.length Gs = List.length (first_seen (map (Species.coordKey toS) surveys))).
  { rewrite <- Hk. now rewrite length_map. }
  split; [split|].
  - rewrite Len. destruct surveys as [|s0 r]; [now elim N|]. simpl. lia.
  - rewrite Len. etransitivity; [apply first_seen_length|]. now rewrite length_map.
  - rewrite Forall_map, Forall_map. apply Forall_forall. intros [k g] H.
    destruct (group_fold_entry toS surveys k g H) as [_ [_ Sg]].
    assert (Hin : In k (map (Species.coordKey toS) surveys)).
    { apply first_seen_In. rewrite <- Hk. apply in_map_iff. now exists (k, g). }
    apply in_map_iff in Hin as [s [Ks Hs]].
    simpl. rewrite Sg. unfold at_key.
    assert (In s (filter (fun s1 => String.eqb (Species.coordKey toS s1) k) surveys)) as Hf.
    { apply filter_In. split; [exact Hs|]. now apply String.eqb_eq. }
    destruct (filter _ surveys); [elim Hf | discriminate].
Qed.
End SurveyLoop.

(** ** Debounced calls *)

Section DebounceLaw.
Context {A : Type}.
Variable delay : Z.

Lemma debounced_after_pending (n : nat) (t t' : Z) (a a' : A) (done : list A) :
  (t <= t')%Z ->
  Timers.debounced delay a'
    (Timers.mkDebounced (Timers.timeoutId (pending_with delay n t a done))
       (Timers.advance t' (Timers.loop (pending_with delay n t a done))))
  = pending_with delay (S n) t' a'
      (if Z.leb (t + delay) t' then done ++ [a] else done).
Proof.
  intros H. unfold pending_with, Timers.debounced, Timers.advance,
    Timers.clearTimeout, Timers.setTimeout. simpl.
  replace (Z.max t t') with t' by lia.
  destruct (Z.leb (t + delay) t'); simpl.
  - reflexivity.
  - rewrite Nat.eqb_refl. simpl. now rewrite app_nil_r.
Qed.

Lemma calls_at_pending (events : list (Z * A)) (n : nat) (t : Z) (a : A) (done : list A) :
  nondecreasing t events ->
  Timers.invoked
    (Timers.settle (Timers.loop (Timers.calls_at delay events (pending_with delay n t a done))))
  = done ++ debounce_result delay ((t, a) :: events).
Proof.
  revert n t a done. induction events as [|[t' a'] r IH]; intros n t a done H.
  - reflexivity.
  - destruct H as [H1 H2]. cbn [fst snd] in H1, H2.
    rewrite calls_at_cons. cbn [fst snd].
    rewrite (debounced_after_pending n t t' a a' done H1), (IH _ _ _ _ H2).
    change (debounce_result delay ((t, a) :: (t', a') :: r))
      with (if Z.leb (t + delay) t'
            then a :: debounce_result delay ((t', a') :: r)
            else debounce_result delay ((t', a') :: r)).
    destruct (Z.leb (t + delay) t'); [now rewrite <- app_assoc | reflexivity].
Qed.

(** X14.  What one debounced function lets through, for calls at any times
    that do not go back: the wrapped function runs on the argument of a
    call exactly when the next call comes no sooner than the delay after
    it, and on the argument of the last call, in the order of the calls. *)
Theorem debounce_lets_through (start : Z) (events : list (Z * A)) :
  nondecreasing start events ->
  Timers.invoked
    (Timers.settle
       (Timers.loop (Timers.calls_at delay events (Timers.debounce start))))
  = debounce_result delay events.
Proof.
  destruct events as [|[t a] r]; [reflexivity|].
  intros [H1 H2]. cbn [fst snd] in H1, H2. rewrite calls_at_cons.
  assert (E : Timers.debounced delay (snd (t, a))
                (Timers.mkDebounced (Timers.timeoutId (Timers.debounce (A := A) start))
                   (Timers.advance (fst (t, a)) (Timers.loop (Timers.debounce (A := A) start))))
              = pending_with delay 0 t a []).
  { unfold Timers.debounce, Timers.debounced, Timers.advance, Timers.clearTimeout,
      Timers.setTimeout, pending_with. simpl.
    replace (Z.max start t) with t by lia. reflexivity. }
  rewrite E. now rewrite (calls_at_pending r 0 t a [] H2).
Qed.

Lemma filter_due_split (t : Z) (timers : list (Timers.Timer A)) :
  due_in_order timers ->
  filter (fun x => Z.leb (Timers.due x) t) timers
    ++ filter (fun x => negb (Z.leb (Timers.due x) t)) timers = timers.
Proof.
  unfold due_in_order. induction 1 as [|x r S IH F]; [reflexivity|].
  simpl. destruct (Z.leb (Timers.due x) t) eqn:E; simpl.
  - now rewrite IH.
  - assert (N : filter (fun y => Z.leb (Timers.due y) t) r = []).
    { apply Z.leb_gt in E. clear IH S. induction F as [|y r' Hy F' IHF]; [reflexivity|].
      simpl. assert (E' : Z.leb (Timers.due y) t = false) by (apply Z.leb_gt; lia).
      now rewrite E'. }
    rewrite N in IH. simpl in IH. rewrite N. simpl. now rewrite IH.
Qed.

Lemma due_in_order_filter (f : Timers.Timer A -> bool) (timers : list (Timers.Timer A)) :
  due_in_order timers -> due_in_order (filter f timers).
Proof.
  unfold due_in_order. induction 1 as [|x r S IH F]; simpl; [constructor|].
  destruct (f x); [|exact IH]. constructor; [exact IH|].
  apply Forall_forall. intros y Hy. apply filter_In in Hy as [Hy _].
  rewrite Forall_forall in F. now apply F.
Qed.

Lemma due_in_order_snoc (timers : list (Timers.Timer A)) (x : Timers.Timer A) :
  due_in_order timers ->
  Forall (fun y => (Timers.due y <= Timers.due x)%Z) timers ->
  due_in_order (timers ++ [x]).
Proof.
  unfold due_in_order. induction 1 as [|y r S IH F]; intros B; simpl.
  - repeat constructor.
  - inversion B as [|? ? By Br]; subst. constructor; [now apply IH|].
    apply Forall_app. split; [exact F | now constructor].
Qed.

Lemma call_through_new_keeps (l : Timers.Loop A) (t : Z) (a : A) :
  let l' := Timers.loop
              (Timers.debounced delay a (Timers.mkDebounced None (Timers.advance t l))) in
  due_in_order (Timers.pending l) ->
  Forall (fun x => (Timers.due x <= Timers.now l + delay)%Z) (Timers.pending l) ->
  due_in_order (Timers.pending l') /\
  Forall (fun x => (Timers.due x <= Timers.now l' + delay)%Z) (Timers.pending l') /\
  Timers.invoked l' ++ map (@Timers.args A) (Timers.pending l')
  = (Timers.invoked l ++ map (@Timers.args A) (Timers.pending l)) ++ [a].
Proof.
  intros l' S B. subst l'.
  unfold Timers.debounced, Timers.advance, Timers.clearTimeout, Timers.setTimeout.
  cbn [Timers.loop Timers.pending Timers.now Timers.invoked Timers.timeoutId
       Timers.next_id fst snd].
  assert (B' : Forall (fun x => (Timers.due x <= Z.max (Timers.now l) t + delay)%Z)
                 (filter (fun x => negb (Z.leb (Timers.due x) t)) (Timers.pending l))).
  { apply Forall_forall. intros x Hx. apply filter_In in Hx as [Hx _].
    rewrite Forall_forall in B. specialize (B x Hx). lia. }
  split; [|split].
  - apply due_in_order_snoc; [now apply due_in_order_filter | exact B'].
  - apply Forall_app. split; [exact B'|]. constructor; [simpl; lia | constructor].
  - rewrite map_app. simpl. rewrite <- !app_assoc. f_equal.
    rewrite (app_assoc (map _ _)), <- map_app, (filter_due_split t _ S). reflexivity.
Qed.

Lemma calls_through_new_keep (events : list (Z * A)) (l : Timers.Loop A) :
  let l' := calls_through_new delay events l in
  due_in_order (Timers.pending l) ->
  Forall (fun x => (Timers.due x <= Timers.now l + delay)%Z) (Timers.pending l) ->
  Timers.invoked l' ++ map (@Timers.args A) (Timers.pending l')
  = (Timers.invoked l ++ map (@Timers.args A) (Timers.pending l)) ++ map snd events.
Proof.
  revert l. induction events as [|[t a] r IH]; intros l l' S B; subst l'.
  - simpl. now rewrite app_nil_r.
  - destruct (call_through_new_keeps l t a S B) as [S' [B' E]].
    change (calls_through_new delay ((t, a) :: r) l)
      with (calls_through_new delay r
              (Timers.loop
                 (Timers.debounced delay a
                    (Timers.mkDebounced None (Timers.advance t l))))).
    rewrite (IH _ S' B'), E. cbn [map snd]. now rewrite <- app_assoc.
Qed.

(** X15.  Debounced functions returned by separate calls of [debounce] do
    not cancel one another: when every call goes through a function newly
    returned by [debounce], the wrapped function runs on every argument, in
    the order of the calls, however close the calls are. *)
Theorem separate_debounced_functions_all_run (start : Z) (events : list (Z * A)) :
  Timers.invoked
    (Timers.settle
       (calls_through_new delay events (Timers.loop (Timers.debounce start))))
  = map snd events.
Proof.
  pose proof (calls_through_new_keep events (Timers.loop (Timers.debounce (A := A) start)))
    as H. cbv zeta in H. simpl in H. apply H; constructor.
Qed.
End DebounceLaw.

(** ** The input box *)

Section InputBox.
Context {Num : Type}.
Variable toS : Num -> string.
Variable localeCompare : string -> string -> Z.
Variable service : Request -> Settled Num.

Lemma blank_empty (t : string) : trim_is_empty t = false -> String.eqb t "" = false.
Proof.
  intro H. destruct (String.eqb t "") eqn:E; [|reflexivity].
  apply String.eqb_eq in E. subst t. discriminate.
Qed.

Lemma handle_keeps (e : Species.Event (Num := Num)) (w : World (Species.State Num) Request) :
  let r := Species.handle localeCompare e w in
  fst r = Normal tt /\
  Species.selectedSpecies (ui (snd r)) = Species.selectedSpecies (ui w) /\
  Species.location (ui (snd r)) = Species.location (ui w) /\
  Species.radius (ui (snd r)) = Species.radius (ui w) /\
  Species.isSearching (ui (snd r)) = Species.isSearching (ui w) /\
  Species.projectMetadata (ui (snd r)) = Species.projectMetadata (ui w) /\
  Species.markers (ui (snd r)) = Species.markers (ui w) /\
  alerts (snd r) = alerts w.
Proof.
  destruct e as [text|input [d|reason]]; unfold Species.handle; run_suggest.
  - destruct (trim_is_empty text) eqn:B; cbn -[Array_sort data_Species].
    + repeat split.
    + rewrite (blank_empty text B). cbn. repeat split.
  - repeat split.
  - repeat split.
Qed.

Lemma handle_all_cons (e : Species.Event (Num := Num)) (r : list Species.Event)
  (w : World (Species.State Num) Request) :
  Species.handle_all localeCompare (e :: r) w
  = Species.handle_all localeCompare r (snd (Species.handle localeCompare e w)).
Proof.
  destruct (handle_keeps e w) as [H _]. cbv zeta in H.
  change (Species.handle_all localeCompare (e :: r))
    with (bind (Species.handle localeCompare e)
            (fun _ => Species.handle_all localeCompare r)).
  unfold bind. destruct (Species.handle localeCompare e w) as [c w0].
  simpl in H. subst c. reflexivity.
Qed.

Lemma handle_all_keeps (es : list (Species.Event (Num := Num)))
  (w : World (Species.State Num) Request) :
  let r := Species.handle_all localeCompare es w in
  fst r = Normal tt /\
  Species.selectedSpecies (ui (snd r)) = Species.selectedSpecies (ui w) /\
  Species.location (ui (snd r)) = Species.location (ui w) /\
  Species.radius (ui (snd r)) = Species.radius (ui w) /\
  Species.isSearching (ui (snd r)) = Species.isSearching (ui w) /\
  Species.projectMetadata (ui (snd r)) = Species.projectMetadata (ui w) /\
  Species.markers (ui (snd r)) = Species.markers (ui w) /\
  alerts (snd r) = alerts w.
Proof.
  revert w. induction es as [|e r IH]; intro w; cbv zeta.
  - repeat split.
  - rewrite handle_all_cons.
    destruct (handle_keeps e w) as [_ [H1 [H2 [H3 [H4 [H5 [H6 H7]]]]]]].
    destruct (IH (snd (Species.handle localeCompare e w)))
      as [K0 [K1 [K2 [K3 [K4 [K5 [K6 K7]]]]]]].
    cbv zeta in *. repeat split; congruence.
Qed.

Lemma species_first_request (w : World (Species.State Num) Request)
  (sp : SpeciesEntry.t) (c : Coordinate Num) :
  let taxon := SpeciesEntry.TaxonID sp in
  let circle := circle_text toS c (Species.radius_text toS (Species.radius (ui w))) in
  Species.selectedSpecies (ui w) = Some sp ->
  truthy taxon = true ->
  Species.location (ui w) = Some c ->
  exists rest,
    requests (exec (Species.handleSearch toS service) w)
    = requests w ++ GetSurveysBySpecies taxon circle :: rest.
Proof.
  intros taxon circle S T L. subst taxon circle.
  run_species. rewrite S. keep_loop. rewrite T. keep_loop. rewrite L. keep_loop.
  destruct (service (GetSurveysBySpecies _ _)) as [d|e]; keep_loop.
  2:{ now exists []. }
  destruct (Nat.eqb (List.length (data_features d)) 0); keep_loop.
  { now exists []. }
  rewrite forEach_steps. keep_loop.
  eexists. rewrite <- !app_assoc. cbn [app].
  destruct (service (GetProjectsMetadataById _)) as [d3|e3]; keep_loop.
  - destruct (Species.combinedMetadata _ _); keep_loop; rewrite ?S; reflexivity.
  - rewrite ?S. reflexivity.
Qed.

(** X16.  Nothing the input box does clears the selected species: after a
    suggestion is selected, whatever is typed and whatever answers arrive,
    a search looks up the surveys of the species that was selected, at the
    location and radius of before. *)
Theorem search_uses_selected_species_after_typing
  (w : World (Species.State Num) Request) (sp : SpeciesEntry.t)
  (es : list (Species.Event (Num := Num))) (c : Coordinate Num) :
  let taxon := SpeciesEntry.TaxonID sp in
  let circle := circle_text toS c (Species.radius_text toS (Species.radius (ui w))) in
  let w1 := exec (Species.handleSuggestionSelect sp ;; Species.handle_all localeCompare es) w in
  truthy taxon = true ->
  Species.location (ui w) = Some c ->
  Species.selectedSpecies (ui w1) = Some sp /\
  alerts w1 = alerts w /\
  exists rest,
    requests (exec (Species.handleSearch toS service) w1)
    = requests w1 ++ GetSurveysBySpecies taxon circle :: rest.
Proof.
  intros taxon circle w1 T L.
  set (w0 := exec (Species.handleSuggestionSelect sp) w).
  assert (E : w1 = snd (Species.handle_all localeCompare es w0)) by reflexivity.
  destruct (handle_all_keeps es w0) as [_ [K1 [K2 [K3 [_ [_ [_ K7]]]]]]].
  cbv zeta in *. rewrite <- E in *.
  assert (S1 : Species.selectedSpecies (ui w1) = Some sp) by (rewrite K1; reflexivity).
  assert (L1 : Species.location (ui w1) = Some c) by (rewrite K2; exact L).
  split; [exact S1|]. split; [rewrite K7; reflexivity|].
  destruct (species_first_request w1 sp c S1 T L1) as [rest R].
  exists rest. rewrite R. rewrite K3. reflexivity.
Qed.

Lemma typed_step (t : string) (w : World (Species.State Num) Request) :
  let w' := snd (Species.handle localeCompare (Species.Typed t) w) in
  requests w' = requests w ++ (if trim_is_empty t then [] else [SpeciesSearch t]) /\
  Species.keyword (ui w') = t /\
  Species.isTypingKeyword (ui w') = negb (trim_is_empty t).
Proof.
  unfold Species.handle. run_suggest.
  destruct (trim_is_empty t) eqn:B; cbn -[Array_sort data_Species].
  - rewrite app_nil_r. repeat split.
  - rewrite (blank_empty t B). cbn. repeat split.
Qed.

(** X17.  The requests of a run of keystrokes are the suggestion searches
    for the texts that are not blank, one each and in order; the keyword
    ends as the last text typed, and the input counts as being typed in
    when that text is not blank. *)
Theorem keystrokes_request_nonblank_texts
  (texts : list string) (w : World (Species.State Num) Request) :
  let w' := exec (Species.handle_all localeCompare (map (@Species.Typed Num) texts)) w in
  requests w' =
    requests w ++ map SpeciesSearch (filter (fun t => negb (trim_is_empty t)) texts) /\
  Species.keyword (ui w') = last texts (Species.keyword (ui w)) /\
  Species.isTypingKeyword (ui w') =
    last (map (fun t => negb (trim_is_empty t)) texts) (Species.isTypingKeyword (ui w)).
Proof.
  revert w. induction texts as [|t r IH]; intro w; cbv zeta.
  - unfold exec. simpl. rewrite app_nil_r. repeat split.
  - unfold exec. cbn [map]. rewrite handle_all_cons.
    destruct (typed_step t w) as [R [K T]]. cbv zeta in R, K, T.
    destruct (IH (snd (Species.handle localeCompare (Species.Typed t) w)))
      as [R' [K' T']]. cbv zeta in R', K', T'. unfold exec in R', K', T'.
    rewrite R', K', T', R, K, T, !last_cons_default. cbn [filter].
    destruct (trim_is_empty t); cbn [negb map]; rewrite <- app_assoc;
      repeat split.
Qed.

(** X18.  A suggestion search that fails leaves the suggestion list as it
    was, in both versions that suggest: the failure is logged, the loading
    flag is lowered, and no message is set or shown. *)
Theorem failed_suggestions_keep_the_list
  (w : World (Species.State Num) Request) (wa : World (Autofill.State Num) Request)
  (input reason : string) :
  let w' := exec (Species.fetchSuggestions localeCompare service input) w in
  let wa' := exec (Autofill.fetchSuggestions_callback service input) wa in
  input <> "" ->
  service (SpeciesSearch input) = Rejected reason ->
  (Species.suggestions (ui w') = Species.suggestions (ui w) /\
   Species.loadingSuggestions (ui w') = false /\
   Species.errorMsg (ui w') = Species.errorMsg (ui w) /\
   console w' = console w ++ ["Error fetching suggestions:"] /\
   alerts w' = alerts w)
  /\
  (Autofill.suggestions (ui wa') = Autofill.suggestions (ui wa) /\
   Autofill.loadingSuggestions (ui wa') = false /\
   Autofill.errorMsg (ui wa') = Autofill.errorMsg (ui wa) /\
   console wa' = console wa ++ ["Error fetching suggestions:"] /\
   alerts wa' = alerts wa).
Proof.
  intros w' wa' N E. subst w' wa'.
  destruct (String.eqb input "") eqn:Ei; [apply String.eqb_eq in Ei; contradiction|].
  split.
  - run_suggest. rewrite Ei. cbn -[Array_sort data_Species]. rewrite E.
    cbn -[Array_sort data_Species]. repeat split.
  - run_autofill. rewrite Ei. cbn. rewrite E. cbn. repeat split.
Qed.

(** X19.  Selecting a suggestion hides the list, and an answer that arrives
    afterwards shows it again: the selection empties the list but leaves
    the typing flag up, and the answer to a request made before stores its
    species. *)
Theorem late_answer_reopens_suggestions
  (w : World (Species.State Num) Request) (text input : string)
  (sp : SpeciesEntry.t) (d : option (Response.t Num)) :
  let w1 := exec (Species.handle localeCompare (Species.Typed text) ;;
                  Species.handleSuggestionSelect sp) w in
  let w2 := exec (Species.handle localeCompare (Species.Answered input (Fulfilled d))) w1 in
  trim_is_empty text = false ->
  Species.isSearching (ui w) = false ->
  data_Species d <> [] ->
  Species.suggestions_shown (ui w1) = false /\
  Species.suggestions_shown (ui w2) = true /\
  Species.selectedSpecies (ui w2) = Some sp /\
  Species.keyword (ui w2) = SpeciesEntry.ScientificName sp.
Proof.
  intros w1 w2 B I N. subst w2 w1.
  pose proof (Array_sort_perm (Species.byScientificName localeCompare) (data_Species d))
    as P. apply Permutation_length in P.
  unfold Species.handle, Species.handleSuggestionSelect, Species.setSelectedSpecies,
    Species.suggestions_shown.
  run_suggest. rewrite B. cbn -[Array_sort data_Species].
  rewrite (blank_empty text B). cbn -[Array_sort data_Species]. rewrite I.
  split; [reflexivity|]. split; [|now split].
  rewrite <- P. destruct (data_Species d); [now elim N | reflexivity].
Qed.
End InputBox.

Section AutofillSelect.
Context {Num : Type}.
Variable toS : Num -> string.
Variable service : Request -> Settled Num.

(** X20.  Selecting a suggestion in the autofill version searches for
    projects titled with the species name of the suggestion: the project
    search for that name is the first request, the keyword is the name,
    the suggestion list is empty, and the search has settled. *)
Theorem autofill_selection_searches_species_name
  (w : World (Autofill.State Num) Request) (suggestion : SpeciesEntry.t) :
  let name := SpeciesEntry.SpeciesName suggestion in
  let w' := exec (Autofill.handleSuggestionSelect toS service suggestion) w in
  Autofill.keyword (ui w') = name /\
  Autofill.suggestions (ui w') = [] /\
  Autofill.loadingProjects (ui w') = false /\
  exists rest, requests w' = requests w ++ ProjectSearch name :: rest.
Proof.
  intros name w'. subst name w'. unfold Autofill.handleSuggestionSelect.
  run_autofill.
  destruct (service (ProjectSearch _)) as [d1|e1]; cbn.
  2:{ repeat split. now exists []. }
  destruct (projectIDs_of d1) as [|i1 r1]; cbn.
  { repeat split. now exists []. }
  destruct (Autofill.location (ui w)) as [c|]; cbn.
  2:{ repeat split. now exists []. }
  destruct (service (GetSurveys _ _)) as [d2|e2]; cbn.
  2:{ repeat split. eexists. rewrite <- app_assoc. reflexivity. }
  destruct (service (GetProjectsMetadataById _)) as [d3|e3]; cbn;
    repeat split; eexists; rewrite <- !app_assoc; reflexivity.
Qed.
End AutofillSelect.
Local Open Scope js_scope.

(** ** The further properties on the sample data *)

Lemma keyword_failure_surfaced_witness :
  let w' := exec (Keyword.fetchProjects Number_toString Demo.Date_parse Demo.metadata_down)
              (Demo.keyword_world "Koala") in
  Demo.metadata_down (GetProjectsMetadataById [IdNumber 101]) = Rejected "Network Error" /\
  Keyword.errorMsg (ui w') = Some Keyword.generic_error /\
  console w' = ["Error fetching project data:"] /\
  Keyword.loading (ui w') = false.
Proof.
  split; [reflexivity|].
  apply (keyword_failure_surfaced Number_toString Demo.Date_parse Demo.metadata_down
           (Demo.keyword_world "Koala")
           [ProjectSearch "Koala"; GetProjects "-16,145,6000";
            GetProjectsMetadataById [IdNumber 101]]
           (GetProjectsMetadataById [IdNumber 101]) "Network Error").
  - reflexivity.
  - right. right. left. reflexivity.
  - reflexivity.
Defined.

Lemma autofill_failure_surfaced_witness :
  let w' := exec (Autofill.fetchProjects Number_toString Demo.circle_down "Koala")
              Demo.autofill_world in
  Demo.circle_down (GetSurveys [IdNumber 101; IdNumber 102] "-16,145,60000")
    = Rejected "Network Error" /\
  Autofill.errorMsg (ui w') = Some Autofill.generic_error /\
  console w' = ["Error fetching projects:"] /\
  Autofill.loadingProjects (ui w') = false.
Proof.
  split; [reflexivity|].
  apply (autofill_failure_surfaced Number_toString Demo.circle_down
           Demo.autofill_world "Koala"
           [ProjectSearch "Koala";
            GetSurveys [IdNumber 101; IdNumber 102] "-16,145,60000"]
           (GetSurveys [IdNumber 101; IdNumber 102] "-16,145,60000") "Network Error").
  - reflexivity.
  - right. left. reflexivity.
  - reflexivity.
Defined.

Lemma species_survey_failure_stops_witness :
  let w' := exec (Species.handleSearch Number_toString Demo.circle_down)
              Demo.species_world in
  requests w' = [GetSurveysBySpecies (IdNumber 860) "-16,145,60000"] /\
  console w' = ["Error fetching survey data:"] /\
  Species.errorMsg (ui w') = Some Species.survey_error /\
  Species.markers (ui w') = [] /\
  Species.projectMetadata (ui w') = [] /\
  Species.loadingProjects (ui w') = false.
Proof.
  apply (species_survey_failure_stops Number_toString Demo.circle_down Demo.species_world
           (Demo.species "Phascolarctos cinereus") Demo.here "Network Error");
    reflexivity.
Defined.

Lemma species_no_surveys_stops_witness :
  let w' := exec (Species.handleSearch Number_toString Demo.no_surveys_near)
              Demo.species_world in
  requests w' = [GetSurveysBySpecies (IdNumber 860) "-16,145,60000"] /\
  console w' = [] /\
  Species.errorMsg (ui w') = Some Species.no_surveys /\
  Species.markers (ui w') = [] /\
  Species.projectMetadata (ui w') = [] /\
  Species.loadingProjects (ui w') = false.
Proof.
  apply (species_no_surveys_stops Number_toString Demo.no_surveys_near Demo.species_world
           (Demo.species "Phascolarctos cinereus") Demo.here
           (Some (Response.make None (Some []) Missing None)));
    reflexivity.
Defined.

Lemma search_without_location_witness :
  let wk := exec (Keyword.fetchProjects Number_toString Demo.Date_parse Demo.service)
              (Demo.keyword_world_nowhere "Koala") in
  let wa := exec (Autofill.fetchProjects Number_toString Demo.service "Koala")
              Demo.autofill_world_nowhere in
  let ws := exec (Species.handleSearch Number_toString Demo.service)
              Demo.species_world_nowhere in
  (requests wk = [ProjectSearch "Koala"] /\
   Keyword.errorMsg (ui wk) = Some Keyword.generic_error) /\
  (requests wa = [ProjectSearch "Koala"] /\
   Autofill.errorMsg (ui wa) = Some Autofill.generic_error) /\
  (requests ws = [] /\
   Species.errorMsg (ui ws) = Some Species.survey_error).
Proof.
  destruct (search_without_location Number_toString Demo.Date_parse Demo.service
              (Demo.keyword_world_nowhere "Koala") Demo.autofill_world_nowhere "Koala"
              Demo.species_world_nowhere (Demo.species "Phascolarctos cinereus"))
    as [K [A S]].
  split; [|split].
  - destruct (K (Some (Response.make (Some [Demo.project 101; Demo.project 102])
                         None Missing None)))
      as [R [_ [E _]]]; try reflexivity; try discriminate.
    split; [exact R | exact E].
  - destruct (A (Some (Response.make (Some [Demo.project 101; Demo.project 102])
                         None Missing None)))
      as [R [_ [E _]]]; try reflexivity; try discriminate.
    split; [exact R | exact E].
  - destruct S as [R [_ [E _]]]; try reflexivity.
    split; [exact R | exact E].
Defined.

Lemma keyword_counts_witness :
  let w' := exec (Keyword.fetchProjects Number_toString Demo.Date_parse Demo.service)
              (Demo.keyword_world "Koala") in
  Keyword.keywordProjectCount (ui w') = 2 /\
  Keyword.areaProjectCount (ui w') = 1 /\
  Keyword.areaProjectCount (ui w') <= Keyword.keywordProjectCount (ui w').
Proof.
  destruct (keyword_counts Number_toString Demo.Date_parse Demo.service
              (Demo.keyword_world "Koala") Demo.here
              (Some (Response.make (Some [Demo.project 101; Demo.project 102])
                       None Missing None))
              (Some (Response.make (Some [Demo.project 7; Demo.project 101])
                       None Missing None)))
    as [K [A L]]; try reflexivity; try discriminate.
  split; [exact K|]. split; [exact A|]. apply L.
  repeat constructor; simpl; intuition discriminate.
Defined.

(** Without that condition the area count can exceed the keyword count. *)
Example area_count_above_keyword_count :
  let w' := exec (Keyword.fetchProjects Number_toString Demo.Date_parse Demo.listed_twice)
              (Demo.keyword_world "Koala") in
  Keyword.keywordProjectCount (ui w') = 2 /\
  Keyword.areaProjectCount (ui w') = 3.
Proof. split; reflexivity. Qed.

Lemma keyword_keeps_previous_results_witness :
  let w' := exec (Keyword.fetchProjects Number_toString Demo.Date_parse Demo.service)
              (Demo.keyword_world_after "Emu") in
  Keyword.keywordProjectCount (ui w') = 0 /\
  Keyword.areaProjectCount (ui w') = 1 /\
  Keyword.projectMetadata (ui w') = [Demo.metadata 7 (Some "500")] /\
  Keyword.errorMsg (ui w') <> None.
Proof.
  apply (keyword_keeps_previous_results Number_toString Demo.Date_parse Demo.service
           (Demo.keyword_world_after "Emu")
           (Some (Response.make (Some []) None Missing None)));
    reflexivity.
Defined.

Lemma autofill_markers_survive_metadata_failure_witness :
  let w' := exec (Autofill.fetchProjects Number_toString Demo.metadata_down "Koala")
              Demo.autofill_world in
  List.length (Autofill.markers (ui w')) = 1 /\
  Autofill.projectMetadata (ui w') = [] /\
  Autofill.errorMsg (ui w') = Some Autofill.generic_error.
Proof.
  destruct (autofill_markers_survive_metadata_failure Number_toString Demo.metadata_down
              Demo.autofill_world "Koala" Demo.here
              (Some (Response.make (Some [Demo.project 101; Demo.project 102])
                       None Missing None))
              (Some (Response.make None (Some [Demo.feature 145 (-16) (IdNumber 101)])
                       Missing None))
              "Network Error")
    as [_ [L [P E]]]; try reflexivity; try discriminate.
  split; [exact L|]. split; [exact P | exact E].
Defined.

Lemma survey_loop_accounts_for_every_point_witness :
  exists projectIDs markerGroups,
    Species.forEach Number_toString Demo.three_surveys (JsMap.empty, JsObject.empty)
      = Normal (projectIDs, markerGroups) /\
    JsMap.keys projectIDs = [IdNumber 55] /\
    counts_total projectIDs = 3 /\
    group_total markerGroups = 3.
Proof.
  eexists. eexists. split; [reflexivity|].
  destruct (survey_loop_accounts_for_every_point Number_toString Demo.three_surveys
              _ _ eq_refl) as [K [_ [C [G _]]]].
  split; [exact K|]. split; [exact C | exact G].
Defined.

Lemma species_requests_each_project_once_witness :
  let w' := exec (Species.handleSearch Number_toString Demo.service) Demo.species_world in
  requests w' =
    [GetSurveysBySpecies (IdNumber 860) "-16,145,60000";
     GetProjectsMetadataById [IdNumber 55]] /\
  details_total (Species.markers (ui w')) = 3 /\
  0 < List.length (Species.markers (ui w')) <= 3.
Proof.
  destruct (species_requests_each_project_once Number_toString Demo.service
              Demo.species_world (Demo.species "Phascolarctos cinereus") Demo.here
              (Some (Response.make None (Some Demo.three_surveys) Missing None)))
    as [R [D [L _]]]; try reflexivity; try discriminate.
  split; [exact R|]. split; [exact D | exact L].
Defined.

Lemma debounce_lets_through_witness :
  Timers.invoked
    (Timers.settle
       (Timers.loop
          (Timers.calls_at Autofill.suggestion_delay
             [(0%Z, "k"); (100%Z, "ko"); (400%Z, "koa"); (650%Z, "koal")]
             (Timers.debounce 0%Z))))
  = ["ko"; "koal"].
Proof.
  apply (debounce_lets_through Autofill.suggestion_delay 0%Z
           [(0%Z, "k"); (100%Z, "ko"); (400%Z, "koa"); (650%Z, "koal")]).
  simpl. lia.
Defined.

Lemma search_uses_selected_species_after_typing_witness :
  let w1 := exec (Species.handleSuggestionSelect (Demo.species "Koala") ;;
                  Species.handle_all code_unit_compare
                    [Species.Typed "emu";
                     Species.Answered "emu" (Demo.with_species [Demo.species "Emu"])])
              Demo.species_world_typing in
  Species.keyword (ui w1) = "emu" /\
  Species.selectedSpecies (ui w1) = Some (Demo.species "Koala") /\
  exists rest,
    requests (exec (Species.handleSearch Number_toString Demo.service) w1)
    = requests w1 ++ GetSurveysBySpecies (IdNumber 860) "-16,145,60000" :: rest.
Proof.
  split; [reflexivity|].
  destruct (search_uses_selected_species_after_typing Number_toString code_unit_compare
              Demo.service Demo.species_world_typing (Demo.species "Koala")
              [Species.Typed "emu";
               Species.Answered "emu" (Demo.with_species [Demo.species "Emu"])]
              Demo.here) as [S [_ R]]; try reflexivity.
  split; [exact S | exact R].
Defined.

Lemma failed_suggestions_keep_the_list_witness :
  let w' := exec (Species.fetchSuggestions code_unit_compare Demo.offline "koa")
              Demo.species_world_typing in
  let wa' := exec (Autofill.fetchSuggestions_callback Demo.offline "koa")
               Demo.autofill_world in
  Species.suggestions (ui w') = [Demo.species "Koala"] /\
  console w' = ["Error fetching suggestions:"] /\
  Autofill.suggestions (ui wa') = [] /\
  console wa' = ["Error fetching suggestions:"].
Proof.
  destruct (failed_suggestions_keep_the_list code_unit_compare Demo.offline
              Demo.species_world_typing Demo.autofill_world "koa" "Network Error")
    as [[S [_ [_ [C _]]]] [Sa [_ [_ [Ca _]]]]]; try reflexivity; try discriminate.
  split; [exact S|]. split; [exact C|]. split; [exact Sa | exact Ca].
Defined.

Lemma late_answer_reopens_suggestions_witness :
  let w1 := exec (Species.handle code_unit_compare (Species.Typed "koa") ;;
                  Species.handleSuggestionSelect (Demo.species "Koala"))
              Demo.species_world in
  let w2 := exec (Species.handle code_unit_compare
                    (Species.Answered "koa" (Demo.with_species [Demo.species "Kangaroo"])))
              w1 in
  Species.suggestions_shown (ui w1) = false /\
  Species.suggestions_shown (ui w2) = true /\
  Species.selectedSpecies (ui w2) = Some (Demo.species "Koala") /\
  Species.suggestions (ui w2) = [Demo.species "Kangaroo"].
Proof.
  destruct (late_answer_reopens_suggestions code_unit_compare Demo.species_world
              "koa" "koa" (Demo.species "Koala")
              (Some (Response.make None None Missing (Some [Demo.species "Kangaroo"]))))
    as [H1 [H2 [H3 _]]]; try reflexivity; try discriminate.
  split; [exact H1|]. split; [exact H2|]. split; [exact H3 | reflexivity].
Defined.

(** The blank test on white space outside ASCII: such a text is blank, is
    not searched for and lowers the typing flag; a letter after it makes
    the text one to search for. *)
Example blank_texts_outside_ascii :
  let blank := (Demo.no_break_space ++ " " ++ Demo.ideographic_space
                  ++ Demo.byte_order_mark)%string in
  let w' := exec (Species.handleInputChange (Num := Z) blank) Demo.species_world_typing in
  let w'' := exec (Species.handleInputChange (Num := Z) (blank ++ "k")%string)
               Demo.species_world_typing in
  trim_is_empty blank = true /\
  requests w' = [] /\
  Species.isTypingKeyword (ui w') = false /\
  Species.suggestions (ui w') = [] /\
  trim_is_empty (blank ++ "k")%string = false /\
  requests w'' = [SpeciesSearch (blank ++ "k")%string] /\
  Species.isTypingKeyword (ui w'') = true.
Proof. repeat split. Qed.
